(** * SCOA dashboard data collector: a shallow embedding and its properties

  The Python sources embedded here are
    - [src/arbitrage_calculator.py]   (module [ArbitrageCalculator]),
    - [src/exchanges/base_exchange.py] (module [BaseExchange]),
    - [src/exchanges/binance_exchange.py] (module [BinanceExchange]),
    - [src/config.py]                  (module [Config]),
    - [src/data_collector.py]          (module [DataCollector]).

  Python [float] is IEEE binary64, which is the kernel's primitive
  [float]; Python [int] is [Z]; a [str] is the [string] of its UTF-8
  bytes; a [dict] that is only looked up is a [gmap], a [dict] that is
  iterated is the list of its items in insertion order; an exception is a [Raise] in the [result]
  monad. *)

From Stdlib Require Import ZArith String Ascii List Bool Floats Lia.
From Stdlib Require Import Sorted.
From stdpp Require Import base option list gmap strings.

Set Default Proof Using "Type".
Set Warnings "-inexact-float,-register-all".
Local Open Scope Z_scope.

(** ** Python runtime: exceptions, float arithmetic, strings *)

Module Py.

Inductive exn : Type :=
| ZeroDivisionError
| ValueError
| TypeError
| OverflowError
| Exception.

Inductive result (A : Type) : Type :=
| Ok (a : A)
| Raise (e : exn).
Arguments Ok {A} a.
Arguments Raise {A} e.

#[global] Instance result_ret : MRet result := fun _ a => Ok a.
#[global] Instance result_bind : MBind result := fun _ _ f m =>
  match m with
  | Ok a => f a
  | Raise e => Raise e
  end.

Definition is_ok {A} (r : result A) : bool :=
  match r with Ok _ => true | Raise _ => false end.

(** [try: body  except Exception: handler]. *)
Definition try_except {A} (body : result A) (handler : exn -> result A) : result A :=
  match body with
  | Ok a => Ok a
  | Raise e => handler e
  end.

(** [x / y] on floats: the only float operator of the sources that
    raises. *)
Definition truediv (x y : float) : result float :=
  if (y =? 0)%float then Raise ZeroDivisionError else Ok (x / y)%float.

(** [float(n)] for an [int] of moderate size (exact below [2^53]). *)
Definition float_of_int (n : Z) : float :=
  if n <? 0 then (- PrimFloat.of_uint63 (Uint63.of_Z (- n)))%float
  else PrimFloat.of_uint63 (Uint63.of_Z n).

(** [x / n] for a float [x] and an [int] [n]. *)
Definition truediv_int (x : float) (n : Z) : result float :=
  if n =? 0 then Raise ZeroDivisionError else Ok (x / float_of_int n)%float.

(** [max(a, b)]: the later argument wins only when it compares greater. *)
Definition max (a b : float) : float :=
  if (a <? b)%float then b else a.

(** A number as a dict value: [int] or [float]. *)
Inductive num : Type :=
| PInt (n : Z)
| PFloat (f : float).

(** A [str] is a sequence of code points, and a [string] holds its UTF-8
    bytes; a byte that belongs to no well-formed sequence is kept as it
    is. *)
Inductive uchar : Type :=
| Code (cp : N)
| Stray (b : ascii).

(** The payload of a continuation byte [10xxxxxx]. *)
Definition continuation (b : ascii) : option N :=
  let n := N_of_ascii b in
  if ((128 <=? n) && (n <? 192))%N then Some (n - 128)%N else None.

(** The code points of a string: the well-formed UTF-8 sequences of one
    to four bytes, shortest form only and no surrogate. *)
Fixpoint decode (s : string) : list uchar :=
  match s with
  | EmptyString => []
  | String b0 s1 =>
      let n0 := N_of_ascii b0 in
      if (n0 <? 128)%N then Code n0 :: decode s1
      else if (n0 <? 192)%N then Stray b0 :: decode s1
      else if (n0 <? 224)%N then
        match s1 with
        | String b1 s2 =>
            match continuation b1 with
            | Some c1 =>
                let cp := ((n0 - 192) * 64 + c1)%N in
                if (128 <=? cp)%N then Code cp :: decode s2
                else Stray b0 :: decode s1
            | None => Stray b0 :: decode s1
            end
        | _ => Stray b0 :: decode s1
        end
      else if (n0 <? 240)%N then
        match s1 with
        | String b1 (String b2 s3) =>
            match continuation b1, continuation b2 with
            | Some c1, Some c2 =>
                let cp := (((n0 - 224) * 64 + c1) * 64 + c2)%N in
                if ((2048 <=? cp) && negb ((55296 <=? cp) && (cp <? 57344)))%N
                then Code cp :: decode s3 else Stray b0 :: decode s1
            | _, _ => Stray b0 :: decode s1
            end
        | _ => Stray b0 :: decode s1
        end
      else if (n0 <? 248)%N then
        match s1 with
        | String b1 (String b2 (String b3 s4)) =>
            match continuation b1, continuation b2, continuation b3 with
            | Some c1, Some c2, Some c3 =>
                let cp := ((((n0 - 240) * 64 + c1) * 64 + c2) * 64 + c3)%N in
                if ((65536 <=? cp) && (cp <? 1114112))%N
                then Code cp :: decode s4 else Stray b0 :: decode s1
            | _, _, _ => Stray b0 :: decode s1
            end
        | _ => Stray b0 :: decode s1
        end
      else Stray b0 :: decode s1
  end.

(** The UTF-8 bytes of a code point. *)
Definition encode_code (cp : N) : list ascii :=
  if (cp <? 128)%N then [ascii_of_N cp]
  else if (cp <? 2048)%N then
    [ascii_of_N (192 + cp / 64); ascii_of_N (128 + cp mod 64)]
  else if (cp <? 65536)%N then
    [ascii_of_N (224 + cp / 4096); ascii_of_N (128 + (cp / 64) mod 64);
     ascii_of_N (128 + cp mod 64)]
  else
    [ascii_of_N (240 + (cp / 262144) mod 8);
     ascii_of_N (128 + (cp / 4096) mod 64);
     ascii_of_N (128 + (cp / 64) mod 64); ascii_of_N (128 + cp mod 64)].

(** The string of a sequence of code points. *)
Fixpoint encode (l : list uchar) : string :=
  match l with
  | [] => EmptyString
  | Code cp :: l' => fold_right String (encode l') (encode_code cp)
  | Stray b :: l' => String b (encode l')
  end.

(** The code points above ASCII that [str.upper()] changes, each with
    the code points it becomes (Unicode 14, full case mapping). *)
Definition upper_table : list (N * list N) :=
 [(181, [924]); (223, [83; 83]); (224, [192]); (225, [193]); (226, [194]);
  (227, [195]); (228, [196]); (229, [197]); (230, [198]); (231, [199]);
  (232, [200]); (233, [201]); (234, [202]); (235, [203]); (236, [204]);
  (237, [205]); (238, [206]); (239, [207]); (240, [208]); (241, [209]);
  (242, [210]); (243, [211]); (244, [212]); (245, [213]); (246, [214]);
  (248, [216]); (249, [217]); (250, [218]); (251, [219]); (252, [220]);
  (253, [221]); (254, [222]); (255, [376]); (257, [256]); (259, [258]);
  (261, [260]); (263, [262]); (265, [264]); (267, [266]); (269, [268]);
  (271, [270]); (273, [272]); (275, [274]); (277, [276]); (279, [278]);
  (281, [280]); (283, [282]); (285, [284]); (287, [286]); (289, [288]);
  (291, [290]); (293, [292]); (295, [294]); (297, [296]); (299, [298]);
  (301, [300]); (303, [302]); (305, [73]); (307, [306]); (309, [308]);
  (311, [310]); (314, [313]); (316, [315]); (318, [317]); (320, [319]);
  (322, [321]); (324, [323]); (326, [325]); (328, [327]); (329, [700; 78]);
  (331, [330]); (333, [332]); (335, [334]); (337, [336]); (339, [338]);
  (341, [340]); (343, [342]); (345, [344]); (347, [346]); (349, [348]);
  (351, [350]); (353, [352]); (355, [354]); (357, [356]); (359, [358]);
  (361, [360]); (363, [362]); (365, [364]); (367, [366]); (369, [368]);
  (371, [370]); (373, [372]); (375, [374]); (378, [377]); (380, [379]);
  (382, [381]); (383, [83]); (384, [579]); (387, [386]); (389, [388]);
  (392, [391]); (396, [395]); (402, [401]); (405, [502]); (409, [408]);
  (410, [573]); (414, [544]); (417, [416]); (419, [418]); (421, [420]);
  (424, [423]); (429, [428]); (432, [431]); (436, [435]); (438, [437]);
  (441, [440]); (445, [444]); (447, [503]); (453, [452]); (454, [452]);
  (456, [455]); (457, [455]); (459, [458]); (460, [458]); (462, [461]);
  (464, [463]); (466, [465]); (468, [467]); (470, [469]); (472, [471]);
  (474, [473]); (476, [475]); (477, [398]); (479, [478]); (481, [480]);
  (483, [482]); (485, [484]); (487, [486]); (489, [488]); (491, [490]);
  (493, [492]); (495, [494]); (496, [74; 780]); (498, [497]); (499, [497]);
  (501, [500]); (505, [504]); (507, [506]); (509, [508]); (511, [510]);
  (513, [512]); (515, [514]); (517, [516]); (519, [518]); (521, [520]);
  (523, [522]); (525, [524]); (527, [526]); (529, [528]); (531, [530]);
  (533, [532]); (535, [534]); (537, [536]); (539, [538]); (541, [540]);
  (543, [542]); (547, [546]); (549, [548]); (551, [550]); (553, [552]);
  (555, [554]); (557, [556]); (559, [558]); (561, [560]); (563, [562]);
  (572, [571]); (575, [11390]); (576, [11391]); (578, [577]); (583, [582]);
  (585, [584]); (587, [586]); (589, [588]); (591, [590]); (592, [11375]);
  (593, [11373]); (594, [11376]); (595, [385]); (596, [390]); (598, [393]);
  (599, [394]); (601, [399]); (603, [400]); (604, [42923]); (608, [403]);
  (609, [42924]); (611, [404]); (613, [42893]); (614, [42922]); (616, [407]);
  (617, [406]); (618, [42926]); (619, [11362]); (620, [42925]); (623, [412]);
  (625, [11374]); (626, [413]); (629, [415]); (637, [11364]); (640, [422]);
  (642, [42949]); (643, [425]); (647, [42929]); (648, [430]); (649, [580]);
  (650, [433]); (651, [434]); (652, [581]); (658, [439]); (669, [42930]);
  (670, [42928]); (837, [921]); (881, [880]); (883, [882]); (887, [886]);
  (891, [1021]); (892, [1022]); (893, [1023]); (912, [921; 776; 769]);
  (940, [902]); (941, [904]); (942, [905]); (943, [906]);
  (944, [933; 776; 769]); (945, [913]); (946, [914]); (947, [915]);
  (948, [916]); (949, [917]); (950, [918]); (951, [919]); (952, [920]);
  (953, [921]); (954, [922]); (955, [923]); (956, [924]); (957, [925]);
  (958, [926]); (959, [927]); (960, [928]); (961, [929]); (962, [931]);
  (963, [931]); (964, [932]); (965, [933]); (966, [934]); (967, [935]);
  (968, [936]); (969, [937]); (970, [938]); (971, [939]); (972, [908]);
  (973, [910]); (974, [911]); (976, [914]); (977, [920]); (981, [934]);
  (982, [928]); (983, [975]); (985, [984]); (987, [986]); (989, [988]);
  (991, [990]); (993, [992]); (995, [994]); (997, [996]); (999, [998]);
  (1001, [1000]); (1003, [1002]); (1005, [1004]); (1007, [1006]);
  (1008, [922]); (1009, [929]); (1010, [1017]); (1011, [895]); (1013, [917]);
  (1016, [1015]); (1019, [1018]); (1072, [1040]); (1073, [1041]);
  (1074, [1042]); (1075, [1043]); (1076, [1044]); (1077, [1045]);
  (1078, [1046]); (1079, [1047]); (1080, [1048]); (1081, [1049]);
  (1082, [1050]); (1083, [1051]); (1084, [1052]); (1085, [1053]);
  (1086, [1054]); (1087, [1055]); (1088, [1056]); (1089, [1057]);
  (1090, [1058]); (1091, [1059]); (1092, [1060]); (1093, [1061]);
  (1094, [1062]); (1095, [1063]); (1096, [1064]); (1097, [1065]);
  (1098, [1066]); (1099, [1067]); (1100, [1068]); (1101, [1069]);
  (1102, [1070]); (1103, [1071]); (1104, [1024]); (1105, [1025]);
  (1106, [1026]); (1107, [1027]); (1108, [1028]); (1109, [1029]);
  (1110, [1030]); (1111, [1031]); (1112, [1032]); (1113, [1033]);
  (1114, [1034]); (1115, [1035]); (1116, [1036]); (1117, [1037]);
  (1118, [1038]); (1119, [1039]); (1121, [1120]); (1123, [1122]);
  (1125, [1124]); (1127, [1126]); (1129, [1128]); (1131, [1130]);
  (1133, [1132]); (1135, [1134]); (1137, [1136]); (1139, [1138]);
  (1141, [1140]); (1143, [1142]); (1145, [1144]); (1147, [1146]);
  (1149, [1148]); (1151, [1150]); (1153, [1152]); (1163, [1162]);
  (1165, [1164]); (1167, [1166]); (1169, [1168]); (1171, [1170]);
  (1173, [1172]); (1175, [1174]); (1177, [1176]); (1179, [1178]);
  (1181, [1180]); (1183, [1182]); (1185, [1184]); (1187, [1186]);
  (1189, [1188]); (1191, [1190]); (1193, [1192]); (1195, [1194]);
  (1197, [1196]); (1199, [1198]); (1201, [1200]); (1203, [1202]);
  (1205, [1204]); (1207, [1206]); (1209, [1208]); (1211, [1210]);
  (1213, [1212]); (1215, [1214]); (1218, [1217]); (1220, [1219]);
  (1222, [1221]); (1224, [1223]); (1226, [1225]); (1228, [1227]);
  (1230, [1229]); (1231, [1216]); (1233, [1232]); (1235, [1234]);
  (1237, [1236]); (1239, [1238]); (1241, [1240]); (1243, [1242]);
  (1245, [1244]); (1247, [1246]); (1249, [1248]); (1251, [1250]);
  (1253, [1252]); (1255, [1254]); (1257, [1256]); (1259, [1258]);
  (1261, [1260]); (1263, [1262]); (1265, [1264]); (1267, [1266]);
  (1269, [1268]); (1271, [1270]); (1273, [1272]); (1275, [1274]);
  (1277, [1276]); (1279, [1278]); (1281, [1280]); (1283, [1282]);
  (1285, [1284]); (1287, [1286]); (1289, [1288]); (1291, [1290]);
  (1293, [1292]); (1295, [1294]); (1297, [1296]); (1299, [1298]);
  (1301, [1300]); (1303, [1302]); (1305, [1304]); (1307, [1306]);
  (1309, [1308]); (1311, [1310]); (1313, [1312]); (1315, [1314]);
  (1317, [1316]); (1319, [1318]); (1321, [1320]); (1323, [1322]);
  (1325, [1324]); (1327, [1326]); (1377, [1329]); (1378, [1330]);
  (1379, [1331]); (1380, [1332]); (1381, [1333]); (1382, [1334]);
  (1383, [1335]); (1384, [1336]); (1385, [1337]); (1386, [1338]);
  (1387, [1339]); (1388, [1340]); (1389, [1341]); (1390, [1342]);
  (1391, [1343]); (1392, [1344]); (1393, [1345]); (1394, [1346]);
  (1395, [1347]); (1396, [1348]); (1397, [1349]); (1398, [1350]);
  (1399, [1351]); (1400, [1352]); (1401, [1353]); (1402, [1354]);
  (1403, [1355]); (1404, [1356]); (1405, [1357]); (1406, [1358]);
  (1407, [1359]); (1408, [1360]); (1409, [1361]); (1410, [1362]);
  (1411, [1363]); (1412, [1364]); (1413, [1365]); (1414, [1366]);
  (1415, [1333; 1362]); (4304, [7312]); (4305, [7313]); (4306, [7314]);
  (4307, [7315]); (4308, [7316]); (4309, [7317]); (4310, [7318]);
  (4311, [7319]); (4312, [7320]); (4313, [7321]); (4314, [7322]);
  (4315, [7323]); (4316, [7324]); (4317, [7325]); (4318, [7326]);
  (4319, [7327]); (4320, [7328]); (4321, [7329]); (4322, [7330]);
  (4323, [7331]); (4324, [7332]); (4325, [7333]); (4326, [7334]);
  (4327, [7335]); (4328, [7336]); (4329, [7337]); (4330, [7338]);
  (4331, [7339]); (4332, [7340]); (4333, [7341]); (4334, [7342]);
  (4335, [7343]); (4336, [7344]); (4337, [7345]); (4338, [7346]);
  (4339, [7347]); (4340, [7348]); (4341, [7349]); (4342, [7350]);
  (4343, [7351]); (4344, [7352]); (4345, [7353]); (4346, [7354]);
  (4349, [7357]); (4350, [7358]); (4351, [7359]); (5112, [5104]);
  (5113, [5105]); (5114, [5106]); (5115, [5107]); (5116, [5108]);
  (5117, [5109]); (7296, [1042]); (7297, [1044]); (7298, [1054]);
  (7299, [1057]); (7300, [1058]); (7301, [1058]); (7302, [1066]);
  (7303, [1122]); (7304, [42570]); (7545, [42877]); (7549, [11363]);
  (7566, [42950]); (7681, [7680]); (7683, [7682]); (7685, [7684]);
  (7687, [7686]); (7689, [7688]); (7691, [7690]); (7693, [7692]);
  (7695, [7694]); (7697, [7696]); (7699, [7698]); (7701, [7700]);
  (7703, [7702]); (7705, [7704]); (7707, [7706]); (7709, [7708]);
  (7711, [7710]); (7713, [7712]); (7715, [7714]); (7717, [7716]);
  (7719, [7718]); (7721, [7720]); (7723, [7722]); (7725, [7724]);
  (7727, [7726]); (7729, [7728]); (7731, [7730]); (7733, [7732]);
  (7735, [7734]); (7737, [7736]); (7739, [7738]); (7741, [7740]);
  (7743, [7742]); (7745, [7744]); (7747, [7746]); (7749, [7748]);
  (7751, [7750]); (7753, [7752]); (7755, [7754]); (7757, [7756]);
  (7759, [7758]); (7761, [7760]); (7763, [7762]); (7765, [7764]);
  (7767, [7766]); (7769, [7768]); (7771, [7770]); (7773, [7772]);
  (7775, [7774]); (7777, [7776]); (7779, [7778]); (7781, [7780]);
  (7783, [7782]); (7785, [7784]); (7787, [7786]); (7789, [7788]);
  (7791, [7790]); (7793, [7792]); (7795, [7794]); (7797, [7796]);
  (7799, [7798]); (7801, [7800]); (7803, [7802]); (7805, [7804]);
  (7807, [7806]); (7809, [7808]); (7811, [7810]); (7813, [7812]);
  (7815, [7814]); (7817, [7816]); (7819, [7818]); (7821, [7820]);
  (7823, [7822]); (7825, [7824]); (7827, [7826]); (7829, [7828]);
  (7830, [72; 817]); (7831, [84; 776]); (7832, [87; 778]); (7833, [89; 778]);
  (7834, [65; 702]); (7835, [7776]); (7841, [7840]); (7843, [7842]);
  (7845, [7844]); (7847, [7846]); (7849, [7848]); (7851, [7850]);
  (7853, [7852]); (7855, [7854]); (7857, [7856]); (7859, [7858]);
  (7861, [7860]); (7863, [7862]); (7865, [7864]); (7867, [7866]);
  (7869, [7868]); (7871, [7870]); (7873, [7872]); (7875, [7874]);
  (7877, [7876]); (7879, [7878]); (7881, [7880]); (7883, [7882]);
  (7885, [7884]); (7887, [7886]); (7889, [7888]); (7891, [7890]);
  (7893, [7892]); (7895, [7894]); (7897, [7896]); (7899, [7898]);
  (7901, [7900]); (7903, [7902]); (7905, [7904]); (7907, [7906]);
  (7909, [7908]); (7911, [7910]); (7913, [7912]); (7915, [7914]);
  (7917, [7916]); (7919, [7918]); (7921, [7920]); (7923, [7922]);
  (7925, [7924]); (7927, [7926]); (7929, [7928]); (7931, [7930]);
  (7933, [7932]); (7935, [7934]); (7936, [7944]); (7937, [7945]);
  (7938, [7946]); (7939, [7947]); (7940, [7948]); (7941, [7949]);
  (7942, [7950]); (7943, [7951]); (7952, [7960]); (7953, [7961]);
  (7954, [7962]); (7955, [7963]); (7956, [7964]); (7957, [7965]);
  (7968, [7976]); (7969, [7977]); (7970, [7978]); (7971, [7979]);
  (7972, [7980]); (7973, [7981]); (7974, [7982]); (7975, [7983]);
  (7984, [7992]); (7985, [7993]); (7986, [7994]); (7987, [7995]);
  (7988, [7996]); (7989, [7997]); (7990, [7998]); (7991, [7999]);
  (8000, [8008]); (8001, [8009]); (8002, [8010]); (8003, [8011]);
  (8004, [8012]); (8005, [8013]); (8016, [933; 787]); (8017, [8025]);
  (8018, [933; 787; 768]); (8019, [8027]); (8020, [933; 787; 769]);
  (8021, [8029]); (8022, [933; 787; 834]); (8023, [8031]); (8032, [8040]);
  (8033, [8041]); (8034, [8042]); (8035, [8043]); (8036, [8044]);
  (8037, [8045]); (8038, [8046]); (8039, [8047]); (8048, [8122]);
  (8049, [8123]); (8050, [8136]); (8051, [8137]); (8052, [8138]);
  (8053, [8139]); (8054, [8154]); (8055, [8155]); (8056, [8184]);
  (8057, [8185]); (8058, [8170]); (8059, [8171]); (8060, [8186]);
  (8061, [8187]); (8064, [7944; 921]); (8065, [7945; 921]);
  (8066, [7946; 921]); (8067, [7947; 921]); (8068, [7948; 921]);
  (8069, [7949; 921]); (8070, [7950; 921]); (8071, [7951; 921]);
  (8072, [7944; 921]); (8073, [7945; 921]); (8074, [7946; 921]);
  (8075, [7947; 921]); (8076, [7948; 921]); (8077, [7949; 921]);
  (8078, [7950; 921]); (8079, [7951; 921]); (8080, [7976; 921]);
  (8081, [7977; 921]); (8082, [7978; 921]); (8083, [7979; 921]);
  (8084, [7980; 921]); (8085, [7981; 921]); (8086, [7982; 921]);
  (8087, [7983; 921]); (8088, [7976; 921]); (8089, [7977; 921]);
  (8090, [7978; 921]); (8091, [7979; 921]); (8092, [7980; 921]);
  (8093, [7981; 921]); (8094, [7982; 921]); (8095, [7983; 921]);
  (8096, [8040; 921]); (8097, [8041; 921]); (8098, [8042; 921]);
  (8099, [8043; 921]); (8100, [8044; 921]); (8101, [8045; 921]);
  (8102, [8046; 921]); (8103, [8047; 921]); (8104, [8040; 921]);
  (8105, [8041; 921]); (8106, [8042; 921]); (8107, [8043; 921]);
  (8108, [8044; 921]); (8109, [8045; 921]); (8110, [8046; 921]);
  (8111, [8047; 921]); (8112, [8120]); (8113, [8121]); (8114, [8122; 921]);
  (8115, [913; 921]); (8116, [902; 921]); (8118, [913; 834]);
  (8119, [913; 834; 921]); (8124, [913; 921]); (8126, [921]);
  (8130, [8138; 921]); (8131, [919; 921]); (8132, [905; 921]);
  (8134, [919; 834]); (8135, [919; 834; 921]); (8140, [919; 921]);
  (8144, [8152]); (8145, [8153]); (8146, [921; 776; 768]);
  (8147, [921; 776; 769]); (8150, [921; 834]); (8151, [921; 776; 834]);
  (8160, [8168]); (8161, [8169]); (8162, [933; 776; 768]);
  (8163, [933; 776; 769]); (8164, [929; 787]); (8165, [8172]);
  (8166, [933; 834]); (8167, [933; 776; 834]); (8178, [8186; 921]);
  (8179, [937; 921]); (8180, [911; 921]); (8182, [937; 834]);
  (8183, [937; 834; 921]); (8188, [937; 921]); (8526, [8498]); (8560, [8544]);
  (8561, [8545]); (8562, [8546]); (8563, [8547]); (8564, [8548]);
  (8565, [8549]); (8566, [8550]); (8567, [8551]); (8568, [8552]);
  (8569, [8553]); (8570, [8554]); (8571, [8555]); (8572, [8556]);
  (8573, [8557]); (8574, [8558]); (8575, [8559]); (8580, [8579]);
  (9424, [9398]); (9425, [9399]); (9426, [9400]); (9427, [9401]);
  (9428, [9402]); (9429, [9403]); (9430, [9404]); (9431, [9405]);
  (9432, [9406]); (9433, [9407]); (9434, [9408]); (9435, [9409]);
  (9436, [9410]); (9437, [9411]); (9438, [9412]); (9439, [9413]);
  (9440, [9414]); (9441, [9415]); (9442, [9416]); (9443, [9417]);
  (9444, [9418]); (9445, [9419]); (9446, [9420]); (9447, [9421]);
  (9448, [9422]); (9449, [9423]); (11312, [11264]); (11313, [11265]);
  (11314, [11266]); (11315, [11267]); (11316, [11268]); (11317, [11269]);
  (11318, [11270]); (11319, [11271]); (11320, [11272]); (11321, [11273]);
  (11322, [11274]); (11323, [11275]); (11324, [11276]); (11325, [11277]);
  (11326, [11278]); (11327, [11279]); (11328, [11280]); (11329, [11281]);
  (11330, [11282]); (11331, [11283]); (11332, [11284]); (11333, [11285]);
  (11334, [11286]); (11335, [11287]); (11336, [11288]); (11337, [11289]);
  (11338, [11290]); (11339, [11291]); (11340, [11292]); (11341, [11293]);
  (11342, [11294]); (11343, [11295]); (11344, [11296]); (11345, [11297]);
  (11346, [11298]); (11347, [11299]); (11348, [11300]); (11349, [11301]);
  (11350, [11302]); (11351, [11303]); (11352, [11304]); (11353, [11305]);
  (11354, [11306]); (11355, [11307]); (11356, [11308]); (11357, [11309]);
  (11358, [11310]); (11359, [11311]); (11361, [11360]); (11365, [570]);
  (11366, [574]); (11368, [11367]); (11370, [11369]); (11372, [11371]);
  (11379, [11378]); (11382, [11381]); (11393, [11392]); (11395, [11394]);
  (11397, [11396]); (11399, [11398]); (11401, [11400]); (11403, [11402]);
  (11405, [11404]); (11407, [11406]); (11409, [11408]); (11411, [11410]);
  (11413, [11412]); (11415, [11414]); (11417, [11416]); (11419, [11418]);
  (11421, [11420]); (11423, [11422]); (11425, [11424]); (11427, [11426]);
  (11429, [11428]); (11431, [11430]); (11433, [11432]); (11435, [11434]);
  (11437, [11436]); (11439, [11438]); (11441, [11440]); (11443, [11442]);
  (11445, [11444]); (11447, [11446]); (11449, [11448]); (11451, [11450]);
  (11453, [11452]); (11455, [11454]); (11457, [11456]); (11459, [11458]);
  (11461, [11460]); (11463, [11462]); (11465, [11464]); (11467, [11466]);
  (11469, [11468]); (11471, [11470]); (11473, [11472]); (11475, [11474]);
  (11477, [11476]); (11479, [11478]); (11481, [11480]); (11483, [11482]);
  (11485, [11484]); (11487, [11486]); (11489, [11488]); (11491, [11490]);
  (11500, [11499]); (11502, [11501]); (11507, [11506]); (11520, [4256]);
  (11521, [4257]); (11522, [4258]); (11523, [4259]); (11524, [4260]);
  (11525, [4261]); (11526, [4262]); (11527, [4263]); (11528, [4264]);
  (11529, [4265]); (11530, [4266]); (11531, [4267]); (11532, [4268]);
  (11533, [4269]); (11534, [4270]); (11535, [4271]); (11536, [4272]);
  (11537, [4273]); (11538, [4274]); (11539, [4275]); (11540, [4276]);
  (11541, [4277]); (11542, [4278]); (11543, [4279]); (11544, [4280]);
  (11545, [4281]); (11546, [4282]); (11547, [4283]); (11548, [4284]);
  (11549, [4285]); (11550, [4286]); (11551, [4287]); (11552, [4288]);
  (11553, [4289]); (11554, [4290]); (11555, [4291]); (11556, [4292]);
  (11557, [4293]); (11559, [4295]); (11565, [4301]); (42561, [42560]);
  (42563, [42562]); (42565, [42564]); (42567, [42566]); (42569, [42568]);
  (42571, [42570]); (42573, [42572]); (42575, [42574]); (42577, [42576]);
  (42579, [42578]); (42581, [42580]); (42583, [42582]); (42585, [42584]);
  (42587, [42586]); (42589, [42588]); (42591, [42590]); (42593, [42592]);
  (42595, [42594]); (42597, [42596]); (42599, [42598]); (42601, [42600]);
  (42603, [42602]); (42605, [42604]); (42625, [42624]); (42627, [42626]);
  (42629, [42628]); (42631, [42630]); (42633, [42632]); (42635, [42634]);
  (42637, [42636]); (42639, [42638]); (42641, [42640]); (42643, [42642]);
  (42645, [42644]); (42647, [42646]); (42649, [42648]); (42651, [42650]);
  (42787, [42786]); (42789, [42788]); (42791, [42790]); (42793, [42792]);
  (42795, [42794]); (42797, [42796]); (42799, [42798]); (42803, [42802]);
  (42805, [42804]); (42807, [42806]); (42809, [42808]); (42811, [42810]);
  (42813, [42812]); (42815, [42814]); (42817, [42816]); (42819, [42818]);
  (42821, [42820]); (42823, [42822]); (42825, [42824]); (42827, [42826]);
  (42829, [42828]); (42831, [42830]); (42833, [42832]); (42835, [42834]);
  (42837, [42836]); (42839, [42838]); (42841, [42840]); (42843, [42842]);
  (42845, [42844]); (42847, [42846]); (42849, [42848]); (42851, [42850]);
  (42853, [42852]); (42855, [42854]); (42857, [42856]); (42859, [42858]);
  (42861, [42860]); (42863, [42862]); (42874, [42873]); (42876, [42875]);
  (42879, [42878]); (42881, [42880]); (42883, [42882]); (42885, [42884]);
  (42887, [42886]); (42892, [42891]); (42897, [42896]); (42899, [42898]);
  (42900, [42948]); (42903, [42902]); (42905, [42904]); (42907, [42906]);
  (42909, [42908]); (42911, [42910]); (42913, [42912]); (42915, [42914]);
  (42917, [42916]); (42919, [42918]); (42921, [42920]); (42933, [42932]);
  (42935, [42934]); (42937, [42936]); (42939, [42938]); (42941, [42940]);
  (42943, [42942]); (42945, [42944]); (42947, [42946]); (42952, [42951]);
  (42954, [42953]); (42961, [42960]); (42967, [42966]); (42969, [42968]);
  (42998, [42997]); (43859, [42931]); (43888, [5024]); (43889, [5025]);
  (43890, [5026]); (43891, [5027]); (43892, [5028]); (43893, [5029]);
  (43894, [5030]); (43895, [5031]); (43896, [5032]); (43897, [5033]);
  (43898, [5034]); (43899, [5035]); (43900, [5036]); (43901, [5037]);
  (43902, [5038]); (43903, [5039]); (43904, [5040]); (43905, [5041]);
  (43906, [5042]); (43907, [5043]); (43908, [5044]); (43909, [5045]);
  (43910, [5046]); (43911, [5047]); (43912, [5048]); (43913, [5049]);
  (43914, [5050]); (43915, [5051]); (43916, [5052]); (43917, [5053]);
  (43918, [5054]); (43919, [5055]); (43920, [5056]); (43921, [5057]);
  (43922, [5058]); (43923, [5059]); (43924, [5060]); (43925, [5061]);
  (43926, [5062]); (43927, [5063]); (43928, [5064]); (43929, [5065]);
  (43930, [5066]); (43931, [5067]); (43932, [5068]); (43933, [5069]);
  (43934, [5070]); (43935, [5071]); (43936, [5072]); (43937, [5073]);
  (43938, [5074]); (43939, [5075]); (43940, [5076]); (43941, [5077]);
  (43942, [5078]); (43943, [5079]); (43944, [5080]); (43945, [5081]);
  (43946, [5082]); (43947, [5083]); (43948, [5084]); (43949, [5085]);
  (43950, [5086]); (43951, [5087]); (43952, [5088]); (43953, [5089]);
  (43954, [5090]); (43955, [5091]); (43956, [5092]); (43957, [5093]);
  (43958, [5094]); (43959, [5095]); (43960, [5096]); (43961, [5097]);
  (43962, [5098]); (43963, [5099]); (43964, [5100]); (43965, [5101]);
  (43966, [5102]); (43967, [5103]); (64256, [70; 70]); (64257, [70; 73]);
  (64258, [70; 76]); (64259, [70; 70; 73]); (64260, [70; 70; 76]);
  (64261, [83; 84]); (64262, [83; 84]); (64275, [1348; 1350]);
  (64276, [1348; 1333]); (64277, [1348; 1339]); (64278, [1358; 1350]);
  (64279, [1348; 1341]); (65345, [65313]); (65346, [65314]); (65347, [65315]);
  (65348, [65316]); (65349, [65317]); (65350, [65318]); (65351, [65319]);
  (65352, [65320]); (65353, [65321]); (65354, [65322]); (65355, [65323]);
  (65356, [65324]); (65357, [65325]); (65358, [65326]); (65359, [65327]);
  (65360, [65328]); (65361, [65329]); (65362, [65330]); (65363, [65331]);
  (65364, [65332]); (65365, [65333]); (65366, [65334]); (65367, [65335]);
  (65368, [65336]); (65369, [65337]); (65370, [65338]); (66600, [66560]);
  (66601, [66561]); (66602, [66562]); (66603, [66563]); (66604, [66564]);
  (66605, [66565]); (66606, [66566]); (66607, [66567]); (66608, [66568]);
  (66609, [66569]); (66610, [66570]); (66611, [66571]); (66612, [66572]);
  (66613, [66573]); (66614, [66574]); (66615, [66575]); (66616, [66576]);
  (66617, [66577]); (66618, [66578]); (66619, [66579]); (66620, [66580]);
  (66621, [66581]); (66622, [66582]); (66623, [66583]); (66624, [66584]);
  (66625, [66585]); (66626, [66586]); (66627, [66587]); (66628, [66588]);
  (66629, [66589]); (66630, [66590]); (66631, [66591]); (66632, [66592]);
  (66633, [66593]); (66634, [66594]); (66635, [66595]); (66636, [66596]);
  (66637, [66597]); (66638, [66598]); (66639, [66599]); (66776, [66736]);
  (66777, [66737]); (66778, [66738]); (66779, [66739]); (66780, [66740]);
  (66781, [66741]); (66782, [66742]); (66783, [66743]); (66784, [66744]);
  (66785, [66745]); (66786, [66746]); (66787, [66747]); (66788, [66748]);
  (66789, [66749]); (66790, [66750]); (66791, [66751]); (66792, [66752]);
  (66793, [66753]); (66794, [66754]); (66795, [66755]); (66796, [66756]);
  (66797, [66757]); (66798, [66758]); (66799, [66759]); (66800, [66760]);
  (66801, [66761]); (66802, [66762]); (66803, [66763]); (66804, [66764]);
  (66805, [66765]); (66806, [66766]); (66807, [66767]); (66808, [66768]);
  (66809, [66769]); (66810, [66770]); (66811, [66771]); (66967, [66928]);
  (66968, [66929]); (66969, [66930]); (66970, [66931]); (66971, [66932]);
  (66972, [66933]); (66973, [66934]); (66974, [66935]); (66975, [66936]);
  (66976, [66937]); (66977, [66938]); (66979, [66940]); (66980, [66941]);
  (66981, [66942]); (66982, [66943]); (66983, [66944]); (66984, [66945]);
  (66985, [66946]); (66986, [66947]); (66987, [66948]); (66988, [66949]);
  (66989, [66950]); (66990, [66951]); (66991, [66952]); (66992, [66953]);
  (66993, [66954]); (66995, [66956]); (66996, [66957]); (66997, [66958]);
  (66998, [66959]); (66999, [66960]); (67000, [66961]); (67001, [66962]);
  (67003, [66964]); (67004, [66965]); (68800, [68736]); (68801, [68737]);
  (68802, [68738]); (68803, [68739]); (68804, [68740]); (68805, [68741]);
  (68806, [68742]); (68807, [68743]); (68808, [68744]); (68809, [68745]);
  (68810, [68746]); (68811, [68747]); (68812, [68748]); (68813, [68749]);
  (68814, [68750]); (68815, [68751]); (68816, [68752]); (68817, [68753]);
  (68818, [68754]); (68819, [68755]); (68820, [68756]); (68821, [68757]);
  (68822, [68758]); (68823, [68759]); (68824, [68760]); (68825, [68761]);
  (68826, [68762]); (68827, [68763]); (68828, [68764]); (68829, [68765]);
  (68830, [68766]); (68831, [68767]); (68832, [68768]); (68833, [68769]);
  (68834, [68770]); (68835, [68771]); (68836, [68772]); (68837, [68773]);
  (68838, [68774]); (68839, [68775]); (68840, [68776]); (68841, [68777]);
  (68842, [68778]); (68843, [68779]); (68844, [68780]); (68845, [68781]);
  (68846, [68782]); (68847, [68783]); (68848, [68784]); (68849, [68785]);
  (68850, [68786]); (71872, [71840]); (71873, [71841]); (71874, [71842]);
  (71875, [71843]); (71876, [71844]); (71877, [71845]); (71878, [71846]);
  (71879, [71847]); (71880, [71848]); (71881, [71849]); (71882, [71850]);
  (71883, [71851]); (71884, [71852]); (71885, [71853]); (71886, [71854]);
  (71887, [71855]); (71888, [71856]); (71889, [71857]); (71890, [71858]);
  (71891, [71859]); (71892, [71860]); (71893, [71861]); (71894, [71862]);
  (71895, [71863]); (71896, [71864]); (71897, [71865]); (71898, [71866]);
  (71899, [71867]); (71900, [71868]); (71901, [71869]); (71902, [71870]);
  (71903, [71871]); (93792, [93760]); (93793, [93761]); (93794, [93762]);
  (93795, [93763]); (93796, [93764]); (93797, [93765]); (93798, [93766]);
  (93799, [93767]); (93800, [93768]); (93801, [93769]); (93802, [93770]);
  (93803, [93771]); (93804, [93772]); (93805, [93773]); (93806, [93774]);
  (93807, [93775]); (93808, [93776]); (93809, [93777]); (93810, [93778]);
  (93811, [93779]); (93812, [93780]); (93813, [93781]); (93814, [93782]);
  (93815, [93783]); (93816, [93784]); (93817, [93785]); (93818, [93786]);
  (93819, [93787]); (93820, [93788]); (93821, [93789]); (93822, [93790]);
  (93823, [93791]); (125218, [125184]); (125219, [125185]);
  (125220, [125186]); (125221, [125187]); (125222, [125188]);
  (125223, [125189]); (125224, [125190]); (125225, [125191]);
  (125226, [125192]); (125227, [125193]); (125228, [125194]);
  (125229, [125195]); (125230, [125196]); (125231, [125197]);
  (125232, [125198]); (125233, [125199]); (125234, [125200]);
  (125235, [125201]); (125236, [125202]); (125237, [125203]);
  (125238, [125204]); (125239, [125205]); (125240, [125206]);
  (125241, [125207]); (125242, [125208]); (125243, [125209]);
  (125244, [125210]); (125245, [125211]); (125246, [125212]);
  (125247, [125213]); (125248, [125214]); (125249, [125215]);
  (125250, [125216]); (125251, [125217])]%N.

Fixpoint table_lookup (cp : N) (table : list (N * list N)) : option (list N) :=
  match table with
  | [] => None
  | (k, v) :: rest => if (k =? cp)%N then Some v else table_lookup cp rest
  end.

(** [c.upper()] for one code point. *)
Definition upper_code (cp : N) : list N :=
  if (cp <? 128)%N
  then if ((97 <=? cp) && (cp <=? 122))%N then [(cp - 32)%N] else [cp]
  else default [cp] (table_lookup cp upper_table).

Definition upper_uchar (u : uchar) : list uchar :=
  match u with
  | Code cp => map Code (upper_code cp)
  | Stray b => [Stray b]
  end.

(** [s.upper()]: every code point is mapped on its own. *)
Definition upper (s : string) : string :=
  encode (flat_map upper_uchar (decode s)).
Arguments upper !s.

(** [s.endswith(suffix)]. *)
Definition endswith (s suffix : string) : bool :=
  let n := String.length s in
  let m := String.length suffix in
  if (m <=? n)%nat then String.eqb (substring (n - m) m s) suffix else false.

(** [s.replace(old, new)] for a non-empty [old]: every occurrence, left
    to right, without overlap.  [skip] counts the characters of a match
    still to be dropped. *)
Fixpoint replace_from (old new s : string) (skip : nat) : string :=
  match s with
  | EmptyString => EmptyString
  | String c s' =>
      match skip with
      | S k => replace_from old new s' k
      | O =>
          if String.prefix old s
          then new ++ replace_from old new s' (String.length old - 1)
          else String c (replace_from old new s' O)
      end
  end.

Definition replace (s old new : string) : string := replace_from old new s O.

(** [bool(s)] for a string. *)
Definition truthy_str (s : string) : bool :=
  match s with EmptyString => false | _ => true end.

(** [bool(l)] for a list. *)
Definition truthy_list {A} (l : list A) : bool :=
  match l with [] => false | _ => true end.

End Py.
Export Py.

(** ** [datetime.datetime] (naive) *)

Module DateTime.

Record datetime : Type := mk_datetime {
  year : Z; month : Z; day : Z;
  hour : Z; minute : Z; second : Z; microsecond : Z
}.

Definition is_leap (y : Z) : bool :=
  (y mod 4 =? 0) && (negb (y mod 100 =? 0) || (y mod 400 =? 0)).

Definition days_in_month (y m : Z) : Z :=
  if m =? 2 then (if is_leap y then 29 else 28)
  else if (m =? 4) || (m =? 6) || (m =? 9) || (m =? 11) then 30
  else 31.

Definition between (lo x hi : Z) : bool := (lo <=? x) && (x <=? hi).

(** The constructor's [_check_date_fields] and [_check_time_fields]. *)
Definition check_fields (dt : datetime) : result datetime :=
  if between 1 (year dt) 9999 && between 1 (month dt) 12
     && between 1 (day dt) (days_in_month (year dt) (month dt))
     && between 0 (hour dt) 23 && between 0 (minute dt) 59
     && between 0 (second dt) 59 && between 0 (microsecond dt) 999999
  then Ok dt else Raise ValueError.

(** Whether an [int] fits the C [int] that the keywords of [replace] are
    parsed into. *)
Definition fits_c_int (n : Z) : bool := (- 2 ^ 31 <=? n) && (n <? 2 ^ 31).

Definition keyword_fits (value : option Z) : bool :=
  match value with
  | Some n => fits_c_int n
  | None => true
  end.

(** [dt.replace(day=..., hour=..., minute=..., second=..., microsecond=...)]:
    the keywords are parsed first, and one that does not fit a C [int]
    raises [OverflowError]; an absent keyword keeps the field; the new
    value is then built by the constructor, which validates it. *)
Definition replace (dt : datetime) (day' hour' minute' second' microsecond' : option Z)
  : result datetime :=
  if forallb keyword_fits [day'; hour'; minute'; second'; microsecond']
  then
    check_fields
      {| year := year dt; month := month dt;
         day := default (day dt) day';
         hour := default (hour dt) hour';
         minute := default (minute dt) minute';
         second := default (second dt) second';
         microsecond := default (microsecond dt) microsecond' |}
  else Raise OverflowError.

(** [dt.date()]. *)
Definition date (dt : datetime) : Z * Z * Z := (year dt, month dt, day dt).

Definition date_eqb (d1 d2 : Z * Z * Z) : bool :=
  let '(y1, m1, dd1) := d1 in
  let '(y2, m2, dd2) := d2 in
  (y1 =? y2) && (m1 =? m2) && (dd1 =? dd2).

Definition fields (dt : datetime) : list Z :=
  [year dt; month dt; day dt; hour dt; minute dt; second dt; microsecond dt].

Fixpoint lex_compare (a b : list Z) : comparison :=
  match a, b with
  | x :: a', y :: b' =>
      match x ?= y with
      | Eq => lex_compare a' b'
      | c => c
      end
  | [], [] => Eq
  | [], _ :: _ => Lt
  | _ :: _, [] => Gt
  end.

(** [a >= b] on naive datetimes: field-wise, most significant first. *)
Definition geb (a b : datetime) : bool :=
  match lex_compare (fields a) (fields b) with
  | Lt => false
  | _ => true
  end.

Definition days_before_year (y : Z) : Z :=
  let y' := y - 1 in y' * 365 + y' / 4 - y' / 100 + y' / 400.

Definition days_before_month (y m : Z) : Z :=
  nth (Z.to_nat m) [0; 0; 31; 59; 90; 120; 151; 181; 212; 243; 273; 304; 334] 0
  + (if (2 <? m) && is_leap y then 1 else 0).

Definition toordinal (dt : datetime) : Z :=
  days_before_year (year dt) + days_before_month (year dt) (month dt) + day dt.

Definition microseconds (dt : datetime) : Z :=
  ((toordinal dt * 86400
    + hour dt * 3600 + minute dt * 60 + second dt) * 1000000)
  + microsecond dt.

(** [(a - b).days]: a [timedelta] is normalised with a non-negative
    remainder, so [days] is the floor. *)
Definition sub_days (a b : datetime) : Z :=
  (microseconds a - microseconds b) / (86400 * 1000000).

End DateTime.
Export DateTime.

(** ** [arbitrage_calculator.py] *)

Module ArbitrageCalculator.

(** The three values of [suggested_action]. *)
Inductive action : Type :=
| buy_binance_sell_htx
| buy_htx_sell_binance
| no_action.

Record ArbitrageOpportunity : Type := {
  opp_timestamp : datetime;
  binance_price : float;
  htx_price : float;
  price_diff : float;
  price_diff_percent : float;
  suggested_action : action;
  potential_profit_percent : float
}.

Record PnLData : Type := {
  pnl_timestamp : datetime;
  total_value_usdt : float;
  binance_balance_usdt : float;
  htx_balance_usdt : float;
  daily_pnl : float;
  daily_pnl_percent : float;
  cumulative_pnl : float;
  cumulative_pnl_percent : float
}.

(** The instance attributes of an [ArbitrageCalculator]. *)
Record t : Type := {
  initial_capital : float;
  transaction_fee : float;
  min_profit_threshold : float;
  price_history : list ArbitrageOpportunity;
  pnl_history : list PnLData
}.

Definition default_initial_capital : float := 10000.0.

(** [__init__(self, initial_capital=10000.0)]. *)
Definition init (initial_capital : float) : t :=
  {| initial_capital := initial_capital;
     transaction_fee := 0.001;
     min_profit_threshold := 0.05;
     price_history := [];
     pnl_history := [] |}.

Definition with_price_history (self : t) (h : list ArbitrageOpportunity) : t :=
  {| initial_capital := initial_capital self;
     transaction_fee := transaction_fee self;
     min_profit_threshold := min_profit_threshold self;
     price_history := h;
     pnl_history := pnl_history self |}.

Definition with_pnl_history (self : t) (h : list PnLData) : t :=
  {| initial_capital := initial_capital self;
     transaction_fee := transaction_fee self;
     min_profit_threshold := min_profit_threshold self;
     price_history := price_history self;
     pnl_history := h |}.

(** [calculate_arbitrage_opportunity]; [now] is the reading of
    [datetime.now()].  The result pairs the returned opportunity with
    the calculator after the append.  When [max(0, potential_profit)]
    is the [int] 0 it is written as the float 0. *)
Definition calculate_arbitrage_opportunity
    (self : t) (binance_price htx_price : float)
    (timestamp : option datetime) (now : datetime)
  : result (ArbitrageOpportunity * t) :=
  let timestamp := default now timestamp in
  let price_diff := (binance_price - htx_price)%float in
  q ← truediv price_diff ((binance_price + htx_price) / 2)%float;
  let price_diff_percent := (q * 100)%float in
  let potential_profit :=
    (abs price_diff_percent - (transaction_fee self * 2 * 100))%float in
  let suggested_action :=
    if (min_profit_threshold self <? price_diff_percent)%float
    then buy_htx_sell_binance
    else if (price_diff_percent <? - min_profit_threshold self)%float
    then buy_binance_sell_htx
    else no_action in
  let opportunity :=
    {| opp_timestamp := timestamp;
       binance_price := binance_price;
       htx_price := htx_price;
       price_diff := price_diff;
       price_diff_percent := price_diff_percent;
       suggested_action := suggested_action;
       potential_profit_percent := Py.max 0 potential_profit |} in
  Ok (opportunity, with_price_history self (price_history self ++ [opportunity])).

(** One iteration of the loop of [_calculate_total_value_usdt]. *)
Definition add_asset_value (prices : gmap string float)
    (total_value : float) (item : string * float) : float :=
  let '(asset, amount) := item in
  if (amount <=? 0)%float then total_value
  else if String.eqb (upper asset) "USDT" then (total_value + amount)%float
  else if String.eqb (upper asset) "FDUSD" then
    let fdusd_price := default 1.0%float (prices !! "fdusd_usdt"%string) in
    (total_value + amount * fdusd_price)%float
  else if String.eqb (upper asset) "USDC" then
    let usdc_price := default 1.0%float (prices !! "usdc_usdt"%string) in
    (total_value + amount * usdc_price)%float
  else total_value.

(** [_calculate_total_value_usdt]; [balance] is [balance.items()]. *)
Definition _calculate_total_value_usdt
    (balance : list (string * float)) (prices : gmap string float) : float :=
  fold_left (add_asset_value prices) balance 0%float.

(** [calculate_pnl]. *)
Definition calculate_pnl
    (self : t) (binance_balance htx_balance : list (string * float))
    (current_prices : gmap string float)
    (timestamp : option datetime) (now : datetime)
  : result (PnLData * t) :=
  let timestamp := default now timestamp in
  let binance_total := _calculate_total_value_usdt binance_balance current_prices in
  let htx_total := _calculate_total_value_usdt htx_balance current_prices in
  let total_value := (binance_total + htx_total)%float in
  let cumulative_pnl := (total_value - initial_capital self)%float in
  q ← truediv cumulative_pnl (initial_capital self);
  let cumulative_pnl_percent := (q * 100)%float in
  '(daily_pnl, daily_pnl_percent) ←
    match last (pnl_history self) with
    | Some last_pnl =>
        if negb (date_eqb (date timestamp) (date (pnl_timestamp last_pnl)))
        then
          let daily_pnl := (total_value - total_value_usdt last_pnl)%float in
          r ← truediv daily_pnl (total_value_usdt last_pnl);
          Ok (daily_pnl, (r * 100)%float)
        else Ok (0%float, 0%float)
    | None => Ok (0%float, 0%float)
    end;
  let pnl_data :=
    {| pnl_timestamp := timestamp;
       total_value_usdt := total_value;
       binance_balance_usdt := binance_total;
       htx_balance_usdt := htx_total;
       daily_pnl := daily_pnl;
       daily_pnl_percent := daily_pnl_percent;
       cumulative_pnl := cumulative_pnl;
       cumulative_pnl_percent := cumulative_pnl_percent |} in
  Ok (pnl_data, with_pnl_history self (pnl_history self ++ [pnl_data])).

(** The start of the current day:
    [datetime.now().replace(hour=0, minute=0, second=0, microsecond=0)]. *)
Definition midnight (now : datetime) : result datetime :=
  DateTime.replace now None (Some 0) (Some 0) (Some 0) (Some 0).

(** [get_recent_opportunities(hours)]. *)
Definition get_recent_opportunities (self : t) (now : datetime) (hours : Z)
  : result (list ArbitrageOpportunity) :=
  cutoff_time ← midnight now;
  cutoff_time ← DateTime.replace cutoff_time
                  None (Some (hour cutoff_time - hours)) None None None;
  Ok (List.filter (fun opp => geb (opp_timestamp opp) cutoff_time) (price_history self)).

(** [get_recent_pnl(days)]. *)
Definition get_recent_pnl (self : t) (now : datetime) (days : Z)
  : result (list PnLData) :=
  cutoff_time ← midnight now;
  cutoff_time ← DateTime.replace cutoff_time
                  (Some (day cutoff_time - days)) None None None None;
  Ok (List.filter (fun pnl => geb (pnl_timestamp pnl) cutoff_time) (pnl_history self)).

(** The drawdown loop of [get_performance_stats]: the state is
    [(max_value, max_drawdown)]. *)
Definition drawdown_step (st : result (float * float)) (pnl : PnLData)
  : result (float * float) :=
  '(max_value, max_drawdown) ← st;
  let max_value := Py.max max_value (total_value_usdt pnl) in
  q ← truediv (max_value - total_value_usdt pnl)%float max_value;
  let drawdown := (q * 100)%float in
  Ok (max_value, Py.max max_drawdown drawdown).

(** The period-over-period returns: [history[i-1], history[i]] for
    [i] in [range(1, len(history))]. *)
Fixpoint daily_returns (history : list PnLData) : result (list float) :=
  match history with
  | prev :: ((curr :: _) as rest) =>
      let prev_value := total_value_usdt prev in
      let curr_value := total_value_usdt curr in
      daily_return ← truediv (curr_value - prev_value)%float prev_value;
      rs ← daily_returns rest;
      Ok (daily_return :: rs)
  | _ => Ok []
  end.

Section Statistics.

(** [statistics.mean] and [statistics.stdev] of the Python standard
    library: each returns a float or raises (as [stdev] does on data that
    are not finite). *)
Variable statistics_mean : list float -> result float.
Variable statistics_stdev : list float -> result float.

Definition sharpe_ratio_of (returns : list float) : result num :=
  match returns with
  | [] => Ok (PInt 0)
  | _ :: _ =>
      mean ← statistics_mean returns;
      let avg_return := (mean * 365)%float in
      return_std ←
        (if (1 <? Z.of_nat (length returns))
         then stdev ← statistics_stdev returns; Ok (stdev * sqrt 365)%float
         else Ok 0%float);
      if (0 <? return_std)%float
      then q ← truediv avg_return return_std; Ok (PFloat q)
      else Ok (PInt 0)
  end.

(** [get_performance_stats]: the returned [dict]. *)
Definition get_performance_stats (self : t) (now : datetime)
  : result (gmap string num) :=
  match pnl_history self, last (pnl_history self) with
  | first :: _, Some latest_pnl =>
      '(_, max_drawdown) ←
        fold_left drawdown_step (pnl_history self)
                  (Ok (initial_capital self, 0%float));
      let days_running := Z.max 1 (sub_days now (pnl_timestamp first)) in
      q ← truediv_int (cumulative_pnl_percent latest_pnl) days_running;
      let annualized_return := (q * 365)%float in
      returns ← daily_returns (pnl_history self);
      sharpe_ratio ← sharpe_ratio_of returns;
      Ok (<["total_return_percent"%string := PFloat (cumulative_pnl_percent latest_pnl)]>
          (<["annualized_return_percent"%string := PFloat annualized_return]>
          (<["max_drawdown_percent"%string := PFloat max_drawdown]>
          (<["sharpe_ratio"%string := sharpe_ratio]>
          (<["days_running"%string := PInt days_running]>
          (<["current_value_usdt"%string := PFloat (total_value_usdt latest_pnl)]>
           ∅))))))
  | _, _ => Ok ∅
  end.

End Statistics.

End ArbitrageCalculator.

(** ** [exchanges/base_exchange.py] *)

Module BaseExchange.

Record Balance : Type := {
  bal_asset : string;
  bal_free : float;
  bal_locked : float;
  bal_total : float;
  bal_timestamp : datetime
}.

Record Trade : Type := {
  tr_symbol : string;
  tr_side : string;
  tr_amount : float;
  tr_price : float;
  tr_fee : float;
  tr_fee_asset : string;
  tr_timestamp : datetime;
  tr_trade_id : string
}.

Record MarketData : Type := {
  md_symbol : string;
  md_price : float;
  md_volume_24h : float;
  md_change_24h : float;
  md_change_24h_percent : float;
  md_high_24h : float;
  md_low_24h : float;
  md_timestamp : datetime
}.

(** An entry of the [assets] dict of a portfolio value. *)
Record AssetValue : Type := {
  av_amount : float;
  av_value_usdt : float;
  av_price : float
}.

(** The dict returned by [get_portfolio_value]. *)
Record PortfolioValue : Type := {
  pv_total_value_usdt : float;
  pv_assets : gmap string AssetValue;
  pv_timestamp : datetime
}.

(** The constructor arguments kept by [BaseExchange.__init__] that the
    orchestrator's [is_enabled] test reads. *)
Record settings : Type := {
  enabled : bool;
  api_key : string;
  api_secret : string;
  rate_limit : Z
}.

(** [is_enabled]. *)
Definition is_enabled (self : settings) : bool :=
  enabled self && truthy_str (api_key self) && truthy_str (api_secret self).

(** The least magnitude of an [int] that does not convert to a [float]:
    halfway between the largest binary64 value and [2^1024]. *)
Definition float_int_limit : Z := 2 ^ 1024 - 2 ^ 970.

(** [rate_limit_check]: it sleeps when called too soon; its only
    observable outcome is the division [60.0 / self.rate_limit], which
    converts the [int] to a [float] and then divides. *)
Definition rate_limit_check (self : settings) : result unit :=
  if float_int_limit <=? Z.abs (rate_limit self) then Raise OverflowError
  else if rate_limit self =? 0 then Raise ZeroDivisionError
  else Ok tt.

(** The price dict of [get_portfolio_value]: one pass over the market
    data, later entries overwriting earlier ones. *)
Definition add_price (prices : gmap string float) (data : MarketData)
  : gmap string float :=
  let symbol := upper (md_symbol data) in
  if endswith symbol "USDT"
  then <[Py.replace symbol "USDT" "" := md_price data]> prices
  else prices.

Definition price_table (market_data : list MarketData) : gmap string float :=
  fold_left add_price market_data ∅.

(** One iteration of the valuation loop; the state is
    [(total_value, asset_values)]. *)
Definition add_balance_value (prices : gmap string float)
    (st : float * gmap string AssetValue) (balance : Balance)
  : float * gmap string AssetValue :=
  let '(total_value, asset_values) := st in
  if (0 <? bal_total balance)%float then
    let asset := upper (bal_asset balance) in
    let value :=
      if String.eqb asset "USDT" then bal_total balance
      else match prices !! asset with
           | Some p => (bal_total balance * p)%float
           | None => 0%float
           end in
    ((total_value + value)%float,
     <[asset := {| av_amount := bal_total balance;
                   av_value_usdt := value;
                   av_price := default 0%float (prices !! asset) |}]> asset_values)
  else st.

(** The valuation that [get_portfolio_value] performs on the balances
    and market data it fetched. *)
Definition portfolio_valuation (balances : list Balance)
    (market_data : list MarketData) (now : datetime) : PortfolioValue :=
  let prices := price_table market_data in
  let '(total_value, asset_values) :=
    fold_left (add_balance_value prices) balances (0%float, ∅) in
  {| pv_total_value_usdt := total_value;
     pv_assets := asset_values;
     pv_timestamp := now |}.

(** [get_portfolio_value]: the two adapter calls are the abstract
    methods of the subclass; any failure is re-raised as a plain
    [Exception]. *)
Definition get_portfolio_value
    (get_account_balance : result (list Balance))
    (get_market_data : result (list MarketData)) (now : datetime)
  : result PortfolioValue :=
  try_except
    (balances ← get_account_balance;
     market_data ← get_market_data;
     Ok (portfolio_valuation balances market_data now))
    (fun _ => Raise Exception).

End BaseExchange.

(** ** [exchanges/binance_exchange.py] *)

Module BinanceExchange.
Import BaseExchange.

(** An amount in the client's balance structure: a float, or [None]. *)
Inductive amount : Type :=
| ANone
| AFloat (f : float).

(** [float(x)]. *)
Definition to_float (x : amount) : result float :=
  match x with
  | AFloat f => Ok f
  | ANone => Raise TypeError
  end.

(** The dict returned by the client's [fetch_balance]: the three
    per-asset sub-dicts, each possibly absent. *)
Record balance_data : Type := {
  total : option (list (string * amount));
  free : option (gmap string amount);
  used : option (gmap string amount)
}.

(** [d.get(key, {}).get(asset, 0.0)]. *)
Definition get_amount (d : option (gmap string amount)) (asset : string) : amount :=
  default (AFloat 0.0) (default ∅ d !! asset).

(** One iteration of the loop of [get_account_balance]. *)
Definition add_balance (data : balance_data) (current_time : datetime)
    (acc : result (list Balance)) (item : string * amount)
  : result (list Balance) :=
  balances ← acc;
  let '(asset, d) := item in
  match d with
  | AFloat x =>
      if (0 <? x)%float then
        f ← to_float (get_amount (free data) asset);
        u ← to_float (get_amount (used data) asset);
        Ok (balances ++ [{| bal_asset := asset;
                            bal_free := f;
                            bal_locked := u;
                            bal_total := x;
                            bal_timestamp := current_time |}])
      else Ok balances
  | ANone => Ok balances
  end.

(** [get_account_balance]: [fetch_balance] is the outcome of the client
    call, [now] the reading of [datetime.now()]. *)
Definition get_account_balance (self : settings)
    (fetch_balance : result balance_data) (now : datetime)
  : result (list Balance) :=
  try_except
    (_ ← rate_limit_check self;
     data ← fetch_balance;
     fold_left (add_balance data now) (default [] (total data)) (Ok []))
    (fun _ => Ok []).

End BinanceExchange.

(** ** [config.py] *)

Module Config.

(** A loaded YAML document. *)
Inductive yaml : Type :=
| YNull
| YBool (b : bool)
| YInt (n : Z)
| YFloat (f : float)
| YStr (s : string)
| YList (l : list yaml)
| YMap (items : list (string * yaml)).

(** A [Config] object is its [config_data]. *)
Definition t : Type := yaml.

Fixpoint assoc (key : string) (items : list (string * yaml)) : option yaml :=
  match items with
  | [] => None
  | (k, v) :: rest => if String.eqb k key then Some v else assoc key rest
  end.

(** [value[key]] for a string key: [None] stands for the [KeyError] or
    [TypeError] that [get] catches. *)
Definition subscript (value : yaml) (key : string) : option yaml :=
  match value with
  | YMap items => assoc key items
  | _ => None
  end.

(** [key_path.split('.')]; [cur] is the piece being read, reversed. *)
Fixpoint split_dot_from (s : string) (cur : string) : list string :=
  match s with
  | EmptyString => [String.rev cur]
  | String c s' =>
      if Ascii.eqb c "."%char then String.rev cur :: split_dot_from s' EmptyString
      else split_dot_from s' (String c cur)
  end.

Definition split_dot (s : string) : list string := split_dot_from s EmptyString.

(** [get(key_path, default)]. *)
Definition get (self : t) (key_path : string) (default : yaml) : yaml :=
  let keys := split_dot key_path in
  match fold_left (fun value key => v ← value; subscript v key) keys (Some self) with
  | Some value => value
  | None => default
  end.

Definition get_collection_interval (self : t) : yaml :=
  get self "data_collection.interval_minutes" (YInt 5).

Definition get_concurrent_requests (self : t) : yaml :=
  get self "data_collection.concurrent_requests" (YInt 5).

Definition get_health_check_interval (self : t) : yaml :=
  get self "monitoring.health_check_interval" (YInt 60).

Definition get_exchanges_config (self : t) : yaml :=
  get self "exchanges" (YMap []).

End Config.

(** ** [data_collector.py] *)

Module DataCollector.
Import BaseExchange.

(** The [stats] dict. *)
Record stats_t : Type := {
  collections_completed : Z;
  collections_failed : Z;
  last_collection_time : option datetime;
  total_runtime : float;
  start_time : option datetime
}.

(** What the collector hands to the database manager.  Every
    [write_*] method of the manager catches its own exceptions, so a
    write never raises into the collector. *)
Inductive write : Type :=
| write_balances (exchange_name : string) (balances : list Balance)
| write_market_data (exchange_name : string) (market_data : list MarketData)
| write_trades (exchange_name : string) (trades : list Trade)
| write_portfolio_value (exchange_name : string) (portfolio_value : PortfolioValue)
| write_strategy_pnl (exchange_name : string) (total_value_usdt : float)
                     (timestamp : datetime).

(** An active exchange as one collection round sees it: the enabling
    inputs, and the outcome of each adapter call the round makes on it
    ([Raise] when the call raises). *)
Record exchange : Type := {
  ex_settings : settings;
  (** [get_account_balance()] in [_collect_balance_data] *)
  balance_call : result (list Balance);
  (** [get_market_data()] in [_collect_market_data] *)
  market_call : result (list MarketData);
  (** [get_recent_trades(limit=50)] in [_collect_trade_data] *)
  trades_call : result (list Trade);
  (** the two calls of [get_portfolio_value()] in [_collect_portfolio_data] *)
  portfolio_balance_call : result (list Balance);
  portfolio_market_call : result (list MarketData);
  (** the two calls of [get_portfolio_value()] in [_collect_strategy_pnl] *)
  pnl_balance_call : result (list Balance);
  pnl_market_call : result (list MarketData)
}.

Record t : Type := {
  config : Config.t;
  running : bool;
  collection_interval : Config.yaml;
  concurrent_requests : Config.yaml;
  arbitrage_calculator : ArbitrageCalculator.t;
  stats : stats_t
}.

(** [value * 60] for a loaded configuration value. *)
Definition times_60 (value : Config.yaml) : result Config.yaml :=
  match value with
  | Config.YInt n => Ok (Config.YInt (n * 60))
  | Config.YBool b => Ok (Config.YInt ((if b then 1 else 0) * 60))
  | Config.YFloat f => Ok (Config.YFloat (f * 60))
  | Config.YStr s => Ok (Config.YStr (String.concat "" (repeat s 60)))
  | Config.YList l => Ok (Config.YList (List.concat (repeat l 60)))
  | Config.YNull | Config.YMap _ => Raise TypeError
  end.

(** [__init__(self, config, db_manager)]. *)
Definition init (config : Config.t) : result t :=
  collection_interval ← times_60 (Config.get_collection_interval config);
  Ok {| config := config;
        running := false;
        collection_interval := collection_interval;
        concurrent_requests := Config.get_concurrent_requests config;
        arbitrage_calculator :=
          ArbitrageCalculator.init ArbitrageCalculator.default_initial_capital;
        stats := {| collections_completed := 0;
                    collections_failed := 0;
                    last_collection_time := None;
                    total_runtime := 0;
                    start_time := None |} |}.

(** Each sub-collection returns its boolean and what it wrote. *)
Definition _collect_balance_data (exchange_name : string) (ex : exchange)
  : bool * list write :=
  match balance_call ex with
  | Ok balances =>
      if truthy_list balances
      then (true, [write_balances exchange_name balances])
      else (false, [])
  | Raise _ => (false, [])
  end.

Definition _collect_market_data (exchange_name : string) (ex : exchange)
  : bool * list write :=
  match market_call ex with
  | Ok market_data =>
      if truthy_list market_data
      then (true, [write_market_data exchange_name market_data])
      else (false, [])
  | Raise _ => (false, [])
  end.

Definition _collect_trade_data (exchange_name : string) (ex : exchange)
  : bool * list write :=
  match trades_call ex with
  | Ok trades =>
      if truthy_list trades
      then (true, [write_trades exchange_name trades])
      else (false, [])
  | Raise _ => (false, [])
  end.

Definition _collect_portfolio_data (exchange_name : string) (ex : exchange)
    (now : datetime) : bool * list write :=
  match get_portfolio_value (portfolio_balance_call ex) (portfolio_market_call ex) now with
  | Ok portfolio_value =>
      if (0 <? pv_total_value_usdt portfolio_value)%float
      then (true, [write_portfolio_value exchange_name portfolio_value])
      else (false, [])
  | Raise _ => (false, [])
  end.

(** The four tasks that [_collect_exchange_data] gathers, in order. *)
Definition sub_collections (exchange_name : string) (ex : exchange) (now : datetime)
  : list (bool * list write) :=
  [ _collect_balance_data exchange_name ex;
    _collect_market_data exchange_name ex;
    _collect_trade_data exchange_name ex;
    _collect_portfolio_data exchange_name ex now ].

(** [sum(1 for result in results if result is True)]. *)
Definition count_true (results : list bool) : Z :=
  Z.of_nat (length (List.filter (fun result => result) results)).

(** [_collect_exchange_data]. *)
Definition _collect_exchange_data (exchange_name : string) (ex : exchange)
    (now : datetime) : bool * list write :=
  if negb (is_enabled (ex_settings ex)) then (false, [])
  else
    let tasks := sub_collections exchange_name ex now in
    let results := map fst tasks in
    let successful := count_true results in
    let total := Z.of_nat (length results) in
    (if successful =? total then true else 0 <? successful,
     List.concat (map snd tasks)).

(** [_collect_strategy_pnl]: one optional point per exchange; a failing
    exchange is skipped. *)
Definition strategy_pnl_of (current_time : datetime) (item : string * exchange)
  : list write :=
  let '(exchange_name, ex) := item in
  match get_portfolio_value (pnl_balance_call ex) (pnl_market_call ex) current_time with
  | Ok portfolio_value =>
      if (0 <? pv_total_value_usdt portfolio_value)%float
      then [write_strategy_pnl exchange_name
              (pv_total_value_usdt portfolio_value) current_time]
      else []
  | Raise _ => []
  end.

Definition _collect_strategy_pnl (exchanges : list (string * exchange))
    (now : datetime) : list write :=
  List.concat (map (strategy_pnl_of now) exchanges).

Definition with_counters (s : stats_t) (completed failed : Z) : stats_t :=
  {| collections_completed := completed;
     collections_failed := failed;
     last_collection_time := last_collection_time s;
     total_runtime := total_runtime s;
     start_time := start_time s |}.

Definition with_stats (self : t) (s : stats_t) : t :=
  {| config := config self;
     running := running self;
     collection_interval := collection_interval self;
     concurrent_requests := concurrent_requests self;
     arbitrage_calculator := arbitrage_calculator self;
     stats := s |}.

(** [_collect_data_round]: [exchanges] is [self.exchanges.items()] with
    this round's adapter outcomes.  Nothing inside the [try] raises, so
    the handler that adds one failure is not reached. *)
Definition _collect_data_round (self : t) (exchanges : list (string * exchange))
    (now : datetime) : t * list write :=
  let tasks := map (fun '(exchange_name, ex) =>
                      _collect_exchange_data exchange_name ex now) exchanges in
  let results := map fst tasks in
  let successful := count_true results in
  let failed := Z.of_nat (length results) - successful in
  let stats' :=
    with_counters (stats self)
      (collections_completed (stats self) + successful)
      (collections_failed (stats self) + failed) in
  (with_stats self stats',
   List.concat (map snd tasks) ++ _collect_strategy_pnl exchanges now).

End DataCollector.

(** ** [config.py]: the readers of the exchanges section *)

Module ConfigExchanges.
Import Config.

(** [bool(value)] for a loaded value. *)
Definition truthy (value : yaml) : bool :=
  match value with
  | YNull => false
  | YBool b => b
  | YInt n => negb (n =? 0)
  | YFloat f => negb (f =? 0)%float
  | YStr s => truthy_str s
  | YList l => truthy_list l
  | YMap items => truthy_list items
  end.

(** [value.get(key, default)]: only a mapping has the method; on any
    other value the attribute lookup raises. *)
Definition dict_get (value : yaml) (key : string) (fallback : yaml) : result yaml :=
  match value with
  | YMap items => Ok (default fallback (assoc key items))
  | _ => Raise Exception
  end.

(** [get_exchange_config]: the path is ["exchanges." + exchange_name],
    the default [None]. *)
Definition get_exchange_config (self : t) (exchange_name : string) : yaml :=
  get self ("exchanges." ++ exchange_name) YNull.

(** [is_exchange_enabled]. *)
Definition is_exchange_enabled (self : t) (exchange_name : string) : result yaml :=
  let exchange_config := get_exchange_config self exchange_name in
  if truthy exchange_config
  then dict_get exchange_config "enabled" (YBool false)
  else Ok (YBool false).

(** One iteration of the loop of [get_enabled_exchanges]. *)
Definition add_if_enabled (acc : result (list string)) (item : string * yaml)
  : result (list string) :=
  exchanges ← acc;
  flag ← dict_get item.2 "enabled" (YBool false);
  Ok (if truthy flag then exchanges ++ [item.1] else exchanges).

(** [get_enabled_exchanges]: [items()] exists on a mapping only. *)
Definition get_enabled_exchanges (self : t) : result (list string) :=
  match get_exchanges_config self with
  | YMap items => fold_left add_if_enabled items (Ok [])
  | _ => Raise Exception
  end.

Definition is_mapping (value : yaml) : bool :=
  match value with YMap _ => true | _ => false end.

(** Whether an entry of the exchanges mapping has a truthy [enabled]. *)
Definition listed (item : string * yaml) : bool :=
  match item.2 with
  | YMap entries => truthy (default (YBool false) (assoc "enabled" entries))
  | _ => false
  end.

(** Whether a string contains a dot. *)
Fixpoint has_dot (s : string) : bool :=
  match s with
  | EmptyString => false
  | String c s' => Ascii.eqb c "."%char || has_dot s'
  end.

(** The value found along a list of keys, if every step finds one. *)
Definition lookup_path (self : yaml) (keys : list string) : option yaml :=
  fold_left (fun value key => v ← value; subscript v key) keys (Some self).

End ConfigExchanges.

(** ** [exchanges/binance_exchange.py]: market data, trades, connection test *)

Module BinanceMarket.
Import BaseExchange BinanceExchange.

(** A ticker of the client's [fetch_tickers]: each statistic is a float
    or [None]. *)
Record ticker_data : Type := {
  tk_last : amount;
  tk_baseVolume : amount;
  tk_change : amount;
  tk_percentage : amount;
  tk_high : amount;
  tk_low : amount
}.

(** [bool(x)] for an amount. *)
Definition truthy_amount (x : amount) : bool :=
  match x with
  | ANone => false
  | AFloat f => negb (f =? 0)%float
  end.

(** [float(x) if x else 0.0]. *)
Definition float_or_zero (x : amount) : result float :=
  if truthy_amount x then to_float x else Ok 0%float.

(** The [MarketData] built from one ticker. *)
Definition market_data_of (symbol : string) (ticker : ticker_data) (current_time : datetime)
  : result MarketData :=
  price ← to_float (tk_last ticker);
  volume_24h ← to_float (tk_baseVolume ticker);
  change_24h ← float_or_zero (tk_change ticker);
  change_24h_percent ← float_or_zero (tk_percentage ticker);
  high_24h ← to_float (tk_high ticker);
  low_24h ← to_float (tk_low ticker);
  Ok {| md_symbol := symbol;
        md_price := price;
        md_volume_24h := volume_24h;
        md_change_24h := change_24h;
        md_change_24h_percent := change_24h_percent;
        md_high_24h := high_24h;
        md_low_24h := low_24h;
        md_timestamp := current_time |}.

(** [symbol in target_symbols]. *)
Definition contains (symbols : list string) (symbol : string) : bool :=
  existsb (String.eqb symbol) symbols.

(** One iteration of the loop of [get_market_data]. *)
Definition add_ticker (target_symbols : list string) (current_time : datetime)
    (acc : result (list MarketData)) (item : string * ticker_data)
  : result (list MarketData) :=
  market_data_list ← acc;
  if contains target_symbols item.1
  then market_data ← market_data_of item.1 item.2 current_time;
       Ok (market_data_list ++ [market_data])
  else Ok market_data_list.

(** [symbols or self.symbols]. *)
Definition target_of (symbols : option (list string)) (self_symbols : list string)
  : list string :=
  match symbols with
  | Some (s :: l) => s :: l
  | _ => self_symbols
  end.

(** [get_market_data]: [fetch_tickers] is the outcome of the client call
    for the symbols it is given. *)
Definition get_market_data (self : settings) (self_symbols : list string)
    (symbols : option (list string))
    (fetch_tickers : list string -> result (list (string * ticker_data)))
    (now : datetime) : result (list MarketData) :=
  try_except
    (_ ← rate_limit_check self;
     let target_symbols := target_of symbols self_symbols in
     tickers ← fetch_tickers target_symbols;
     fold_left (add_ticker target_symbols now) tickers (Ok []))
    (fun _ => Ok []).

(** The [fee] entry of a trade of the client's [fetch_my_trades]:
    missing, [None], or a dict whose [cost] and [currency] may be
    missing. *)
Inductive fee_field : Type :=
| FeeAbsent
| FeeNone
| FeeDict (cost : option amount) (currency : option string).

(** A raw trade of the client's [fetch_my_trades], in the client's
    unified structure: the symbol, side and id are present, the amounts
    and the timestamp (in milliseconds) may be [None]. *)
Record trade_data : Type := {
  td_symbol : string;
  td_side : string;
  td_amount : amount;
  td_price : amount;
  td_fee : fee_field;
  td_timestamp : option Z;
  td_id : string
}.

Section Trades.

(** [datetime.fromtimestamp] of the Python standard library, in the
    local time zone of the process. *)
Variable fromtimestamp : float -> result datetime.

(** [trade_data.get('fee', {}).get('cost', 0.0)], through [float]. *)
Definition fee_cost (fee : fee_field) : result float :=
  match fee with
  | FeeAbsent => Ok 0%float
  | FeeNone => Raise Exception
  | FeeDict cost _ => to_float (default (AFloat 0) cost)
  end.

(** [trade_data.get('fee', {}).get('currency', '')]. *)
Definition fee_currency (fee : fee_field) : result string :=
  match fee with
  | FeeAbsent => Ok EmptyString
  | FeeNone => Raise Exception
  | FeeDict _ currency => Ok (default EmptyString currency)
  end.

(** The [Trade] built from one raw trade. *)
Definition trade_of (td : trade_data) : result Trade :=
  amount ← to_float (td_amount td);
  price ← to_float (td_price td);
  fee ← fee_cost (td_fee td);
  fee_asset ← fee_currency (td_fee td);
  timestamp ← match td_timestamp td with
              | Some ms => fromtimestamp (float_of_int ms / 1000)%float
              | None => Raise TypeError
              end;
  Ok {| tr_symbol := td_symbol td;
        tr_side := td_side td;
        tr_amount := amount;
        tr_price := price;
        tr_fee := fee;
        tr_fee_asset := fee_asset;
        tr_timestamp := timestamp;
        tr_trade_id := td_id td |}.

(** The trades appended for one symbol: the inner [try] gives up at the
    first raw trade that raises, and keeps what was appended before. *)
Fixpoint parse_until (tds : list trade_data) : list Trade :=
  match tds with
  | [] => []
  | td :: rest =>
      match trade_of td with
      | Ok trade => trade :: parse_until rest
      | Raise _ => []
      end
  end.

Definition symbol_trades (fetch_my_trades : string -> Z -> result (list trade_data))
    (limit : Z) (symbol : string) : list Trade :=
  match fetch_my_trades symbol limit with
  | Ok trades_data => parse_until trades_data
  | Raise _ => []
  end.

(** [a < b] on naive datetimes. *)
Definition dt_ltb (a b : datetime) : bool := negb (geb a b).

(** [sort(key=lambda x: x.timestamp, reverse=True)]: newest first, trades
    with equal timestamps in their original order.  A trade is inserted
    before the first one that is older than it. *)
Fixpoint insert_desc (trade : Trade) (sorted : list Trade) : list Trade :=
  match sorted with
  | [] => [trade]
  | x :: rest =>
      if dt_ltb (tr_timestamp x) (tr_timestamp trade)
      then trade :: x :: rest
      else x :: insert_desc trade rest
  end.

Definition sort_desc (trades : list Trade) : list Trade :=
  fold_left (fun sorted trade => insert_desc trade sorted) trades [].

(** [l[:limit]]: a negative limit counts from the end. *)
Definition slice_to {A} (l : list A) (limit : Z) : list A :=
  if 0 <=? limit then take (Z.to_nat limit) l
  else take (length l - Z.to_nat (- limit)) l.

(** [get_recent_trades]. *)
Definition get_recent_trades (self : settings) (self_symbols : list string)
    (limit : Z) (fetch_my_trades : string -> Z -> result (list trade_data))
  : result (list Trade) :=
  try_except
    (_ ← rate_limit_check self;
     let all_trades :=
       List.concat (map (symbol_trades fetch_my_trades limit) self_symbols) in
     Ok (slice_to (sort_desc all_trades) limit))
    (fun _ => Ok []).

End Trades.

(** [test_connection]: the client's ticker of BTCUSDT must carry the
    symbol ["BTC/USDT"]. *)
Definition test_connection (fetch_ticker : result (list (string * Config.yaml))) : bool :=
  match fetch_ticker with
  | Ok response =>
      match Config.assoc "symbol" response with
      | Some (Config.YStr s) => String.eqb s "BTC/USDT"
      | _ => false
      end
  | Raise _ => false
  end.

End BinanceMarket.

(** ** [data_collector.py]: [initialize] and [_create_exchange] *)

Module Startup.
Import Config ConfigExchanges BaseExchange BinanceMarket.

Definition lower_ascii (c : ascii) : ascii :=
  let n := nat_of_ascii c in
  if ((65 <=? n)%nat && (n <=? 90)%nat)%bool then ascii_of_nat (n + 32) else c.

(** [s.lower()]. *)
Fixpoint lower (s : string) : string :=
  match s with
  | EmptyString => EmptyString
  | String c s' => String (lower_ascii c) (lower s')
  end.

(** What [BaseExchange.__init__] reads from its configuration dict. *)
Record attributes : Type := {
  at_name : yaml;
  at_api_key : yaml;
  at_api_secret : yaml;
  at_sandbox : yaml;
  at_enabled : yaml;
  at_symbols : yaml;
  at_rate_limit : yaml
}.

(** [BaseExchange.__init__]. *)
Definition base_init (config : yaml) : result attributes :=
  name ← dict_get config "name" (YStr "Unknown");
  api_key ← dict_get config "api_key" (YStr "");
  api_secret ← dict_get config "api_secret" (YStr "");
  sandbox ← dict_get config "sandbox" (YBool false);
  enabled ← dict_get config "enabled" (YBool false);
  symbols ← dict_get config "symbols" (YList []);
  rate_limit ← dict_get config "rate_limit" (YInt 100);
  Ok {| at_name := name;
        at_api_key := api_key;
        at_api_secret := api_secret;
        at_sandbox := sandbox;
        at_enabled := enabled;
        at_symbols := symbols;
        at_rate_limit := rate_limit |}.

(** The truth value of [is_enabled()] on the attributes as read. *)
Definition attributes_enabled (self : attributes) : bool :=
  truthy (at_enabled self) && truthy (at_api_key self) && truthy (at_api_secret self).

(** The attributes as [settings], when they have the types the adapter
    expects. *)
Definition settings_of (self : attributes) : option settings :=
  match at_enabled self, at_api_key self, at_api_secret self, at_rate_limit self with
  | YBool e, YStr k, YStr s, YInt n =>
      Some {| enabled := e; api_key := k; api_secret := s; rate_limit := n |}
  | _, _, _, _ => None
  end.

(** Whether [60000 / value] returns. *)
Definition divides (value : yaml) : bool :=
  match value with
  | YInt n => negb (n =? 0)
  | YFloat f => negb (f =? 0)%float
  | YBool b => b
  | _ => false
  end.

(** [BinanceExchange.initialize]: [new_client] is the outcome of
    constructing the client and, inside it, of its [fetch_ticker]. *)
Definition binance_initialize (self : attributes)
    (new_client : result (result (list (string * yaml)))) : bool :=
  if divides (at_rate_limit self) then
    match new_client with
    | Ok fetch_ticker => test_connection fetch_ticker
    | Raise _ => false
    end
  else false.

(** The adapters the orchestrator can create. *)
Inductive adapter : Type :=
| Binance (self : attributes)
| HTX (config : yaml).

(** [self.exchanges[name] = exchange]: a dict keeps the position of a key
    it already has. *)
Fixpoint assign (name : string) (ex : adapter) (exchanges : list (string * adapter))
  : list (string * adapter) :=
  match exchanges with
  | [] => [(name, ex)]
  | (k, v) :: rest =>
      if String.eqb k name then (k, ex) :: rest else (k, v) :: assign name ex rest
  end.

Section Adapters.

(** The client that [BinanceExchange.initialize] obtains for the
    exchange of a given name. *)
Variable binance_client : string -> result (result (list (string * yaml))).

(** [exchanges/htx_exchange.py]: whether [HTXExchange(config)] returns,
    and the outcome of its [initialize()]. *)
Variable htx_new : string -> yaml -> bool.
Variable htx_initialize : string -> yaml -> result bool.

(** [_create_exchange]. *)
Definition _create_exchange (exchange_name : string) (config : yaml) : option adapter :=
  if String.eqb (lower exchange_name) "binance" then
    match base_init config with
    | Ok self => Some (Binance self)
    | Raise _ => None
    end
  else if String.eqb (lower exchange_name) "htx" then
    if htx_new exchange_name config then Some (HTX config) else None
  else None.

(** [exchange.initialize()]. *)
Definition exchange_initialize (exchange_name : string) (ex : adapter) : result bool :=
  match ex with
  | Binance self => Ok (binance_initialize self (binance_client exchange_name))
  | HTX config => htx_initialize exchange_name config
  end.

(** One iteration of the loop of [initialize]. *)
Definition register (config : Config.t) (acc : result (list (string * adapter)))
    (exchange_name : string) : result (list (string * adapter)) :=
  exchanges ← acc;
  let exchange_config := get_exchange_config config exchange_name in
  if negb (truthy exchange_config) then Ok exchanges
  else
    match _create_exchange exchange_name exchange_config with
    | Some ex =>
        initialized ← exchange_initialize exchange_name ex;
        if initialized : bool then Ok (assign exchange_name ex exchanges)
        else Ok exchanges
    | None => Ok exchanges
    end.

(** [DataCollector.initialize], on the empty [self.exchanges] that
    [__init__] leaves; the handler logs and re-raises. *)
Definition initialize (config : Config.t) : result (list (string * adapter)) :=
  enabled_exchanges ← get_enabled_exchanges config;
  exchanges ← fold_left (register config) enabled_exchanges (Ok []);
  if truthy_list exchanges then Ok exchanges else Raise Exception.

(** What holds of every registered exchange. *)
Definition registered_ok (config : Config.t) (names : list string)
    (item : string * adapter) : Prop :=
  In item.1 names
  /\ truthy (get_exchange_config config item.1) = true
  /\ _create_exchange item.1 (get_exchange_config config item.1) = Some item.2
  /\ exchange_initialize item.1 item.2 = Ok true.

End Adapters.

End Startup.

(** ** Vocabulary of the properties, and sample data *)

Import ArbitrageCalculator BaseExchange BinanceExchange DataCollector.

(** Whether the per-exchange task of a round entry returned [True]. *)
Definition task_ok (now : datetime) (item : string * exchange) : bool :=
(_collect_exchange_data item.1 item.2 now).1.

(** A balance built from a client response carries the response's own
    amounts. *)
Definition from_response (data : balance_data) (now : datetime) (b : Balance) : Prop :=
In (bal_asset b, AFloat (bal_total b)) (default [] (total data))
/\ (0 <? bal_total b)%float = true
/\ get_amount (free data) (bal_asset b) = AFloat (bal_free b)
/\ get_amount (used data) (bal_asset b) = AFloat (bal_locked b)
/\ bal_timestamp b = now.



(** A spec float that is not negative: a NaN, or a value whose sign bit
    is clear. *)
Definition sf_not_negative (s : spec_float) : Prop :=
match s with
| S754_zero sg | S754_infinity sg | S754_finite sg _ _ => sg = false
| S754_nan => True
end.

Definition not_negative (x : float) : Prop := sf_not_negative (Prim2SF x).

Definition ticker (symbol : string) (price : float) (now : datetime) : MarketData :=
{| md_symbol := symbol; md_price := price; md_volume_24h := 0;
   md_change_24h := 0; md_change_24h_percent := 0;
   md_high_24h := price; md_low_24h := price; md_timestamp := now |}.

Definition noon (y m d : Z) : datetime := mk_datetime y m d 12 0 0 0.

(** [ArbitrageCalculator()]. *)
Definition default_calculator : ArbitrageCalculator.t :=
ArbitrageCalculator.init default_initial_capital.

(** A configuration that supplies its own threshold, fee and capital. *)
Definition config_custom : Config.t :=
Config.YMap
  [("arbitrage"%string,
    Config.YMap [("threshold"%string, Config.YFloat 0.1);
                 ("transaction_fee"%string, Config.YFloat 0.002);
                 ("initial_capital"%string, Config.YFloat 50000)])].

(** A snapshot taken at 06:00 on the first of January with nothing held. *)
Definition early_entry : PnLData :=
{| pnl_timestamp := mk_datetime 2024 1 1 6 0 0 0;
   total_value_usdt := 0; binance_balance_usdt := 0; htx_balance_usdt := 0;
   daily_pnl := 0; daily_pnl_percent := 0;
   cumulative_pnl := (-10000); cumulative_pnl_percent := (-100) |}.

Definition binance_settings : settings :=
{| enabled := true; api_key := "key"; api_secret := "secret"; rate_limit := 100 |}.

(** A response whose total is not the sum of its free and used amounts. *)
Definition inconsistent_response : balance_data :=
{| total := Some [("BTC"%string, AFloat 5)];
   free := Some {["BTC"%string := AFloat 1]};
   used := Some {["BTC"%string := AFloat 1]} |}.

Definition btc_balance : Balance :=
{| bal_asset := "BTC"; bal_free := 1; bal_locked := 1; bal_total := 5;
   bal_timestamp := noon 2024 1 1 |}.

(** An exchange whose balances call succeeds while every other call of
    the round raises. *)
Definition balances_only : exchange :=
{| ex_settings := binance_settings;
   balance_call := Ok [btc_balance];
   market_call := Raise Exception;
   trades_call := Raise Exception;
   portfolio_balance_call := Raise Exception;
   portfolio_market_call := Raise Exception;
   pnl_balance_call := Raise Exception;
   pnl_market_call := Raise Exception |}.

(** An exchange all of whose calls return, with nothing in them. *)
Definition empty_handed : exchange :=
{| ex_settings := binance_settings;
   balance_call := Ok [];
   market_call := Ok [];
   trades_call := Ok [];
   portfolio_balance_call := Ok [];
   portfolio_market_call := Ok [];
   pnl_balance_call := Ok [];
   pnl_market_call := Ok [] |}.

(** A collector that has not run a round yet. *)
Definition idle_collector : DataCollector.t :=
{| config := Config.YMap [];
   running := false;
   collection_interval := Config.YInt 300;
   concurrent_requests := Config.YInt 5;
   arbitrage_calculator := default_calculator;
   stats := {| collections_completed := 0;
               collections_failed := 0;
               last_collection_time := None;
               total_runtime := 0;
               start_time := None |} |}.

(** One instance of the two library statistics, in plain float
    arithmetic. *)
Definition float_sum (l : list float) : float :=
fold_left (fun acc x => (acc + x)%float) l 0%float.

Definition naive_mean (l : list float) : result float :=
Ok (float_sum l / float_of_int (Z.of_nat (length l)))%float.

Definition naive_stdev (l : list float) : result float :=
let m := (float_sum l / float_of_int (Z.of_nat (length l)))%float in
Ok (sqrt (float_sum (map (fun x => ((x - m) * (x - m))%float) l)
          / float_of_int (Z.of_nat (length l) - 1)))%float.

(** ** Vocabulary of the further properties *)

(** Whether the loop of [_calculate_total_value_usdt] adds anything for
    an item: the amount passes [amount <= 0] and the asset is one of the
    three stablecoins. *)
Definition counted (item : string * float) : bool :=
  negb (item.2 <=? 0)%float
  && (String.eqb (upper item.1) "USDT" || String.eqb (upper item.1) "FDUSD"
      || String.eqb (upper item.1) "USDC").

(** A call of one of the two operations of the calculator. *)
Inductive call : Type :=
| call_opportunity (binance_price htx_price : float)
                   (timestamp : option datetime) (now : datetime)
| call_pnl (binance_balance htx_balance : list (string * float))
           (current_prices : gmap string float)
           (timestamp : option datetime) (now : datetime).

(** The calculator after a call: a call that raises has appended
    nothing. *)
Definition after_call (self : ArbitrageCalculator.t) (c : call) : ArbitrageCalculator.t :=
  match c with
  | call_opportunity a b ts now =>
      match calculate_arbitrage_opportunity self a b ts now with
      | Ok (_, self') => self'
      | Raise _ => self
      end
  | call_pnl bb hb prices ts now =>
      match calculate_pnl self bb hb prices ts now with
      | Ok (_, self') => self'
      | Raise _ => self
      end
  end.

Definition after_calls (self : ArbitrageCalculator.t) (calls : list call)
  : ArbitrageCalculator.t :=
  fold_left after_call calls self.

(** The running maximum of drawdowns is 0.0 or above zero. *)
Definition zero_or_positive (x : float) : Prop :=
  x = 0%float \/ (0 <? x)%float = true.

(** The given day of the month of [now], at the given hour sharp. *)
Definition day_hour_of (now : datetime) (d h : Z) : datetime :=
  {| year := year now; month := month now; day := d;
     hour := h; minute := 0; second := 0; microsecond := 0 |}.

(** An entry of the breakdown agrees with the price table: the amount
    is above zero, the price is the table's or 0.0, and the value is the
    amount for USDT, amount times price for a priced asset and 0.0 for an
    unpriced one. *)
Definition entry_consistent (prices : gmap string float) (asset : string)
    (e : AssetValue) : Prop :=
  (0 <? av_amount e)%float = true
  /\ av_price e = default 0%float (prices !! asset)
  /\ av_value_usdt e
     = if String.eqb asset "USDT" then av_amount e
       else match prices !! asset with
            | Some p => (av_amount e * p)%float
            | None => 0%float
            end.

(** The upper-cased assets of the balances with a total above zero. *)
Definition held_assets (balances : list Balance) : list string :=
  map (fun b => upper (bal_asset b))
      (List.filter (fun b => (0 <? bal_total b)%float) balances).

(** What justifies a write of a round: the data are not empty, and come
    from a call on an exchange of the round, enabled except for the
    strategy PnL point. *)
Definition write_justified (exchanges : list (string * exchange)) (now : datetime)
    (w : write) : Prop :=
  match w with
  | write_balances name balances =>
      balances <> []
      /\ exists ex, In (name, ex) exchanges /\ is_enabled (ex_settings ex) = true
                    /\ balance_call ex = Ok balances
  | write_market_data name market_data =>
      market_data <> []
      /\ exists ex, In (name, ex) exchanges /\ is_enabled (ex_settings ex) = true
                    /\ market_call ex = Ok market_data
  | write_trades name trades =>
      trades <> []
      /\ exists ex, In (name, ex) exchanges /\ is_enabled (ex_settings ex) = true
                    /\ trades_call ex = Ok trades
  | write_portfolio_value name pv =>
      (0 <? pv_total_value_usdt pv)%float = true
      /\ exists ex, In (name, ex) exchanges /\ is_enabled (ex_settings ex) = true
                    /\ get_portfolio_value (portfolio_balance_call ex)
                         (portfolio_market_call ex) now = Ok pv
  | write_strategy_pnl name value timestamp =>
      (0 <? value)%float = true /\ timestamp = now
      /\ exists ex pv, In (name, ex) exchanges
                       /\ get_portfolio_value (pnl_balance_call ex)
                            (pnl_market_call ex) now = Ok pv
                       /\ value = pv_total_value_usdt pv
  end.

(** One iteration of the loop of [start]: a round, then the two
    bookkeeping assignments; [finished] is the reading of
    [datetime.now()] after the round and [runtime] the seconds since the
    start. *)
Definition start_iteration (self : DataCollector.t)
    (exchanges : list (string * exchange)) (now finished : datetime) (runtime : float)
  : DataCollector.t * list write :=
  let '(self', writes) := _collect_data_round self exchanges now in
  (with_stats self'
     {| collections_completed := collections_completed (stats self');
        collections_failed := collections_failed (stats self');
        last_collection_time := Some finished;
        total_runtime := runtime;
        start_time := start_time (stats self') |},
   writes).

(** The first iterations of [start], one per entry of [ticks]: the
    collector is set running and its start time recorded, then the loop
    body runs. *)
Definition start_prefix (self : DataCollector.t) (started : datetime)
    (ticks : list (list (string * exchange) * datetime * datetime * float))
  : DataCollector.t * list write :=
  let running_self :=
    {| config := config self;
       running := true;
       collection_interval := collection_interval self;
       concurrent_requests := concurrent_requests self;
       arbitrage_calculator := arbitrage_calculator self;
       stats := {| collections_completed := collections_completed (stats self);
                   collections_failed := collections_failed (stats self);
                   last_collection_time := last_collection_time (stats self);
                   total_runtime := total_runtime (stats self);
                   start_time := Some started |} |} in
  fold_left
    (fun st tick =>
       let '(exchanges, now, finished, runtime) := tick in
       let '(self', writes) := start_iteration st.1 exchanges now finished runtime in
       (self', st.2 ++ writes))
    ticks (running_self, []).

(** The exchanges polled by the ticks of a run, all together. *)
Definition polled (ticks : list (list (string * exchange) * datetime * datetime * float))
  : Z :=
  Z.of_nat (length (List.concat (map (fun tick => tick.1.1.1) ticks))).

(** Trades ordered newest first. *)
Definition newest_first (trades : list Trade) : Prop :=
  StronglySorted (fun a b => geb (tr_timestamp a) (tr_timestamp b) = true) trades.

(** What the exchange client answers during one call of an adapter
    method, and the reading of [datetime.now()] in that call. *)
Record client : Type := {
  clock : datetime;
  fetch_balance : result balance_data;
  fetch_tickers : list string -> result (list (string * BinanceMarket.ticker_data));
  fetch_my_trades : string -> Z -> result (list BinanceMarket.trade_data)
}.

(** A Binance adapter as one round of the orchestrator sees it: each of
    the five uses of the adapter in a round has its own client answers. *)
Definition binance_exchange (fromtimestamp : float -> result datetime)
    (self : settings) (self_symbols : list string)
    (at_balance at_market at_trades at_portfolio at_pnl : client) : exchange :=
  {| ex_settings := self;
     balance_call :=
       get_account_balance self (fetch_balance at_balance) (clock at_balance);
     market_call :=
       BinanceMarket.get_market_data self self_symbols None (fetch_tickers at_market) (clock at_market);
     trades_call :=
       BinanceMarket.get_recent_trades fromtimestamp self self_symbols 50 (fetch_my_trades at_trades);
     portfolio_balance_call :=
       get_account_balance self (fetch_balance at_portfolio) (clock at_portfolio);
     portfolio_market_call :=
       BinanceMarket.get_market_data self self_symbols None (fetch_tickers at_portfolio)
         (clock at_portfolio);
     pnl_balance_call :=
       get_account_balance self (fetch_balance at_pnl) (clock at_pnl);
     pnl_market_call :=
       BinanceMarket.get_market_data self self_symbols None (fetch_tickers at_pnl) (clock at_pnl) |}.

(** A client none of whose calls returns. *)
Definition unreachable (c : client) : Prop :=
  is_ok (fetch_balance c) = false
  /\ (forall symbols, is_ok (fetch_tickers c symbols) = false)
  /\ (forall symbol limit, is_ok (fetch_my_trades c symbol limit) = false).

(** Whether a string contains a slash. *)
Fixpoint has_slash (s : string) : bool :=
  match s with
  | EmptyString => false
  | String c s' => Ascii.eqb c "/"%char || has_slash s'
  end.

(** Whether a decoded character is a slash. *)
Definition slash_uchar (u : uchar) : bool :=
  match u with
  | Code cp => (cp =? 47)%N
  | Stray b => Ascii.eqb b "/"
  end.

(** An adapter none of whose calls reaches the client, or whose client
    answers none. *)
Definition silent (self : settings) (c : client) : Prop :=
  rate_limit self = 0 \/ unreachable c.

(** Whether the history holds a zero total before its last entry. *)
Fixpoint zero_before_last (history : list PnLData) : bool :=
  match history with
  | prev :: ((_ :: _) as rest) =>
      (total_value_usdt prev =? 0)%float || zero_before_last rest
  | _ => false
  end.

(** ** Sample data of the further properties *)

(** Two snapshots a day apart, the second one percent above the first. *)
Definition first_day : PnLData :=
{| pnl_timestamp := noon 2024 1 1;
   total_value_usdt := 10000; binance_balance_usdt := 10000; htx_balance_usdt := 0;
   daily_pnl := 0; daily_pnl_percent := 0;
   cumulative_pnl := 0; cumulative_pnl_percent := 0 |}.

Definition second_day : PnLData :=
{| pnl_timestamp := noon 2024 1 2;
   total_value_usdt := 10100; binance_balance_usdt := 10100; htx_balance_usdt := 0;
   daily_pnl := 100; daily_pnl_percent := 1;
   cumulative_pnl := 100; cumulative_pnl_percent := 1 |}.

(** A calculator holding those two snapshots. *)
Definition two_day_calculator : ArbitrageCalculator.t :=
with_pnl_history default_calculator [first_day; second_day].

(** An exchange flagged enabled but without an API key, holding 100 USDT. *)
Definition keyless_settings : settings :=
{| enabled := true; api_key := ""; api_secret := "secret"; rate_limit := 100 |}.

Definition usdt_balance : Balance :=
{| bal_asset := "USDT"; bal_free := 100; bal_locked := 0; bal_total := 100;
   bal_timestamp := noon 2024 1 1 |}.

Definition keyless : exchange :=
{| ex_settings := keyless_settings;
   balance_call := Ok [usdt_balance];
   market_call := Ok [];
   trades_call := Ok [];
   portfolio_balance_call := Ok [usdt_balance];
   portfolio_market_call := Ok [];
   pnl_balance_call := Ok [usdt_balance];
   pnl_market_call := Ok [] |}.

(** A client that answers no call. *)
Definition dead_client : client :=
{| clock := noon 2024 1 1;
   fetch_balance := Raise Exception;
   fetch_tickers := fun _ => Raise Exception;
   fetch_my_trades := fun _ _ => Raise Exception |}.

(** A clock conversion that places every timestamp at the epoch. *)
Definition at_epoch (seconds : float) : result datetime :=
Ok (mk_datetime 1970 1 1 0 0 0 0).

(** A configuration with a Binance entry flagged enabled that carries no
    credentials, and an HTX entry flagged disabled. *)
Definition binance_entry : list (string * Config.yaml) :=
[("enabled"%string, Config.YBool true); ("rate_limit"%string, Config.YInt 100)].

Definition exchange_items : list (string * Config.yaml) :=
[("binance"%string, Config.YMap binance_entry);
 ("htx"%string, Config.YMap [("enabled"%string, Config.YBool false)])].

Definition exchanges_config : Config.t :=
Config.YMap [("exchanges"%string, Config.YMap exchange_items)].

(** What [BaseExchange.__init__] reads from that Binance entry. *)
Definition keyless_attributes : Startup.attributes :=
{| Startup.at_name := Config.YStr "Unknown";
   Startup.at_api_key := Config.YStr "";
   Startup.at_api_secret := Config.YStr "";
   Startup.at_sandbox := Config.YBool false;
   Startup.at_enabled := Config.YBool true;
   Startup.at_symbols := Config.YList [];
   Startup.at_rate_limit := Config.YInt 100 |}.

(** A Binance client that is constructed and answers the connection
    test, and an HTX adapter that cannot be created. *)
Definition answering_client (exchange_name : string)
  : result (result (list (string * Config.yaml))) :=
Ok (Ok [("symbol"%string, Config.YStr "BTC/USDT")]).

Definition no_htx_new (exchange_name : string) (config : Config.yaml) : bool := false.

Definition no_htx_initialize (exchange_name : string) (config : Config.yaml)
  : result bool :=
Ok false.

(** * Properties *)

(** ** Facts about binary64 arithmetic *)

Lemma Prim2SF_zero : Prim2SF 0%float = S754_zero false.
Proof. reflexivity. Qed.

Lemma is_nan_false (x : float) : is_nan x = false -> Prim2SF x <> S754_nan.
Proof.
  unfold is_nan. rewrite FloatAxioms.eqb_spec. intros H E. rewrite E in H.
  discriminate.
Qed.

Lemma eqb_zero_sf (x : float) :
  (x =? 0)%float = true -> exists s, Prim2SF x = S754_zero s.
Proof.
  rewrite FloatAxioms.eqb_spec, Prim2SF_zero.
  destruct (Prim2SF x) as [s|s| |s m e]; simpl; try discriminate; eauto.
  all: destruct s; discriminate.
Qed.

(** A value equal to zero is not above zero. *)
Lemma ltb_zero_of_eqb (x : float) :
  (x =? 0)%float = true -> (0 <? x)%float = false.
Proof.
  intros [s E]%eqb_zero_sf. rewrite FloatAxioms.ltb_spec, Prim2SF_zero, E.
  reflexivity.
Qed.

(** Away from NaN, [x <= 0] is the negation of [x > 0]. *)
Lemma leb_zero_negb_ltb (x : float) :
  is_nan x = false -> (x <=? 0)%float = negb (0 <? x)%float.
Proof.
  intros H%is_nan_false.
  rewrite FloatAxioms.leb_spec, FloatAxioms.ltb_spec, Prim2SF_zero.
  destruct (Prim2SF x) as [s|s| |s m e]; try congruence; destruct s; reflexivity.
Qed.

Lemma SFmul_comm (x y : spec_float) : SF64mul x y = SF64mul y x.
Proof.
  unfold SF64mul, SFmul.
  destruct x as [sx|sx| |sx mx ex], y as [sy|sy| |sy my ey];
    try reflexivity; try (rewrite xorb_comm; reflexivity).
  rewrite xorb_comm, Pos.mul_comm, Z.add_comm. reflexivity.
Qed.

Lemma float_mul_comm (x y : float) : (x * y)%float = (y * x)%float.
Proof. apply Prim2SF_inj. rewrite !mul_spec. apply SFmul_comm. Qed.




Lemma binary_round_aux_sign (sx : bool) (mx ex : Z) (lx : location) :
  match binary_round_aux prec emax sx mx ex lx with
  | S754_zero sg | S754_infinity sg | S754_finite sg _ _ => sg = sx
  | S754_nan => True
  end.
Proof.
  unfold binary_round_aux.
  destruct (shr_fexp prec emax mx ex lx) as [mrs' e'].
  destruct (shr_fexp prec emax _ e' loc_Exact) as [mrs'' e''].
  destruct (shr_m mrs''); [reflexivity| |exact I].
  destruct (Z.leb _ _); reflexivity.
Qed.

(** Rounding keeps the sign it is given. *)
Lemma binary_round_sign (sx : bool) (mx : positive) (ex : Z) :
  match binary_round prec emax sx mx ex with
  | S754_zero sg | S754_infinity sg | S754_finite sg _ _ => sg = sx
  | S754_nan => True
  end.
Proof.
  unfold binary_round. destruct (shl_align mx ex _) as [mz ez].
  apply binary_round_aux_sign.
Qed.

Lemma gt_zero_sf (a : float) :
  (0 <? a)%float = true ->
  (exists m e, Prim2SF a = S754_finite false m e) \/ Prim2SF a = S754_infinity false.
Proof.
  rewrite FloatAxioms.ltb_spec, Prim2SF_zero.
  destruct (Prim2SF a) as [s|s| |s m e]; cbn; try discriminate.
  - destruct s; [discriminate|]. auto.
  - destruct s; [discriminate|]. eauto.
Qed.



(** ** The collection round ([data_collector.py]) *)

Lemma count_true_cons (b : bool) (l : list bool) :
  count_true (b :: l) = (if b then 1 else 0) + count_true l.
Proof. unfold count_true. simpl. destruct b; simpl; lia. Qed.

Lemma count_true_filter {A} (f : A -> bool) (l : list A) :
  count_true (map f l) = Z.of_nat (length (List.filter f l)).
Proof.
  induction l as [|a l IH]; [reflexivity|].
  simpl map. rewrite count_true_cons, IH. simpl. destruct (f a); simpl; lia.
Qed.

Lemma count_true_split {A} (f : A -> bool) (l : list A) :
  Z.of_nat (length (map f l)) - count_true (map f l)
  = Z.of_nat (length (List.filter (fun a => negb (f a)) l)).
Proof.
  induction l as [|a l IH]; [reflexivity|].
  simpl map. rewrite count_true_cons. simpl length.
  simpl List.filter. destruct (f a); simpl; lia.
Qed.

Lemma round_results (exchanges : list (string * exchange)) (now : datetime) :
  map fst (map (fun '(exchange_name, ex) => _collect_exchange_data exchange_name ex now)
               exchanges)
  = map (task_ok now) exchanges.
Proof.
  rewrite map_map. apply map_ext. intros [n e]. reflexivity.
Qed.

(** A round adds the number of tasks that returned [True] to the
    completed counter and the number of the others to the failed one. *)
Lemma round_counters (self : DataCollector.t)
    (exchanges : list (string * exchange)) (now : datetime) :
  let self' := (_collect_data_round self exchanges now).1 in
  collections_completed (stats self')
  = collections_completed (stats self)
    + Z.of_nat (length (List.filter (task_ok now) exchanges))
  /\ collections_failed (stats self')
     = collections_failed (stats self)
       + Z.of_nat (length (List.filter (fun item => negb (task_ok now item)) exchanges)).
Proof.
  unfold _collect_data_round. cbn [fst stats with_stats with_counters
    collections_completed collections_failed].
  rewrite round_results, count_true_filter. split; [reflexivity|].
  rewrite <- count_true_split, count_true_filter. reflexivity.
Qed.

(** What one exchange contributes to the counters of a round. *)
Lemma round_counts_exchange (self : DataCollector.t)
    (before after : list (string * exchange))
    (item : string * exchange) (now : datetime) :
  let with_ex := stats (_collect_data_round self (before ++ item :: after) now).1 in
  let without := stats (_collect_data_round self (before ++ after) now).1 in
  collections_completed with_ex
  = collections_completed without + (if task_ok now item then 1 else 0)
  /\ collections_failed with_ex
     = collections_failed without + (if task_ok now item then 0 else 1).
Proof.
  cbv zeta.
  destruct (round_counters self (before ++ item :: after) now) as [-> ->].
  destruct (round_counters self (before ++ after) now) as [-> ->].
  rewrite !List.filter_app, !length_app. cbn [List.filter].
  destruct (task_ok now item); cbn [negb length]; lia.
Qed.


(** An exchange that is not enabled fails before any
    sub-collection is started. *)
Lemma disabled_exchange_fails (name : string) (ex : exchange) (now : datetime) :
  is_enabled (ex_settings ex) = false ->
  _collect_exchange_data name ex now = (false, []).
Proof. intros He. unfold _collect_exchange_data. rewrite He. reflexivity. Qed.



(** A sub-collection reports success only when its adapter call returned
    and returned something: a non-empty list, or a portfolio value above
    zero. *)
Lemma sub_collection_success (name : string) (ex : exchange) (now : datetime) :
  ((_collect_balance_data name ex).1 = true ->
     exists balances, balance_call ex = Ok balances /\ balances <> [])
  /\ ((_collect_market_data name ex).1 = true ->
     exists market_data, market_call ex = Ok market_data /\ market_data <> [])
  /\ ((_collect_trade_data name ex).1 = true ->
     exists trades, trades_call ex = Ok trades /\ trades <> [])
  /\ ((_collect_portfolio_data name ex now).1 = true ->
     exists pv,
       get_portfolio_value (portfolio_balance_call ex) (portfolio_market_call ex) now
       = Ok pv /\ (0 <? pv_total_value_usdt pv)%float = true).
Proof.
  unfold _collect_balance_data, _collect_market_data, _collect_trade_data,
    _collect_portfolio_data.
  repeat split.
  - destruct (balance_call ex) as [[|b l]|]; cbn; try discriminate. eauto.
  - destruct (market_call ex) as [[|b l]|]; cbn; try discriminate. eauto.
  - destruct (trades_call ex) as [[|b l]|]; cbn; try discriminate. eauto.
  - destruct (get_portfolio_value _ _ _) as [pv|]; cbn; try discriminate.
    destruct (0 <? pv_total_value_usdt pv)%float eqn:E; cbn; try discriminate. eauto.
Qed.

(** C10. Each of the four sub-collections reports success only when its
    adapter call returned without error and with data (a portfolio value
    strictly above zero for the portfolio one); so an exchange whose
    calls all return, with empty balances, market data and trades and a
    zero-valued portfolio, makes its task return failure and is counted
    by the round as failed. *)
Theorem empty_data_counts_as_failure
    (self : DataCollector.t) (before after : list (string * exchange))
    (name : string) (ex : exchange) (now : datetime) :
  let with_ex :=
    stats (_collect_data_round self (before ++ (name, ex) :: after) now).1 in
  let without := stats (_collect_data_round self (before ++ after) now).1 in
  (((_collect_balance_data name ex).1 = true ->
      exists balances, balance_call ex = Ok balances /\ balances <> [])
   /\ ((_collect_market_data name ex).1 = true ->
      exists market_data, market_call ex = Ok market_data /\ market_data <> [])
   /\ ((_collect_trade_data name ex).1 = true ->
      exists trades, trades_call ex = Ok trades /\ trades <> [])
   /\ ((_collect_portfolio_data name ex now).1 = true ->
      exists pv,
        get_portfolio_value (portfolio_balance_call ex) (portfolio_market_call ex) now
        = Ok pv /\ (0 <? pv_total_value_usdt pv)%float = true))
  /\ (balance_call ex = Ok [] ->
      market_call ex = Ok [] ->
      trades_call ex = Ok [] ->
      (exists pv,
         get_portfolio_value (portfolio_balance_call ex) (portfolio_market_call ex) now
         = Ok pv /\ (pv_total_value_usdt pv =? 0)%float = true) ->
      (_collect_exchange_data name ex now).1 = false
      /\ collections_completed with_ex = collections_completed without
      /\ collections_failed with_ex = collections_failed without + 1).
Proof.
  cbv zeta. split; [apply sub_collection_success|].
  intros Hb Hm Ht (pv & Hp & Hz).
  assert ((_collect_exchange_data name ex now).1 = false) as Hf.
  { unfold _collect_exchange_data.
    destruct (is_enabled (ex_settings ex)); [|reflexivity]. cbn [negb].
    unfold sub_collections, _collect_balance_data, _collect_market_data,
      _collect_trade_data, _collect_portfolio_data.
    rewrite Hb, Hm, Ht, Hp, (ltb_zero_of_eqb _ Hz). reflexivity. }
  split; [exact Hf|].
  pose proof (round_counts_exchange self before after (name, ex) now) as Hc.
  cbv zeta in Hc. unfold task_ok in Hc. cbn [fst snd] in Hc.
  rewrite Hf in Hc. lia.
Qed.

Lemma empty_data_counts_as_failure_witness :
  balance_call empty_handed = Ok []
  /\ market_call empty_handed = Ok []
  /\ trades_call empty_handed = Ok []
  /\ (_collect_exchange_data "binance" empty_handed (noon 2024 1 1)).1 = false
  /\ collections_failed
       (stats (_collect_data_round idle_collector
                 [("binance"%string, empty_handed)] (noon 2024 1 1)).1)
     = 1.
Proof.
  pose proof (empty_data_counts_as_failure idle_collector [] [] "binance"
                empty_handed (noon 2024 1 1)) as H.
  cbv zeta in H. destruct H as [_ H].
  destruct H as (Hf & _ & Hc); try reflexivity.
  { eexists. split; reflexivity. }
  split; [reflexivity|]. split; [reflexivity|]. split; [reflexivity|].
  split; [exact Hf | exact Hc].
Defined.

(** ** The Binance adapter ([binance_exchange.py]) *)

Lemma add_balance_raise (data : balance_data) (now : datetime) (e : exn)
    (items : list (string * amount)) :
  fold_left (add_balance data now) items (Raise e) = Raise e.
Proof. induction items as [|i items IH]; [reflexivity|]. exact IH. Qed.

(** Every balance the loop appends comes from an item of the total dict
    that is above zero, with the free and used amounts of the response. *)
Lemma add_balance_fold (data : balance_data) (now : datetime)
    (items : list (string * amount)) :
  forall acc bs,
    fold_left (add_balance data now) items (Ok acc) = Ok bs ->
    forall b, In b bs ->
      In b acc
      \/ (In (bal_asset b, AFloat (bal_total b)) items
          /\ (0 <? bal_total b)%float = true
          /\ get_amount (free data) (bal_asset b) = AFloat (bal_free b)
          /\ get_amount (used data) (bal_asset b) = AFloat (bal_locked b)
          /\ bal_timestamp b = now).
Proof.
  induction items as [|[asset d] items IH]; intros acc bs Hf b Hb.
  - cbn in Hf. injection Hf as <-. left. exact Hb.
  - cbn [fold_left] in Hf.
    assert (forall r, add_balance data now (Ok acc) (asset, d) = r ->
            fold_left (add_balance data now) items r = Ok bs ->
            In b acc \/
            (In (bal_asset b, AFloat (bal_total b)) ((asset, d) :: items)
             /\ (0 <? bal_total b)%float = true
             /\ get_amount (free data) (bal_asset b) = AFloat (bal_free b)
             /\ get_amount (used data) (bal_asset b) = AFloat (bal_locked b)
             /\ bal_timestamp b = now)) as Hstep; [|eapply Hstep; eauto].
    intros r Hr Hrest. unfold add_balance in Hr. cbn in Hr.
    destruct d as [|x].
    + subst r. destruct (IH _ _ Hrest b Hb) as [?|(? & ?)]; [tauto|].
      right. split; [right|]; tauto.
    + destruct (0 <? x)%float eqn:Hx.
      * destruct (get_amount (free data) asset) as [|f] eqn:Hfree; cbn in Hr;
          [subst r; rewrite add_balance_raise in Hrest; discriminate|].
        destruct (get_amount (used data) asset) as [|u] eqn:Hused; cbn in Hr;
          [subst r; rewrite add_balance_raise in Hrest; discriminate|].
        subst r. destruct (IH _ _ Hrest b Hb) as [Hin|(? & ?)].
        -- apply in_app_or in Hin as [Hin|[<-|[]]]; [tauto|]. right. cbn.
           repeat split; auto.
        -- right. split; [right|]; tauto.
      * subst r. destruct (IH _ _ Hrest b Hb) as [?|(? & ?)]; [tauto|].
        right. split; [right|]; tauto.
Qed.

(** The call always returns: its handler turns every exception into the
    empty list. *)
Lemma get_account_balance_returns (self : settings)
    (fetch_balance : result balance_data) (now : datetime) :
  exists balances, get_account_balance self fetch_balance now = Ok balances.
Proof.
  unfold get_account_balance, try_except.
  match goal with |- context [match ?r with _ => _ end] => destruct r end; eauto.
Qed.

Lemma get_account_balance_inv (self : settings)
    (fetch_balance : result balance_data) (now : datetime)
    (balances : list Balance) (b : Balance) :
  get_account_balance self fetch_balance now = Ok balances ->
  In b balances ->
  exists data, fetch_balance = Ok data /\ from_response data now b.
Proof.
  unfold get_account_balance, try_except. intros H Hb.
  destruct (rate_limit_check self) as [[]|]; cbn in H;
    [|injection H as <-; destruct Hb].
  destruct fetch_balance as [data|]; cbn in H; [|injection H as <-; destruct Hb].
  exists data. split; [reflexivity|].
  destruct (fold_left _ _ _) as [bs|] eqn:Hf; [|injection H as <-; destruct Hb].
  injection H as <-.
  destruct (add_balance_fold _ _ _ _ _ Hf b Hb) as [[]|?]. exact H.
Qed.

(** The adapter builds a balance whose total is not the sum of its free
    and locked amounts when the response says so. *)
Lemma balance_total_not_enforced :
  get_account_balance binance_settings (Ok inconsistent_response) (noon 2024 1 1)
  = Ok [btc_balance]
  /\ bal_total btc_balance = 5%float
  /\ (bal_free btc_balance + bal_locked btc_balance)%float = 2%float
  /\ (bal_total btc_balance =? bal_free btc_balance + bal_locked btc_balance)%float
     = false.
Proof. repeat split; reflexivity. Qed.

(** C7 (amended). Every balance that [get_account_balance] returns
    carries the total, free and used amounts of the client response as
    they are (a missing free or used amount reads as 0.0); nothing
    relates the total to the other two when the balance is built. *)
Theorem balance_carries_response (self : settings)
    (fetch_balance : result balance_data) (now : datetime)
    (balances : list Balance) (b : Balance) :
  get_account_balance self fetch_balance now = Ok balances ->
  In b balances ->
  exists data,
    fetch_balance = Ok data
    /\ In (bal_asset b, AFloat (bal_total b)) (default [] (total data))
    /\ get_amount (free data) (bal_asset b) = AFloat (bal_free b)
    /\ get_amount (used data) (bal_asset b) = AFloat (bal_locked b).
Proof.
  intros H Hb. destruct (get_account_balance_inv _ _ _ _ _ H Hb) as (data & ? & Hr).
  exists data. unfold from_response in Hr. tauto.
Qed.

Lemma balance_carries_response_witness :
  get_account_balance binance_settings (Ok inconsistent_response) (noon 2024 1 1)
  = Ok [btc_balance]
  /\ In btc_balance [btc_balance]
  /\ exists data,
       Ok inconsistent_response = Ok data
       /\ In (bal_asset btc_balance, AFloat (bal_total btc_balance))
             (default [] (total data))
       /\ get_amount (free data) (bal_asset btc_balance) = AFloat (bal_free btc_balance)
       /\ get_amount (used data) (bal_asset btc_balance)
          = AFloat (bal_locked btc_balance).
Proof.
  assert (get_account_balance binance_settings (Ok inconsistent_response)
            (noon 2024 1 1) = Ok [btc_balance]) as H by reflexivity.
  assert (In btc_balance [btc_balance]) as Hb by (left; reflexivity).
  split; [exact H|]. split; [exact Hb|].
  exact (balance_carries_response _ _ _ _ _ H Hb).
Defined.

(** A failing client call makes the adapter return normally. *)
Lemma transport_failure_returns_normally :
  get_account_balance binance_settings (Raise Exception) (noon 2024 1 1) = Ok []
  /\ is_ok (get_account_balance binance_settings (Raise Exception) (noon 2024 1 1))
     = true.
Proof. split; reflexivity. Qed.

(** C8 (amended). [get_account_balance] never raises: when the client
    call fails it returns the empty list, and in every case each balance
    it returns has a total strictly above zero. *)
Theorem balance_failure_is_empty (self : settings)
    (fetch_balance : result balance_data) (e : exn) (now : datetime) :
  get_account_balance self (Raise e) now = Ok []
  /\ exists balances,
       get_account_balance self fetch_balance now = Ok balances
       /\ Forall (fun b => (0 <? bal_total b)%float = true) balances.
Proof.
  split.
  - unfold get_account_balance, try_except.
    destruct (rate_limit_check self) as [[]|]; reflexivity.
  - destruct (get_account_balance_returns self fetch_balance now) as [bs Hbs].
    exists bs. split; [exact Hbs|]. apply List.Forall_forall. intros b Hb.
    destruct (get_account_balance_inv _ _ _ _ _ Hbs Hb) as (data & ? & Hr).
    unfold from_response in Hr. tauto.
Qed.

(** ** The orchestrator's calculator ([data_collector.py], [config.py]) *)

(** The calculator of a collector built from a configuration that
    supplies a threshold, a fee and a capital has none of the three. *)
Lemma configured_parameters_ignored :
  Config.get config_custom "arbitrage.threshold" Config.YNull = Config.YFloat 0.1
  /\ Config.get config_custom "arbitrage.transaction_fee" Config.YNull
     = Config.YFloat 0.002
  /\ Config.get config_custom "arbitrage.initial_capital" Config.YNull
     = Config.YFloat 50000
  /\ exists dc,
       DataCollector.init config_custom = Ok dc
       /\ (min_profit_threshold (arbitrage_calculator dc) =? 0.1)%float = false
       /\ (transaction_fee (arbitrage_calculator dc) =? 0.002)%float = false
       /\ (initial_capital (arbitrage_calculator dc) =? 50000)%float = false.
Proof.
  repeat split; try reflexivity.
  eexists. split; [reflexivity|]. repeat split; reflexivity.
Qed.

(** C9 (amended). Whatever the configuration, the calculator that the
    orchestrator constructs has initial capital 10000.0, fee rate 0.001
    and threshold 0.05: the constructor's default and the two constants
    of the calculator. *)
Theorem calculator_parameters_fixed (config : Config.t) (dc : DataCollector.t) :
  DataCollector.init config = Ok dc ->
  initial_capital (arbitrage_calculator dc) = 10000%float
  /\ transaction_fee (arbitrage_calculator dc) = 0.001%float
  /\ min_profit_threshold (arbitrage_calculator dc) = 0.05%float.
Proof.
  unfold DataCollector.init. destruct (times_60 _); cbn; [|discriminate].
  intros [= <-]. repeat split; reflexivity.
Qed.

Lemma calculator_parameters_fixed_witness :
  exists dc,
    DataCollector.init config_custom = Ok dc
    /\ initial_capital (arbitrage_calculator dc) = 10000%float
    /\ transaction_fee (arbitrage_calculator dc) = 0.001%float
    /\ min_profit_threshold (arbitrage_calculator dc) = 0.05%float.
Proof.
  eexists. split; [reflexivity|].
  apply (calculator_parameters_fixed config_custom). reflexivity.
Defined.

(** ** The arbitrage calculator ([arbitrage_calculator.py]) *)

(** Two prices that sum to zero make the percentage division raise. *)
Lemma zero_midpoint_raises :
  calculate_arbitrage_opportunity default_calculator 0 0 None (noon 2024 1 1)
  = Raise ZeroDivisionError.
Proof. reflexivity. Qed.

(** C3 (amended). For all input prices whose midpoint is not zero,
    [calculate_arbitrage_opportunity] returns, and appends to the price
    history, an opportunity with spread [priceA - priceB], spread percent
    the spread divided by the midpoint times 100, potential profit
    [max(0, |spread percent| - 2 * fee * 100)], and the action
    [buy_htx_sell_binance] when the spread percent is above the
    threshold, [buy_binance_sell_htx] when it is below minus the
    threshold and [no_action] otherwise.  With the default calculator,
    prices 100.10 and 100.00 give [buy_htx_sell_binance] (sell the 100.10
    venue) with the profit clamped to 0, and prices 100 and 100 give
    [no_action]. *)
Theorem opportunity_formula :
  (forall (self : ArbitrageCalculator.t) (priceA priceB : float)
          (timestamp : option datetime) (now : datetime),
      ((priceA + priceB) / 2 =? 0)%float = false ->
      exists opp,
        calculate_arbitrage_opportunity self priceA priceB timestamp now
        = Ok (opp, with_price_history self (price_history self ++ [opp]))
        /\ price_diff opp = (priceA - priceB)%float
        /\ price_diff_percent opp
           = ((priceA - priceB) / ((priceA + priceB) / 2) * 100)%float
        /\ potential_profit_percent opp
           = Py.max 0 (abs (price_diff_percent opp)
                       - 2 * transaction_fee self * 100)%float
        /\ suggested_action opp
           = if (min_profit_threshold self <? price_diff_percent opp)%float
             then buy_htx_sell_binance
             else if (price_diff_percent opp <? - min_profit_threshold self)%float
                  then buy_binance_sell_htx
                  else no_action)
  /\ (forall now, exists opp calc,
        calculate_arbitrage_opportunity default_calculator 100.10 100.00 None now
        = Ok (opp, calc)
        /\ suggested_action opp = buy_htx_sell_binance
        /\ potential_profit_percent opp = 0%float)
  /\ (forall now, exists opp calc,
        calculate_arbitrage_opportunity default_calculator 100 100 None now
        = Ok (opp, calc)
        /\ suggested_action opp = no_action).
Proof.
  split; [|split].
  - intros self a b ts now Hm. unfold calculate_arbitrage_opportunity, truediv.
    rewrite Hm. cbn. eexists. split; [reflexivity|]. cbn.
    rewrite (float_mul_comm 2). repeat split; reflexivity.
  - intros now. eexists. eexists. split; [reflexivity|]. split; reflexivity.
  - intros now. eexists. eexists. split; [reflexivity|]. reflexivity.
Qed.

Lemma opportunity_formula_witness :
  ((101 + 100) / 2 =? 0)%float = false
  /\ exists opp calc,
       calculate_arbitrage_opportunity default_calculator 101 100 None (noon 2024 1 1)
       = Ok (opp, calc)
       /\ price_diff opp = 1%float
       /\ suggested_action opp = buy_htx_sell_binance.
Proof.
  split; [reflexivity|].
  destruct (proj1 opportunity_formula default_calculator 101%float 100%float None
              (noon 2024 1 1))
    as (opp & Hc & Hd & Hp & _ & Ha); [reflexivity|].
  exists opp. eexists. split; [exact Hc|]. split; [exact Hd|].
  rewrite Ha, Hp. reflexivity.
Defined.

(** Whenever [calculate_pnl] returns, the snapshot is appended to the
    history and its daily PnL is 0 on an empty history or on the date of
    the last entry, and the change from the last entry's total on
    another date. *)
Lemma calculate_pnl_daily_pnl (self self' : ArbitrageCalculator.t)
    (binance_balance htx_balance : list (string * float))
    (current_prices : gmap string float)
    (timestamp : option datetime) (now : datetime) (pnl : PnLData) :
  calculate_pnl self binance_balance htx_balance current_prices timestamp now
  = Ok (pnl, self') ->
  self' = with_pnl_history self (pnl_history self ++ [pnl])
  /\ total_value_usdt pnl
     = (_calculate_total_value_usdt binance_balance current_prices
        + _calculate_total_value_usdt htx_balance current_prices)%float
  /\ daily_pnl pnl
     = match last (pnl_history self) with
       | Some last_pnl =>
           if date_eqb (date (default now timestamp)) (date (pnl_timestamp last_pnl))
           then 0%float
           else (total_value_usdt pnl - total_value_usdt last_pnl)%float
       | None => 0%float
       end.
Proof.
  unfold calculate_pnl.
  destruct (truediv _ (initial_capital self)) as [q|]; cbn -[date_eqb date truediv];
    [|discriminate].
  destruct (last (pnl_history self)) as [last_pnl|]; cbn -[date_eqb date truediv].
  - destruct (date_eqb _ _); cbn -[truediv].
    + intros [= <- <-]. repeat split; reflexivity.
    + destruct (truediv _ (total_value_usdt last_pnl)) as [r|]; cbn; [|discriminate].
      intros [= <- <-]. repeat split; reflexivity.
  - intros [= <- <-]. repeat split; reflexivity.
Qed.

(** The call raises exactly when a percentage divides by zero: the
    initial capital is zero, or the date changed and the last total is
    zero. *)
Lemma calculate_pnl_raises (self : ArbitrageCalculator.t)
    (binance_balance htx_balance : list (string * float))
    (current_prices : gmap string float)
    (timestamp : option datetime) (now : datetime) (e : exn) :
  calculate_pnl self binance_balance htx_balance current_prices timestamp now
  = Raise e ->
  e = ZeroDivisionError
  /\ ((initial_capital self =? 0)%float = true
      \/ exists last_pnl,
           last (pnl_history self) = Some last_pnl
           /\ date_eqb (date (default now timestamp)) (date (pnl_timestamp last_pnl))
              = false
           /\ (total_value_usdt last_pnl =? 0)%float = true).
Proof.
  unfold calculate_pnl, truediv.
  destruct (initial_capital self =? 0)%float; cbn -[date_eqb date].
  - intros [= <-]. split; [reflexivity|]. left. reflexivity.
  - destruct (last (pnl_history self)) as [last_pnl|]; cbn -[date_eqb date];
      [|discriminate].
    destruct (date_eqb _ _) eqn:Hd; cbn; [discriminate|].
    destruct (total_value_usdt last_pnl =? 0)%float eqn:Hz; cbn; [|discriminate].
    intros [= <-]. split; [reflexivity|]. right. exists last_pnl. auto.
Qed.

(** C2. On the day after a snapshot whose total value is zero, the call
    raises [ZeroDivisionError] instead of returning a daily PnL equal to
    the new total minus that zero total. *)
Theorem daily_pnl_after_zero_total (now : datetime) :
  exists first calc1,
    calculate_pnl default_calculator [] [] ∅ (Some (noon 2024 1 1)) now
    = Ok (first, calc1)
    /\ pnl_history calc1 = [first]
    /\ total_value_usdt first = 0%float
    /\ calculate_pnl calc1 [("USDT"%string, 100%float)] [] ∅ (Some (noon 2024 1 2)) now
       = Raise ZeroDivisionError.
Proof.
  eexists. eexists. split; [reflexivity|]. repeat split; reflexivity.
Qed.

Lemma replace_negative_hour (dt : datetime) (h : Z) :
  h < 0 ->
  DateTime.replace dt None (Some h) None None None
  = Raise (if fits_c_int h then ValueError else OverflowError).
Proof.
  intros Hh. unfold DateTime.replace, check_fields. cbn.
  rewrite andb_true_r. destruct (fits_c_int h); [|reflexivity].
  assert (between 0 h 23 = false) as ->.
  { unfold between. apply andb_false_iff. left. lia. }
  rewrite !andb_false_r. reflexivity.
Qed.

Lemma replace_nonpositive_day (dt : datetime) (d : Z) :
  d < 1 ->
  DateTime.replace dt (Some d) None None None None
  = Raise (if fits_c_int d then ValueError else OverflowError).
Proof.
  intros Hd. unfold DateTime.replace, check_fields. cbn.
  rewrite andb_true_r. destruct (fits_c_int d); [|reflexivity].
  assert (between 1 d (days_in_month (year dt) (month dt)) = false) as ->.
  { unfold between. apply andb_false_iff. left. lia. }
  rewrite !andb_false_r. reflexivity.
Qed.

Lemma midnight_fields (now cutoff : datetime) :
  midnight now = Ok cutoff -> hour cutoff = 0 /\ day cutoff = day now.
Proof.
  unfold midnight, DateTime.replace, check_fields.
  change (forallb keyword_fits [None; Some 0; Some 0; Some 0; Some 0]) with true.
  cbv iota. destruct (_ && _); [|discriminate]. intros [= <-]. split; reflexivity.
Qed.

Lemma midnight_raises (now : datetime) (e : exn) :
  midnight now = Raise e -> e = ValueError.
Proof.
  unfold midnight, DateTime.replace, check_fields.
  change (forallb keyword_fits [None; Some 0; Some 0; Some 0; Some 0]) with true.
  cbv iota. destruct (_ && _); [discriminate|]. intros [= <-]. reflexivity.
Qed.

(** C4. [get_recent_opportunities] raises for every positive number of
    hours, and [get_recent_pnl] for every number of days that reaches the
    day of the month: [ValueError], or [OverflowError] once the field
    handed to [replace] no longer fits a C [int]; when [get_recent_pnl]
    does return, its cutoff is a midnight of the current month, so it
    also returns entries older than the given number of days. *)
Theorem recent_queries_raise :
  (forall (self : ArbitrageCalculator.t) (now : datetime) (hours : Z),
      0 < hours ->
      get_recent_opportunities self now hours
      = Raise (if is_ok (midnight now) && negb (fits_c_int (- hours))
               then OverflowError else ValueError))
  /\ (forall (self : ArbitrageCalculator.t) (now : datetime) (days : Z),
      day now <= days ->
      get_recent_pnl self now days
      = Raise (if is_ok (midnight now) && negb (fits_c_int (day now - days))
               then OverflowError else ValueError))
  /\ (let now := noon 2024 1 31 in
      exists calc,
        calculate_pnl default_calculator [] [] ∅ (Some (mk_datetime 2024 1 1 6 0 0 0)) now
        = Ok (early_entry, calc)
        /\ get_recent_pnl calc now 30 = Ok [early_entry]
        /\ microseconds (pnl_timestamp early_entry)
           < microseconds now - 30 * (86400 * 1000000)).
Proof.
  split; [|split].
  - intros self now hours Hh. unfold get_recent_opportunities.
    destruct (midnight now) as [cutoff|e] eqn:Hm; cbn.
    + destruct (midnight_fields _ _ Hm) as [-> _].
      rewrite replace_negative_hour by lia. cbn.
      replace (0 - hours) with (- hours) by lia.
      destruct (fits_c_int (- hours)); reflexivity.
    + rewrite (midnight_raises _ _ Hm). reflexivity.
  - intros self now days Hd. unfold get_recent_pnl.
    destruct (midnight now) as [cutoff|e] eqn:Hm; cbn.
    + destruct (midnight_fields _ _ Hm) as [_ ->].
      rewrite replace_nonpositive_day by lia. cbn.
      destruct (fits_c_int (day now - days)); reflexivity.
    + rewrite (midnight_raises _ _ Hm). reflexivity.
  - cbv zeta. eexists. split; [reflexivity|]. split; [reflexivity|].
    vm_compute. reflexivity.
Qed.

Lemma recent_queries_raise_witness :
  0 < 24
  /\ get_recent_opportunities default_calculator (noon 2024 1 15) 24 = Raise ValueError
  /\ day (noon 2024 1 15) <= 30
  /\ get_recent_pnl default_calculator (noon 2024 1 15) 30 = Raise ValueError.
Proof.
  destruct recent_queries_raise as (Hh & Hd & _).
  split; [lia|]. split; [apply Hh; lia|]. split; [vm_compute; discriminate|].
  apply Hd. vm_compute. discriminate.
Defined.

(** *** The calculator's valuation against the adapter's *)






(** *** Performance statistics *)


Section PerformanceStats.

Variable statistics_mean statistics_stdev : list float -> result float.


End PerformanceStats.


(** * Further properties *)

Set Warnings "-clear-no-such-hyp".

(** ** The calculator *)

Lemma ltb_leb (x y : float) : (x <? y)%float = true -> (x <=? y)%float = true.
Proof.
  rewrite FloatAxioms.ltb_spec, FloatAxioms.leb_spec. unfold SFltb, SFleb.
  destruct (SFcompare _ _) as [[| |]|]; congruence.
Qed.

Lemma max_zero_not_below (x : float) : (0 <=? Py.max 0 x)%float = true.
Proof.
  unfold Py.max. destruct (0 <? x)%float eqn:H; [apply ltb_leb; exact H|reflexivity].
Qed.

(** The spread percent of two equal prices is a zero or NaN. *)
Lemma equal_prices_percent (p m : float) :
  match Prim2SF ((p - p) / m * 100)%float with
  | S754_zero _ | S754_nan => True
  | _ => False
  end.
Proof.
  rewrite mul_spec, div_spec, sub_spec.
  change (Prim2SF 100) with (S754_finite false 7036874417766400 (-46)).
  assert (SF64sub (Prim2SF p) (Prim2SF p) = S754_zero false
          \/ SF64sub (Prim2SF p) (Prim2SF p) = S754_nan) as [-> | ->].
  { destruct (Prim2SF p) as [s|s| |s mp ep]; cbn.
    - left. destruct s; reflexivity.
    - right. destruct s; reflexivity.
    - right. reflexivity.
    - left. unfold SF64sub, SFsub. rewrite Z.sub_diag. reflexivity. }
  - destruct (Prim2SF m) as [s|s| |s mm em]; exact I.
  - exact I.
Qed.

Lemma threshold_not_crossed (t q : float) :
  (0 <=? t)%float = true ->
  match Prim2SF q with S754_zero _ | S754_nan => True | _ => False end ->
  (t <? q)%float = false /\ (q <? - t)%float = false.
Proof.
  rewrite FloatAxioms.leb_spec, !FloatAxioms.ltb_spec, opp_spec, Prim2SF_zero.
  destruct (Prim2SF q) as [sq|sq| |sq mq eq]; try contradiction; intros Ht _.
  - destruct (Prim2SF t) as [s|s| |s mt et]; cbn in *; try discriminate;
      try (destruct s; try discriminate; split; reflexivity).
  - destruct (Prim2SF t) as [s|s| |s mt et]; split; reflexivity.
Qed.

(** X1. Whenever [calculate_arbitrage_opportunity] returns, the potential
    profit it reports is not below zero, and it suggests a trade only
    when the spread percent is beyond the threshold on that side. *)
Theorem potential_profit_never_negative
    (self self' : ArbitrageCalculator.t) (priceA priceB : float)
    (timestamp : option datetime) (now : datetime) (opp : ArbitrageOpportunity) :
  calculate_arbitrage_opportunity self priceA priceB timestamp now = Ok (opp, self') ->
  (0 <=? potential_profit_percent opp)%float = true
  /\ (suggested_action opp = buy_htx_sell_binance ->
      (min_profit_threshold self <? price_diff_percent opp)%float = true)
  /\ (suggested_action opp = buy_binance_sell_htx ->
      (price_diff_percent opp <? - min_profit_threshold self)%float = true).
Proof.
  unfold calculate_arbitrage_opportunity.
  destruct (truediv _ _) as [q|]; cbn; [|discriminate].
  intros [= <- <-]. cbn. split; [apply max_zero_not_below|].
  destruct (min_profit_threshold self <? q * 100)%float;
    destruct (q * 100 <? - min_profit_threshold self)%float; split; congruence.
Qed.

Lemma potential_profit_never_negative_witness :
  exists opp calc,
    calculate_arbitrage_opportunity default_calculator 100.10 100 None (noon 2024 1 1)
    = Ok (opp, calc)
    /\ (0 <=? potential_profit_percent opp)%float = true
    /\ suggested_action opp = buy_htx_sell_binance.
Proof.
  eexists. eexists. split; [reflexivity|].
  split; [|reflexivity].
  exact (proj1 (potential_profit_never_negative default_calculator _ 100.10%float
                  100%float None (noon 2024 1 1) _ eq_refl)).
Defined.

(** X2. With a threshold that is not negative, two equal prices never
    produce a trade suggestion, whatever the price. *)
Theorem equal_prices_no_action
    (self self' : ArbitrageCalculator.t) (price : float)
    (timestamp : option datetime) (now : datetime) (opp : ArbitrageOpportunity) :
  (0 <=? min_profit_threshold self)%float = true ->
  calculate_arbitrage_opportunity self price price timestamp now = Ok (opp, self') ->
  suggested_action opp = no_action.
Proof.
  intros Ht. unfold calculate_arbitrage_opportunity, truediv.
  destruct ((price + price) / 2 =? 0)%float eqn:Hm; cbn; [discriminate|].
  intros [= <- <-]. cbn.
  destruct (threshold_not_crossed _ _ Ht (equal_prices_percent price ((price + price) / 2)%float)) as [-> ->].
  reflexivity.
Qed.

Lemma equal_prices_no_action_witness :
  exists opp calc,
    (0 <=? min_profit_threshold default_calculator)%float = true
    /\ calculate_arbitrage_opportunity default_calculator 0.9998 0.9998 None
         (noon 2024 1 1) = Ok (opp, calc)
    /\ suggested_action opp = no_action.
Proof.
  eexists. eexists. split; [reflexivity|]. split; [reflexivity|].
  exact (equal_prices_no_action default_calculator _ 0.9998%float None (noon 2024 1 1) _
           eq_refl eq_refl).
Defined.

(** A float that is not below zero: a zero of either sign, a positive
    value, or NaN. *)
Lemma not_below_zero_sf (x : float) :
  (x <? 0)%float = false ->
  match Prim2SF x with
  | S754_zero _ | S754_nan => True
  | S754_infinity s | S754_finite s _ _ => s = false
  end.
Proof.
  rewrite FloatAxioms.ltb_spec, Prim2SF_zero.
  destruct (Prim2SF x) as [s|s| |s m e]; cbn; auto; destruct s; congruence.
Qed.

Lemma not_negative_not_below (x : float) :
  not_negative x -> (x <? 0)%float = false.
Proof.
  unfold not_negative. rewrite FloatAxioms.ltb_spec, Prim2SF_zero.
  destruct (Prim2SF x) as [s|s| |s m e]; cbn; intros H; subst; reflexivity.
Qed.

(** The product of an amount above zero and a price that is not below
    zero is not below zero. *)
Lemma mul_positive_not_below (a p : float) :
  (0 <? a)%float = true -> (p <? 0)%float = false -> (a * p <? 0)%float = false.
Proof.
  intros Ha Hp%not_below_zero_sf.
  rewrite FloatAxioms.ltb_spec, mul_spec, Prim2SF_zero.
  destruct (gt_zero_sf a Ha) as [(ma & ea & ->)| ->];
    destruct (Prim2SF p) as [s|s| |s m e]; cbn in *; subst; try reflexivity;
    try (destruct s; reflexivity).
  pose proof (binary_round_aux_sign false (Z.pos (ma * m)) (ea + e) loc_Exact) as H.
  destruct (binary_round_aux _ _ _ _ _ _); cbn; subst; reflexivity.
Qed.

(** Adding a value that is not below zero keeps a sum not negative. *)
Lemma add_not_below_not_negative (acc v : float) :
  not_negative acc -> (v <? 0)%float = false -> not_negative (acc + v).
Proof.
  unfold not_negative. rewrite add_spec. intros Hacc Hv%not_below_zero_sf.
  destruct (Prim2SF acc) as [s|s| |s ma ea]; cbn in Hacc; subst;
    destruct (Prim2SF v) as [sv|sv| |sv mv ev]; cbn in Hv; subst; cbn; auto;
    try (destruct sv; reflexivity).
  rewrite <- Pos2Z.inj_add. cbn [binary_normalize].
  match goal with |- sf_not_negative (binary_round _ _ false ?p ?e) =>
    pose proof (binary_round_sign false p e) as H;
    destruct (binary_round prec emax false p e); exact H end.
Qed.

Lemma is_nan_true_sf (x : float) : is_nan x = true -> Prim2SF x = S754_nan.
Proof.
  unfold is_nan. rewrite FloatAxioms.eqb_spec. unfold SFeqb, SFcompare.
  destruct (Prim2SF x) as [s|s| |s m e]; try reflexivity.
  - discriminate.
  - destruct s; discriminate.
  - destruct s; rewrite Z.compare_refl, Pos.compare_cont_refl; discriminate.
Qed.

Lemma total_value_not_negative (prices : gmap string float)
    (balance : list (string * float)) :
  (default 1.0%float (prices !! "fdusd_usdt"%string) <? 0)%float = false ->
  (default 1.0%float (prices !! "usdc_usdt"%string) <? 0)%float = false ->
  forall acc, not_negative acc ->
    not_negative (fold_left (add_asset_value prices) balance acc).
Proof.
  intros Hf Hc. induction balance as [|[asset amount] balance IH]; intros acc Hacc;
    [exact Hacc|].
  cbn [fold_left]. apply IH. unfold add_asset_value.
  destruct (amount <=? 0)%float eqn:Hle; [exact Hacc|].
  assert ((0 <? amount)%float = true \/ is_nan amount = true) as Hpos.
  { destruct (is_nan amount) eqn:Hn; [right; reflexivity|left].
    rewrite (leb_zero_negb_ltb _ Hn) in Hle. destruct (0 <? amount)%float;
      [reflexivity|discriminate]. }
  assert (forall p, (p <? 0)%float = false -> (amount * p <? 0)%float = false) as Hmul.
  { intros p Hp. destruct Hpos as [Hpos|Hn]; [apply mul_positive_not_below; assumption|].
    rewrite FloatAxioms.ltb_spec, mul_spec, (is_nan_true_sf _ Hn). reflexivity. }
  assert ((amount <? 0)%float = false) as Hamt.
  { destruct Hpos as [Hpos|Hn].
    - rewrite FloatAxioms.ltb_spec, Prim2SF_zero.
      destruct (gt_zero_sf _ Hpos) as [(m & e & ->)| ->]; reflexivity.
    - rewrite FloatAxioms.ltb_spec, (is_nan_true_sf _ Hn). reflexivity. }
  destruct (String.eqb (upper asset) "USDT");
    [apply add_not_below_not_negative; assumption|].
  destruct (String.eqb (upper asset) "FDUSD");
    [apply add_not_below_not_negative; [assumption|apply Hmul; exact Hf]|].
  destruct (String.eqb (upper asset) "USDC");
    [apply add_not_below_not_negative; [assumption|apply Hmul; exact Hc]|].
  exact Hacc.
Qed.

(** X3. With stablecoin prices that are not below zero (the default 1.0
    when a price is missing), the total that [_calculate_total_value_usdt]
    returns is never below zero, whatever the balances hold. *)
Theorem total_value_never_below_zero
    (balance : list (string * float)) (prices : gmap string float) :
  (default 1.0%float (prices !! "fdusd_usdt"%string) <? 0)%float = false ->
  (default 1.0%float (prices !! "usdc_usdt"%string) <? 0)%float = false ->
  (_calculate_total_value_usdt balance prices <? 0)%float = false.
Proof.
  intros Hf Hc. apply not_negative_not_below.
  apply total_value_not_negative; [assumption..|]. reflexivity.
Qed.

Lemma total_value_never_below_zero_witness :
  (default 1.0%float ((∅ : gmap string float) !! "fdusd_usdt"%string) <? 0)%float = false
  /\ (_calculate_total_value_usdt
        [("USDT"%string, 100%float); ("fdusd"%string, 50%float); ("BTC"%string, (-3)%float)]
        ∅ <? 0)%float = false.
Proof.
  split; [reflexivity|].
  apply (total_value_never_below_zero _ ∅); reflexivity.
Defined.

Lemma not_counted_skipped (prices : gmap string float) (acc : float)
    (item : string * float) :
  counted item = false -> add_asset_value prices acc item = acc.
Proof.
  destruct item as [asset amount]. unfold counted, add_asset_value. cbn [fst snd].
  destruct (amount <=? 0)%float; [reflexivity|]. cbn [negb andb].
  destruct (String.eqb (upper asset) "USDT"); [discriminate|].
  destruct (String.eqb (upper asset) "FDUSD"); [discriminate|].
  destruct (String.eqb (upper asset) "USDC"); [discriminate|]. reflexivity.
Qed.

Lemma counted_fold (prices : gmap string float) (balance : list (string * float)) :
  forall acc,
    fold_left (add_asset_value prices) balance acc
    = fold_left (add_asset_value prices) (List.filter counted balance) acc.
Proof.
  induction balance as [|item balance IH]; intros acc; [reflexivity|].
  cbn [fold_left List.filter]. destruct (counted item) eqn:Hc.
  - cbn [fold_left]. apply IH.
  - rewrite (not_counted_skipped _ _ _ Hc). apply IH.
Qed.

(** X4. [_calculate_total_value_usdt] depends only on the items it counts
    (USDT, FDUSD and USDC with an amount above zero): every other item can
    be dropped from the balances, and balances with no counted item are
    worth 0.0. *)
Theorem total_value_ignores_other_assets
    (balance : list (string * float)) (prices : gmap string float) :
  _calculate_total_value_usdt balance prices
  = _calculate_total_value_usdt (List.filter counted balance) prices
  /\ (List.filter counted balance = [] ->
      _calculate_total_value_usdt balance prices = 0%float).
Proof.
  unfold _calculate_total_value_usdt. split; [apply counted_fold|].
  intros H. rewrite counted_fold, H. reflexivity.
Qed.

Lemma after_call_extends (self : ArbitrageCalculator.t) (c : call) :
  initial_capital (after_call self c) = initial_capital self
  /\ transaction_fee (after_call self c) = transaction_fee self
  /\ min_profit_threshold (after_call self c) = min_profit_threshold self
  /\ price_history self `prefix_of` price_history (after_call self c)
  /\ pnl_history self `prefix_of` pnl_history (after_call self c)
  /\ (length (price_history (after_call self c)) + length (pnl_history (after_call self c))
      <= S (length (price_history self) + length (pnl_history self)))%nat.
Proof.
  destruct c as [a b ts now|bb hb prices ts now]; cbn [after_call].
  - unfold calculate_arbitrage_opportunity.
    destruct (truediv _ _) as [q|]; cbn.
    + rewrite length_app. cbn. repeat split; try reflexivity;
        [apply prefix_app_r; reflexivity | lia].
    + repeat split; try reflexivity. lia.
  - destruct (calculate_pnl self bb hb prices ts now) as [[pnl self']|] eqn:H.
    + apply calculate_pnl_daily_pnl in H as (-> & _). cbn. rewrite length_app. cbn.
      repeat split; try reflexivity; [apply prefix_app_r; reflexivity | lia].
    + repeat split; try reflexivity. lia.
Qed.

(** X5. Over any sequence of calls of [calculate_arbitrage_opportunity]
    and [calculate_pnl], raising ones included, the calculator keeps its
    three parameters, only appends to its two histories, and appends at
    most one entry per call. *)
Theorem histories_append_only (self : ArbitrageCalculator.t) (calls : list call) :
  let self' := after_calls self calls in
  initial_capital self' = initial_capital self
  /\ transaction_fee self' = transaction_fee self
  /\ min_profit_threshold self' = min_profit_threshold self
  /\ price_history self `prefix_of` price_history self'
  /\ pnl_history self `prefix_of` pnl_history self'
  /\ (length (price_history self') + length (pnl_history self')
      <= length (price_history self) + length (pnl_history self) + length calls)%nat.
Proof.
  cbv zeta. unfold after_calls. revert self.
  induction calls as [|c calls IH]; intros self.
  - cbn. repeat split; try reflexivity. lia.
  - cbn [fold_left length].
    destruct (after_call_extends self c) as (E1 & E2 & E3 & P1 & P2 & L).
    destruct (IH (after_call self c)) as (F1 & F2 & F3 & Q1 & Q2 & M).
    repeat split; try congruence; try (etrans; eassumption). lia.
Qed.

(** A value above a value above zero is above zero. *)
Lemma ltb_zero_trans (a b : float) :
  (0 <? a)%float = true -> (a <? b)%float = true -> (0 <? b)%float = true.
Proof.
  intros Ha. rewrite !FloatAxioms.ltb_spec, Prim2SF_zero.
  destruct (gt_zero_sf a Ha) as [(m & e & ->)| ->];
    destruct (Prim2SF b) as [s|s| |s mb eb]; cbn; try discriminate;
    destruct s; try discriminate; reflexivity.
Qed.

Lemma max_zero_or_positive (a b : float) :
  zero_or_positive a -> zero_or_positive (Py.max a b).
Proof.
  unfold Py.max. intros Ha. destruct (a <? b)%float eqn:Hab; [|exact Ha].
  right. destruct Ha as [->|Ha]; [exact Hab|]. eapply ltb_zero_trans; eassumption.
Qed.

Lemma drawdown_fold_raise (e : exn) (history : list PnLData) :
  fold_left drawdown_step history (Raise e) = Raise e.
Proof. induction history as [|p h IH]; [reflexivity|]. exact IH. Qed.

Lemma drawdown_fold_invariant (history : list PnLData) :
  forall max_value max_drawdown max_value' max_drawdown',
    zero_or_positive max_drawdown ->
    fold_left drawdown_step history (Ok (max_value, max_drawdown))
    = Ok (max_value', max_drawdown') ->
    zero_or_positive max_drawdown'.
Proof.
  induction history as [|p h IH]; intros mv md mv' md' Hmd.
  - cbn. intros [= _ <-]. exact Hmd.
  - cbn [fold_left]. unfold drawdown_step at 2. cbn [mbind result_bind].
    destruct (truediv _ _) as [q|]; cbn [mbind result_bind].
    + apply IH. apply max_zero_or_positive. exact Hmd.
    + rewrite drawdown_fold_raise. discriminate.
Qed.

Section Stats.
Variable statistics_mean statistics_stdev : list float -> result float.

(** X6. Whenever [get_performance_stats] returns on a history that is not
    empty, the maximum drawdown it reports is not below zero, the number
    of days running is at least 1, and the current value and total return
    are those of the last entry of the history. *)
Theorem performance_stats_bounds
    (self : ArbitrageCalculator.t) (now : datetime) (stats : gmap string num) :
  pnl_history self <> [] ->
  get_performance_stats statistics_mean statistics_stdev self now = Ok stats ->
  exists drawdown days latest,
    stats !! "max_drawdown_percent"%string = Some (PFloat drawdown)
    /\ (0 <=? drawdown)%float = true
    /\ stats !! "days_running"%string = Some (PInt days)
    /\ 1 <= days
    /\ last (pnl_history self) = Some latest
    /\ stats !! "current_value_usdt"%string = Some (PFloat (total_value_usdt latest))
    /\ stats !! "total_return_percent"%string
       = Some (PFloat (cumulative_pnl_percent latest)).
Proof.
  intros Hne. unfold get_performance_stats.
  destruct (pnl_history self) as [|first rest] eqn:Hh; [contradiction|].
  destruct (last (first :: rest)) as [latest|] eqn:Hl.
  2:{ apply last_None in Hl. discriminate. }
  destruct (fold_left drawdown_step (first :: rest) _) as [[mv md]|] eqn:Hf;
    cbn [mbind result_bind]; [|discriminate].
  destruct (truediv_int _ _) as [q|]; cbn [mbind result_bind]; [|discriminate].
  destruct (daily_returns _) as [returns|]; cbn [mbind result_bind]; [|discriminate].
  destruct (sharpe_ratio_of _ _ _) as [sharpe|]; cbn [mbind result_bind]; [|discriminate].
  intros [= <-].
  exists md, (Z.max 1 (sub_days now (pnl_timestamp first))), latest.
  assert (zero_or_positive md) as Hmd.
  { eapply drawdown_fold_invariant; [|exact Hf]. left. reflexivity. }
  split; [reflexivity|]. split.
  { destruct Hmd as [->|H]; [reflexivity|apply ltb_leb; exact H]. }
  split; [reflexivity|]. split; [lia|]. split; [reflexivity|].
  split; reflexivity.
Qed.

(** X7. On a history of exactly two entries the Sharpe ratio is 0 whenever
    [get_performance_stats] returns: the single daily return is below the
    two returns that the ratio needs. *)
Theorem two_entries_sharpe_zero
    (self : ArbitrageCalculator.t) (now : datetime) (stats : gmap string num)
    (first second : PnLData) :
  pnl_history self = [first; second] ->
  get_performance_stats statistics_mean statistics_stdev self now = Ok stats ->
  stats !! "sharpe_ratio"%string = Some (PInt 0).
Proof.
  intros Hh. unfold get_performance_stats. rewrite Hh. cbn [last].
  destruct (fold_left drawdown_step _ _) as [[mv md]|];
    cbn [mbind result_bind]; [|discriminate].
  destruct (truediv_int _ _) as [q|]; cbn [mbind result_bind]; [|discriminate].
  cbn [daily_returns].
  destruct (truediv _ _) as [r|]; cbn [mbind result_bind]; [|discriminate].
  unfold sharpe_ratio_of.
  destruct (statistics_mean [r]) as [mean|]; cbn [mbind result_bind]; [|discriminate].
  change (1 <? Z.of_nat (length [r])) with false. cbn [mbind result_bind].
  change (0 <? 0)%float with false. cbn [mbind result_bind].
  intros [= <-]. reflexivity.
Qed.

End Stats.

Lemma performance_stats_bounds_witness :
  pnl_history two_day_calculator <> []
  /\ exists stats drawdown,
       get_performance_stats naive_mean naive_stdev two_day_calculator (noon 2024 1 3)
       = Ok stats
       /\ stats !! "max_drawdown_percent"%string = Some (PFloat drawdown)
       /\ (0 <=? drawdown)%float = true
       /\ stats !! "current_value_usdt"%string = Some (PFloat 10100).
Proof.
  assert (pnl_history two_day_calculator <> []) as Hne by discriminate.
  split; [exact Hne|]. eexists.
  destruct (performance_stats_bounds naive_mean naive_stdev two_day_calculator
              (noon 2024 1 3) _ Hne eq_refl)
    as (drawdown & days & latest & Hd & Hpos & _ & _ & Hl & Hv & _).
  exists drawdown. split; [reflexivity|]. split; [exact Hd|]. split; [exact Hpos|].
  injection Hl as <-. exact Hv.
Defined.

Lemma two_entries_sharpe_zero_witness :
  pnl_history two_day_calculator = [first_day; second_day]
  /\ exists stats,
       get_performance_stats naive_mean naive_stdev two_day_calculator (noon 2024 1 3)
       = Ok stats
       /\ stats !! "sharpe_ratio"%string = Some (PInt 0).
Proof.
  split; [reflexivity|]. eexists. split; [reflexivity|].
  exact (two_entries_sharpe_zero naive_mean naive_stdev two_day_calculator (noon 2024 1 3)
           _ first_day second_day eq_refl eq_refl).
Defined.
Lemma check_fields_ok (dt dt' : datetime) :
  check_fields dt = Ok dt' ->
  dt' = dt
  /\ between 1 (year dt) 9999 = true /\ between 1 (month dt) 12 = true
  /\ between 1 (day dt) (days_in_month (year dt) (month dt)) = true.
Proof.
  unfold check_fields.
  destruct (between 1 (year dt) 9999) eqn:Hy; cbn [andb]; [|discriminate].
  destruct (between 1 (month dt) 12) eqn:Hm; cbn [andb]; [|discriminate].
  destruct (between 1 (day dt) _) eqn:Hd; cbn [andb]; [|discriminate].
  destruct (_ && _); [|discriminate]. intros [= <-]. auto.
Qed.

Lemma midnight_valid (now : datetime) :
  check_fields now = Ok now -> midnight now = Ok (day_hour_of now (day now) 0).
Proof.
  intros (_ & Hy & Hm & Hd)%check_fields_ok.
  unfold midnight, DateTime.replace, check_fields. cbn.
  rewrite Hy, Hm, Hd. reflexivity.
Qed.

Lemma replace_hour_valid (now : datetime) (h : Z) :
  check_fields now = Ok now ->
  DateTime.replace (day_hour_of now (day now) 0) None (Some h) None None None
  = if fits_c_int h
    then if between 0 h 23 then Ok (day_hour_of now (day now) h) else Raise ValueError
    else Raise OverflowError.
Proof.
  intros (_ & Hy & Hm & Hd)%check_fields_ok.
  unfold DateTime.replace, check_fields. cbn. rewrite Hy, Hm, Hd, andb_true_r. cbn.
  destruct (fits_c_int h); [|reflexivity]. destruct (between 0 h 23); reflexivity.
Qed.

Lemma replace_day_valid (now : datetime) (d : Z) :
  check_fields now = Ok now ->
  DateTime.replace (day_hour_of now (day now) 0) (Some d) None None None None
  = if fits_c_int d
    then if between 1 d (days_in_month (year now) (month now))
         then Ok (day_hour_of now d 0) else Raise ValueError
    else Raise OverflowError.
Proof.
  intros (_ & Hy & Hm & Hd)%check_fields_ok.
  unfold DateTime.replace, check_fields. cbn. rewrite Hy, Hm, andb_true_r. cbn.
  destruct (fits_c_int d); [|reflexivity]. destruct (between 1 d _); reflexivity.
Qed.

Lemma days_in_month_bound (y m : Z) : days_in_month y m <= 31.
Proof.
  unfold days_in_month. destruct (m =? 2); [destruct (is_leap y); lia|].
  destruct (_ || _); lia.
Qed.

(** X8. At a valid current time, [get_recent_opportunities] returns exactly
    for [hours] from -23 to 0, with the entries stamped at or after today
    at hour [-hours] sharp; [get_recent_pnl] returns exactly when
    [day - days] is a day of the current month, with the entries stamped
    at or after midnight of that day.  Otherwise each raises
    [ValueError], or [OverflowError] once the field handed to [replace]
    does not fit a C [int]. *)
Theorem recent_queries_domain
    (self : ArbitrageCalculator.t) (now : datetime) (hours days : Z) :
  check_fields now = Ok now ->
  get_recent_opportunities self now hours
  = (if (-23 <=? hours) && (hours <=? 0)
     then Ok (List.filter
                (fun opp => geb (opp_timestamp opp) (day_hour_of now (day now) (- hours)))
                (price_history self))
     else Raise (if fits_c_int (- hours) then ValueError else OverflowError))
  /\ get_recent_pnl self now days
     = (if (1 <=? day now - days)
           && (day now - days <=? days_in_month (year now) (month now))
        then Ok (List.filter
                   (fun pnl => geb (pnl_timestamp pnl) (day_hour_of now (day now - days) 0))
                   (pnl_history self))
        else Raise (if fits_c_int (day now - days) then ValueError else OverflowError)).
Proof.
  intros Hv. unfold get_recent_opportunities, get_recent_pnl.
  rewrite (midnight_valid _ Hv). cbn [mbind result_bind].
  cbn [hour day day_hour_of].
  change {| year := year now; month := month now; day := day now; hour := 0;
            minute := 0; second := 0; microsecond := 0 |}
    with (day_hour_of now (day now) 0).
  rewrite (replace_hour_valid _ _ Hv), (replace_day_valid _ _ Hv).
  unfold between, fits_c_int. split.
  - replace (0 - hours) with (- hours) by lia.
    destruct (Z.leb_spec (-23) hours), (Z.leb_spec hours 0),
      (Z.leb_spec (- 2 ^ 31) (- hours)), (Z.ltb_spec (- hours) (2 ^ 31)),
      (Z.leb_spec 0 (- hours)), (Z.leb_spec (- hours) 23);
      cbn [andb mbind result_bind]; try reflexivity; lia.
  - pose proof (days_in_month_bound (year now) (month now)) as Hb.
    destruct (Z.leb_spec 1 (day now - days)),
      (Z.leb_spec (day now - days) (days_in_month (year now) (month now))),
      (Z.leb_spec (- 2 ^ 31) (day now - days)), (Z.ltb_spec (day now - days) (2 ^ 31));
      cbn [andb mbind result_bind]; try reflexivity; lia.
Qed.

Lemma recent_queries_domain_witness :
  check_fields (noon 2024 1 31) = Ok (noon 2024 1 31)
  /\ get_recent_opportunities default_calculator (noon 2024 1 31) (-5) = Ok []
  /\ get_recent_pnl default_calculator (noon 2024 1 31) 31 = Raise ValueError.
Proof.
  assert (check_fields (noon 2024 1 31) = Ok (noon 2024 1 31)) as Hv by reflexivity.
  destruct (recent_queries_domain default_calculator (noon 2024 1 31) (-5) 31 Hv)
    as [Ho Hp].
  split; [exact Hv|]. split; [rewrite Ho; reflexivity | rewrite Hp; reflexivity].
Defined.

(** X25. [calculate_pnl] returns exactly when the initial capital is not
    zero and, if the last snapshot is of another date, its total is not
    zero; otherwise it raises. *)
Theorem calculate_pnl_returns_iff (self : ArbitrageCalculator.t)
    (binance_balance htx_balance : list (string * float))
    (current_prices : gmap string float)
    (timestamp : option datetime) (now : datetime) :
  is_ok (calculate_pnl self binance_balance htx_balance current_prices timestamp now)
  = negb (initial_capital self =? 0)%float
    && match last (pnl_history self) with
       | Some last_pnl =>
           date_eqb (date (default now timestamp)) (date (pnl_timestamp last_pnl))
           || negb (total_value_usdt last_pnl =? 0)%float
       | None => true
       end.
Proof.
  unfold calculate_pnl, truediv.
  destruct (initial_capital self =? 0)%float; cbn -[date_eqb date]; [reflexivity|].
  destruct (last (pnl_history self)) as [last_pnl|]; cbn -[date_eqb date]; [|reflexivity].
  destruct (date_eqb _ _); cbn; [reflexivity|].
  destruct (total_value_usdt last_pnl =? 0)%float; reflexivity.
Qed.

Lemma drawdown_fold_error (history : list PnLData) :
  forall st e,
    (forall e', st = Raise e' -> e' = ZeroDivisionError) ->
    fold_left drawdown_step history st = Raise e -> e = ZeroDivisionError.
Proof.
  induction history as [|p h IH]; intros st e Hst; cbn [fold_left].
  - intros H. exact (Hst _ H).
  - apply IH. intros e'. unfold drawdown_step. destruct st as [[mv md]|e0];
      cbn [mbind result_bind].
    + destruct (truediv _ _) as [q|e1] eqn:Ht; cbn [mbind result_bind]; [discriminate|].
      intros [= <-]. unfold truediv in Ht. destruct (_ =? 0)%float; congruence.
    + intros [= <-]. apply Hst. reflexivity.
Qed.

Lemma daily_returns_cons (prev curr : PnLData) (rest : list PnLData) :
  daily_returns (prev :: curr :: rest)
  = (daily_return ← truediv (total_value_usdt curr - total_value_usdt prev)%float
                      (total_value_usdt prev);
     rs ← daily_returns (curr :: rest);
     Ok (daily_return :: rs)).
Proof. reflexivity. Qed.

Lemma daily_returns_error (history : list PnLData) (e : exn) :
  daily_returns history = Raise e -> e = ZeroDivisionError.
Proof.
  induction history as [|prev tl IH]; [discriminate|].
  destruct tl as [|curr rest]; [discriminate|]. rewrite daily_returns_cons.
  unfold truediv. destruct (total_value_usdt prev =? 0)%float; cbn [mbind result_bind];
    [congruence|].
  destruct (daily_returns (curr :: rest)) as [rs|e0]; cbn [mbind result_bind];
    [discriminate|].
  intros [= <-]. apply IH. reflexivity.
Qed.

Lemma daily_returns_zero (history : list PnLData) :
  zero_before_last history = true ->
  daily_returns history = Raise ZeroDivisionError.
Proof.
  induction history as [|prev tl IH]; [discriminate|].
  destruct tl as [|curr rest]; [discriminate|]. rewrite daily_returns_cons.
  change (zero_before_last (prev :: curr :: rest))
    with ((total_value_usdt prev =? 0)%float || zero_before_last (curr :: rest)).
  unfold truediv. destruct (total_value_usdt prev =? 0)%float; cbn [orb mbind result_bind];
    [reflexivity|].
  intros H. rewrite (IH H). reflexivity.
Qed.

Section StatsErrors.
Variable statistics_mean statistics_stdev : list float -> result float.

Lemma sharpe_ratio_error (returns : list float) (e : exn) :
  sharpe_ratio_of statistics_mean statistics_stdev returns = Raise e ->
  e = ZeroDivisionError
  \/ statistics_mean returns = Raise e \/ statistics_stdev returns = Raise e.
Proof.
  unfold sharpe_ratio_of. destruct returns as [|r rs]; [discriminate|].
  destruct (statistics_mean (r :: rs)) as [mean|e1]; cbn [mbind result_bind].
  2:{ intros [= <-]. auto. }
  assert (forall return_std,
             (if (0 <? return_std)%float
              then q ← truediv (mean * 365)%float return_std; Ok (PFloat q)
              else Ok (PInt 0)) = Raise e -> e = ZeroDivisionError) as Hdiv.
  { intros return_std. unfold truediv.
    destruct (0 <? return_std)%float; [|discriminate].
    destruct (return_std =? 0)%float; cbn [mbind result_bind];
      [congruence|discriminate]. }
  destruct (1 <? Z.of_nat (length (r :: rs))).
  - destruct (statistics_stdev (r :: rs)) as [stdev|e1]; cbn [mbind result_bind].
    + intros H. left. exact (Hdiv _ H).
    + intros [= <-]. auto.
  - cbn [mbind result_bind]. intros H. left. exact (Hdiv 0%float H).
Qed.

(** X26. Whatever [get_performance_stats] raises is a [ZeroDivisionError]
    of its own divisions or an exception of [statistics.mean] or
    [statistics.stdev] on the period returns; and it does raise
    [ZeroDivisionError] whenever the history holds a zero total before
    its last entry: the return of the following period divides by it. *)
Theorem zero_total_breaks_stats (self : ArbitrageCalculator.t) (now : datetime) :
  (forall e,
     get_performance_stats statistics_mean statistics_stdev self now = Raise e ->
     e = ZeroDivisionError
     \/ exists returns,
          daily_returns (pnl_history self) = Ok returns
          /\ (statistics_mean returns = Raise e \/ statistics_stdev returns = Raise e))
  /\ (zero_before_last (pnl_history self) = true ->
      get_performance_stats statistics_mean statistics_stdev self now
      = Raise ZeroDivisionError).
Proof.
  unfold get_performance_stats.
  destruct (pnl_history self) as [|first rest] eqn:Hh; [split; discriminate|].
  destruct (last (first :: rest)) as [latest|] eqn:Hl.
  2:{ apply last_None in Hl. discriminate. }
  destruct (fold_left drawdown_step (first :: rest) _) as [[mv md]|e0] eqn:Hf;
    cbn [mbind result_bind].
  2:{ assert (e0 = ZeroDivisionError) as ->.
      { eapply drawdown_fold_error; [|exact Hf]. discriminate. }
      split; [intros e [= <-]; left; reflexivity|reflexivity]. }
  unfold truediv_int. destruct (Z.eqb_spec (Z.max 1 (sub_days now (pnl_timestamp first))) 0);
    [lia|]. cbn [mbind result_bind].
  destruct (daily_returns (first :: rest)) as [returns|e0] eqn:Hr; cbn [mbind result_bind].
  - split.
    + intros e.
      destruct (sharpe_ratio_of statistics_mean statistics_stdev returns)
        as [sharpe|e1] eqn:Hs; cbn [mbind result_bind]; [discriminate|].
      intros [= <-]. destruct (sharpe_ratio_error _ _ Hs) as [->|H]; [left; reflexivity|].
      right. exists returns. split; [reflexivity|exact H].
    + intros Hz. rewrite (daily_returns_zero _ Hz) in Hr. discriminate.
  - pose proof (daily_returns_error _ _ Hr) as ->.
    split; [intros e [= <-]; left; reflexivity|reflexivity].
Qed.

End StatsErrors.

(** ** Valuation, rounds and the polling loop *)

Lemma valuation_fold_invariant (prices : gmap string float) (balances : list Balance) :
  forall (total : float) (assets : gmap string AssetValue),
    (forall a e, assets !! a = Some e -> entry_consistent prices a e) ->
    let st := fold_left (add_balance_value prices) balances (total, assets) in
    (forall a e, st.2 !! a = Some e -> entry_consistent prices a e)
    /\ dom st.2 = dom assets ∪ list_to_set (held_assets balances).
Proof.
  induction balances as [|b balances IH]; intros total assets Hinv; cbv zeta.
  - cbn. split; [exact Hinv|]. set_solver.
  - cbn [fold_left]. unfold add_balance_value at 2 4. unfold held_assets.
    cbn [List.filter]. destruct (0 <? bal_total b)%float eqn:Hpos.
    + match goal with |- context [fold_left _ _ (?t, ?m)] =>
        destruct (IH t m) as [H1 H2] end.
      { intros a e. rewrite lookup_insert. case_decide as Ha.
        - intros [= <-]. subst a. unfold entry_consistent. cbn.
          split; [exact Hpos|]. split; reflexivity.
        - apply Hinv. }
      cbv zeta in H1, H2. split; [exact H1|]. rewrite H2.
      rewrite dom_insert_L. cbn [map list_to_set]. unfold held_assets. set_solver.
    + destruct (IH total assets Hinv) as [H1 H2]. split; [exact H1|].
      rewrite H2. reflexivity.
Qed.

(** X9. The per-asset breakdown of [get_portfolio_value] has one entry for
    each upper-cased asset held with a total above zero and no other, and
    every entry agrees with the price table: its price is the table's or
    0.0, its value the amount for USDT, amount times price for a priced
    asset, and 0.0 for an unpriced one. *)
Theorem breakdown_consistent (balances : list Balance)
    (market_data : list MarketData) (now : datetime) :
  let pv := portfolio_valuation balances market_data now in
  dom (pv_assets pv) = list_to_set (held_assets balances)
  /\ forall asset e,
       pv_assets pv !! asset = Some e ->
       entry_consistent (price_table market_data) asset e.
Proof.
  cbv zeta. unfold portfolio_valuation.
  pose proof (valuation_fold_invariant (price_table market_data) balances 0%float ∅) as H.
  cbv zeta in H. destruct (fold_left _ _ _) as [total assets]. cbn in *.
  destruct H as [H1 H2]; [intros a e; rewrite lookup_empty; discriminate|].
  split; [rewrite H2; set_solver | exact H1].
Qed.

Lemma main_pass_writes (name : string) (ex : exchange) (now : datetime) (w : write) :
  In w (_collect_exchange_data name ex now).2 ->
  write_justified [(name, ex)] now w.
Proof.
  unfold _collect_exchange_data.
  destruct (is_enabled (ex_settings ex)) eqn:He; cbn [negb snd]; [|intros []].
  assert (In (name, ex) [(name, ex)]) as Hin by (left; reflexivity).
  unfold sub_collections. cbn [map snd List.concat].
  rewrite !in_app_iff.
  unfold _collect_balance_data, _collect_market_data, _collect_trade_data,
    _collect_portfolio_data.
  intros [H|[H|[H|[H|[]]]]].
  - destruct (balance_call ex) as [[|b l]|] eqn:Hc; cbn in H; try contradiction.
    destruct H as [<-|[]]. cbn. split; [discriminate|eauto].
  - destruct (market_call ex) as [[|b l]|] eqn:Hc; cbn in H; try contradiction.
    destruct H as [<-|[]]. cbn. split; [discriminate|eauto].
  - destruct (trades_call ex) as [[|b l]|] eqn:Hc; cbn in H; try contradiction.
    destruct H as [<-|[]]. cbn. split; [discriminate|eauto].
  - destruct (get_portfolio_value _ _ _) as [pv|] eqn:Hc; cbn in H; try contradiction.
    destruct (0 <? pv_total_value_usdt pv)%float eqn:Hp; cbn in H; try contradiction.
    destruct H as [<-|[]]. cbn. split; [exact Hp|eauto].
Qed.

Lemma strategy_pass_writes (item : string * exchange) (now : datetime) (w : write) :
  In w (strategy_pnl_of now item) ->
  write_justified [item] now w.
Proof.
  destruct item as [name ex]. unfold strategy_pnl_of.
  destruct (get_portfolio_value _ _ _) as [pv|] eqn:Hc; [|intros []].
  destruct (0 <? pv_total_value_usdt pv)%float eqn:Hp; [|intros []].
  intros [<-|[]]. cbn. split; [exact Hp|]. split; [reflexivity|].
  exists ex, pv. auto.
Qed.

Lemma write_justified_mono (l l' : list (string * exchange)) (now : datetime) (w : write) :
  (forall item, In item l -> In item l') ->
  write_justified l now w -> write_justified l' now w.
Proof.
  intros Hsub. destruct w; cbn.
  1-4: intros (? & ex & ? & ?); split; [assumption|]; exists ex; split; auto.
  intros (? & ? & ex & pv & ? & ?). split; [assumption|]. split; [assumption|].
  exists ex, pv. split; auto.
Qed.

(** X10. Every write of a round is backed by data: what [_collect_data_round]
    writes is a list that is not empty (or a portfolio value above zero)
    returned by a call on an exchange of the round, which is enabled for
    every write but the strategy PnL point. *)
Theorem round_writes_justified (self : DataCollector.t)
    (exchanges : list (string * exchange)) (now : datetime) (w : write) :
  In w (_collect_data_round self exchanges now).2 ->
  write_justified exchanges now w.
Proof.
  unfold _collect_data_round. cbn [snd]. rewrite in_app_iff.
  intros [H|H].
  - apply in_concat in H as (ws & Hws & Hw).
    rewrite map_map in Hws. apply in_map_iff in Hws as ([name ex] & <- & Hin).
    eapply write_justified_mono; [|apply main_pass_writes; exact Hw].
    intros item [<-|[]]. exact Hin.
  - unfold _collect_strategy_pnl in H. apply in_concat in H as (ws & Hws & Hw).
    apply in_map_iff in Hws as (item & <- & Hin).
    eapply write_justified_mono; [|apply strategy_pass_writes; exact Hw].
    intros item' [<-|[]]. exact Hin.
Qed.

Lemma round_writes_justified_witness :
  In (write_balances "binance" [btc_balance])
     (_collect_data_round idle_collector [("binance"%string, balances_only)]
        (noon 2024 1 1)).2
  /\ write_justified [("binance"%string, balances_only)] (noon 2024 1 1)
       (write_balances "binance" [btc_balance]).
Proof.
  assert (In (write_balances "binance" [btc_balance])
             (_collect_data_round idle_collector [("binance"%string, balances_only)]
                (noon 2024 1 1)).2) as Hin by (left; reflexivity).
  split; [exact Hin|].
  exact (round_writes_justified idle_collector _ (noon 2024 1 1) _ Hin).
Defined.

(** X11. An exchange whose [is_enabled()] is false is counted as failed by
    the round and none of its four sub-collections runs, yet the strategy
    PnL pass, which does not test [is_enabled()], still writes its point
    when its portfolio is worth more than zero. *)
Theorem disabled_exchange_still_gets_pnl_point
    (self : DataCollector.t) (before after : list (string * exchange))
    (name : string) (ex : exchange) (now : datetime) (pv : PortfolioValue) :
  is_enabled (ex_settings ex) = false ->
  get_portfolio_value (pnl_balance_call ex) (pnl_market_call ex) now = Ok pv ->
  (0 <? pv_total_value_usdt pv)%float = true ->
  let round := _collect_data_round self (before ++ (name, ex) :: after) now in
  let without := stats (_collect_data_round self (before ++ after) now).1 in
  _collect_exchange_data name ex now = (false, [])
  /\ collections_failed (stats round.1) = collections_failed without + 1
  /\ collections_completed (stats round.1) = collections_completed without
  /\ In (write_strategy_pnl name (pv_total_value_usdt pv) now) round.2.
Proof.
  intros He Hpv Hpos. cbv zeta.
  pose proof (disabled_exchange_fails name ex now He) as Hf.
  pose proof (round_counts_exchange self before after (name, ex) now) as Hc.
  cbv zeta in Hc. unfold task_ok in Hc. cbn [fst snd] in Hc. rewrite Hf in Hc.
  cbn [fst] in Hc. split; [exact Hf|]. split; [lia|]. split; [lia|].
  unfold _collect_data_round. cbn [snd]. apply in_or_app. right.
  unfold _collect_strategy_pnl. apply in_concat.
  exists (strategy_pnl_of now (name, ex)). split.
  - apply in_map. apply in_or_app. right. left. reflexivity.
  - unfold strategy_pnl_of. rewrite Hpv, Hpos. left. reflexivity.
Qed.

Lemma disabled_exchange_still_gets_pnl_point_witness :
  is_enabled (ex_settings keyless) = false
  /\ _collect_exchange_data "binance" keyless (noon 2024 1 1) = (false, [])
  /\ (_collect_data_round idle_collector [("binance"%string, keyless)] (noon 2024 1 1)).2
     = [write_strategy_pnl "binance" 100 (noon 2024 1 1)].
Proof.
  split; [reflexivity|].
  destruct (disabled_exchange_still_gets_pnl_point idle_collector [] [] "binance" keyless
              (noon 2024 1 1) _ eq_refl eq_refl eq_refl) as (Hf & _ & _ & _).
  split; [exact Hf|reflexivity].
Defined.

Lemma round_keeps_rest (self : DataCollector.t)
    (exchanges : list (string * exchange)) (now : datetime) :
  let self' := (_collect_data_round self exchanges now).1 in
  config self' = config self /\ running self' = running self
  /\ collection_interval self' = collection_interval self
  /\ concurrent_requests self' = concurrent_requests self
  /\ arbitrage_calculator self' = arbitrage_calculator self
  /\ last_collection_time (stats self') = last_collection_time (stats self)
  /\ total_runtime (stats self') = total_runtime (stats self)
  /\ start_time (stats self') = start_time (stats self).
Proof. cbv zeta. unfold _collect_data_round. cbn. repeat split; reflexivity. Qed.

Lemma round_counter_sum (self : DataCollector.t)
    (exchanges : list (string * exchange)) (now : datetime) :
  let self' := (_collect_data_round self exchanges now).1 in
  collections_completed (stats self') + collections_failed (stats self')
  = collections_completed (stats self) + collections_failed (stats self)
    + Z.of_nat (length exchanges)
  /\ collections_completed (stats self) <= collections_completed (stats self')
  /\ collections_failed (stats self) <= collections_failed (stats self').
Proof.
  cbv zeta. destruct (round_counters self exchanges now) as [-> ->].
  pose proof (List.filter_length (task_ok now) exchanges) as H.
  split; [lia|]. split; lia.
Qed.

(** X12. A round adds exactly one to [collections_completed] or to
    [collections_failed] for each exchange: their sum grows by the number
    of exchanges, neither decreases, and the calculator is left as it
    was. *)
Theorem round_accounts_for_every_exchange (self : DataCollector.t)
    (exchanges : list (string * exchange)) (now : datetime) :
  let self' := (_collect_data_round self exchanges now).1 in
  collections_completed (stats self') + collections_failed (stats self')
  = collections_completed (stats self) + collections_failed (stats self)
    + Z.of_nat (length exchanges)
  /\ collections_completed (stats self) <= collections_completed (stats self')
  /\ collections_failed (stats self) <= collections_failed (stats self')
  /\ arbitrage_calculator self' = arbitrage_calculator self.
Proof.
  cbv zeta. destruct (round_counter_sum self exchanges now) as (H1 & H2 & H3).
  pose proof (round_keeps_rest self exchanges now) as K. cbv zeta in K.
  split; [exact H1|]. split; [exact H2|]. split; [exact H3|]. tauto.
Qed.

Lemma start_fold_counters
    (ticks : list (list (string * exchange) * datetime * datetime * float)) :
  forall (st : DataCollector.t * list write),
    let st' :=
      fold_left
        (fun st tick =>
           let '(exchanges, now, finished, runtime) := tick in
           let '(self', writes) := start_iteration st.1 exchanges now finished runtime in
           (self', st.2 ++ writes))
        ticks st in
    collections_completed (stats st'.1) + collections_failed (stats st'.1)
    = collections_completed (stats st.1) + collections_failed (stats st.1) + polled ticks
    /\ collections_completed (stats st.1) <= collections_completed (stats st'.1)
    /\ collections_failed (stats st.1) <= collections_failed (stats st'.1)
    /\ running st'.1 = running st.1
    /\ start_time (stats st'.1) = start_time (stats st.1)
    /\ arbitrage_calculator st'.1 = arbitrage_calculator st.1.
Proof.
  induction ticks as [|[[[exchanges now] finished] runtime] ticks IH]; intros st; cbv zeta.
  - unfold polled. cbn. repeat split; try reflexivity; lia.
  - cbn [fold_left].
    match goal with |- context [fold_left ?f ticks ?s] =>
      specialize (IH s); cbv zeta in IH; destruct IH as (I1 & I2 & I3 & I4 & I5 & I6);
      set (r := fold_left f ticks s) in * end.
    unfold start_iteration in *.
    pose proof (round_counter_sum st.1 exchanges now) as R.
    pose proof (round_keeps_rest st.1 exchanges now) as K.
    cbv zeta in R, K.
    destruct (_collect_data_round st.1 exchanges now) as [self' writes].
    cbn [fst snd stats with_stats collections_completed collections_failed running
         start_time arbitrage_calculator] in *.
    unfold polled in *. cbn [map List.concat fst] in *. rewrite length_app.
    destruct R as (R1 & R2 & R3). destruct K as (_ & K2 & _ & _ & R4 & _ & _ & K8).
    repeat split; try lia; congruence.
Qed.

(** X13. After any number of iterations of the loop of [start], the two
    counters together have grown by the number of exchanges polled in
    those iterations, neither has decreased, the collector is running and
    its start time is the one recorded on entry. *)
Theorem start_counts_every_poll (self : DataCollector.t) (started : datetime)
    (ticks : list (list (string * exchange) * datetime * datetime * float)) :
  let self' := (start_prefix self started ticks).1 in
  collections_completed (stats self') + collections_failed (stats self')
  = collections_completed (stats self) + collections_failed (stats self) + polled ticks
  /\ collections_completed (stats self) <= collections_completed (stats self')
  /\ collections_failed (stats self) <= collections_failed (stats self')
  /\ running self' = true
  /\ start_time (stats self') = Some started.
Proof.
  cbv zeta. unfold start_prefix.
  match goal with |- context [fold_left ?f ticks ?s] =>
    pose proof (start_fold_counters ticks s) as H end.
  cbv zeta in H. cbn [fst snd stats collections_completed collections_failed running
                      start_time] in H.
  tauto.
Qed.

(** ** The Binance adapter *)

Import BinanceMarket.

Lemma add_ticker_raise (target : list string) (now : datetime) (e : exn)
    (tickers : list (string * ticker_data)) :
  fold_left (add_ticker target now) tickers (Raise e) = Raise e.
Proof. induction tickers as [|i l IH]; [reflexivity|]. exact IH. Qed.

Lemma add_ticker_fold (target : list string) (now : datetime)
    (tickers : list (string * ticker_data)) :
  forall acc l,
    fold_left (add_ticker target now) tickers (Ok acc) = Ok l ->
    (forall item, In item tickers -> contains target item.1 = true ->
                  is_ok (market_data_of item.1 item.2 now) = true)
    /\ forall md, In md l ->
         In md acc
         \/ exists ticker, In (md_symbol md, ticker) tickers
                           /\ contains target (md_symbol md) = true
                           /\ market_data_of (md_symbol md) ticker now = Ok md.
Proof.
  induction tickers as [|[symbol ticker] tickers IH]; intros acc l Hf.
  - cbn in Hf. injection Hf as <-. split; [intros ? []|auto].
  - cbn [fold_left] in Hf. unfold add_ticker at 2 in Hf. cbn [mbind result_bind fst snd] in Hf.
    destruct (contains target symbol) eqn:Hc.
    + destruct (market_data_of symbol ticker now) as [md0|] eqn:Hm;
        cbn [mbind result_bind] in Hf; [|rewrite add_ticker_raise in Hf; discriminate].
      destruct (IH _ _ Hf) as [H1 H2]. split.
      * intros item [<-|Hin] Hct; [cbn; rewrite Hm; reflexivity|auto].
      * intros md Hmd. destruct (H2 md Hmd) as [Hin|(tk & ? & ? & ?)].
        -- apply in_app_or in Hin as [?|[<-|[]]]; [auto|]. right.
           assert (md_symbol md0 = symbol) as Hs.
           { unfold market_data_of in Hm.
             repeat match type of Hm with
                    | (mbind _ ?r) = _ => destruct r; cbn [mbind result_bind] in Hm;
                                          [|discriminate]
                    end.
             injection Hm as <-. reflexivity. }
           rewrite Hs. exists ticker. split; [left; reflexivity|]. auto.
        -- right. exists tk. split; [right; assumption|]. auto.
    + destruct (IH _ _ Hf) as [H1 H2]. split.
      * intros item [<-|Hin] Hct; [cbn in Hct; congruence|auto].
      * intros md Hmd. destruct (H2 md Hmd) as [Hin|(tk & ? & ? & ?)]; [auto|].
        right. exists tk. split; [right; assumption|]. auto.
Qed.

Lemma market_data_of_fields (symbol : string) (ticker : ticker_data) (now : datetime)
    (md : MarketData) :
  market_data_of symbol ticker now = Ok md ->
  md_symbol md = symbol /\ to_float (tk_last ticker) = Ok (md_price md)
  /\ to_float (tk_high ticker) = Ok (md_high_24h md)
  /\ to_float (tk_low ticker) = Ok (md_low_24h md)
  /\ md_timestamp md = now.
Proof.
  unfold market_data_of. intros Hm.
  destruct (to_float (tk_last ticker)); cbn [mbind result_bind] in Hm; [|discriminate].
  destruct (to_float (tk_baseVolume ticker)); cbn [mbind result_bind] in Hm; [|discriminate].
  destruct (float_or_zero (tk_change ticker)); cbn [mbind result_bind] in Hm; [|discriminate].
  destruct (float_or_zero (tk_percentage ticker)); cbn [mbind result_bind] in Hm; [|discriminate].
  destruct (to_float (tk_high ticker)); cbn [mbind result_bind] in Hm; [|discriminate].
  destruct (to_float (tk_low ticker)); cbn [mbind result_bind] in Hm; [|discriminate].
  injection Hm as <-. cbn. auto.
Qed.

(** X14. [get_market_data] never raises; every entry it returns is built
    from a ticker of the client's answer whose symbol was asked for, with
    the ticker's last price and the time of the call; and one ticker of a
    requested symbol lacking its last price empties the whole answer. *)
Theorem market_data_all_or_nothing (self : settings) (self_symbols : list string)
    (symbols : option (list string))
    (fetch_tickers : list string -> result (list (string * ticker_data)))
    (now : datetime) :
  let target := target_of symbols self_symbols in
  exists l,
    get_market_data self self_symbols symbols fetch_tickers now = Ok l
    /\ (forall md, In md l ->
          exists tickers ticker,
            fetch_tickers target = Ok tickers
            /\ In (md_symbol md, ticker) tickers
            /\ contains target (md_symbol md) = true
            /\ tk_last ticker = AFloat (md_price md)
            /\ md_timestamp md = now)
    /\ (forall tickers symbol ticker,
          fetch_tickers target = Ok tickers ->
          In (symbol, ticker) tickers ->
          contains target symbol = true ->
          tk_last ticker = ANone ->
          l = []).
Proof.
  intros target. unfold get_market_data. fold target.
  destruct (rate_limit_check self) as [[]|e]; cbn [mbind result_bind try_except].
  2:{ exists []. split; [reflexivity|]. split; [intros ? []|reflexivity]. }
  destruct (fetch_tickers target) as [tickers|e] eqn:Hf; cbn [mbind result_bind try_except].
  2:{ exists []. split; [reflexivity|]. split; [intros ? []|reflexivity]. }
  destruct (fold_left (add_ticker target now) tickers (Ok [])) as [l|e] eqn:Hl;
    cbn [try_except].
  - exists l. split; [reflexivity|]. destruct (add_ticker_fold _ _ _ _ _ Hl) as [H1 H2].
    split.
    + intros md Hmd. destruct (H2 md Hmd) as [[]|(tk & Hin & Hc & Hm)].
      exists tickers, tk. apply market_data_of_fields in Hm as (_ & Hp & _ & _ & Ht).
      repeat split; try assumption.
      destruct (tk_last tk); cbn in Hp; [discriminate|]. injection Hp as ->. reflexivity.
    + intros tickers' symbol ticker [= <-] Hin Hc Hnone.
      specialize (H1 _ Hin Hc). cbn [fst snd] in H1. unfold market_data_of in H1.
      rewrite Hnone in H1. discriminate H1.
  - exists []. split; [reflexivity|]. split; [intros ? []|reflexivity].
Qed.

(** ** Recent trades *)

Lemma lex_compare_antisym (a : list Z) :
  forall b, lex_compare b a = CompOpp (lex_compare a b).
Proof.
  induction a as [|x a IH]; intros [|y b]; cbn; try reflexivity.
  rewrite (Z.compare_antisym x y). destruct (x ?= y); cbn; auto.
Qed.

Lemma lex_compare_lt_trans (a : list Z) :
  forall b c, lex_compare a b = Lt -> lex_compare b c <> Gt -> lex_compare a c = Lt.
Proof.
  induction a as [|x a IH]; intros [|y b] [|z c]; cbn; try congruence.
  destruct (Z.compare_spec x y), (Z.compare_spec y z); try congruence; subst.
  - rewrite Z.compare_refl. apply IH.
  - intros _ _. destruct (Z.compare_spec y z); [lia|reflexivity|lia].
  - intros _ _. destruct (Z.compare_spec x z); [lia|reflexivity|lia].
  - intros _ _. destruct (Z.compare_spec x z); [lia|reflexivity|lia].
Qed.

Lemma geb_total (a b : datetime) : geb a b = false -> geb b a = true.
Proof.
  unfold geb. rewrite (lex_compare_antisym (fields a) (fields b)).
  destruct (lex_compare (fields a) (fields b)); cbn; congruence.
Qed.

Lemma geb_trans (a b c : datetime) : geb a b = true -> geb b c = true -> geb a c = true.
Proof.
  unfold geb. intros Hab Hbc.
  destruct (lex_compare (fields a) (fields c)) eqn:Hac; try reflexivity.
  exfalso.
  assert (lex_compare (fields c) (fields a) = Gt) as Hca
    by (rewrite (lex_compare_antisym (fields a)), Hac; reflexivity).
  assert (lex_compare (fields b) (fields c) <> Lt) as Hbc'
    by (destruct (lex_compare (fields b) (fields c)); congruence).
  assert (lex_compare (fields c) (fields b) <> Gt) as Hcb.
  { rewrite (lex_compare_antisym (fields b)).
    destruct (lex_compare (fields b) (fields c)); cbn; congruence. }
  assert (lex_compare (fields a) (fields b) <> Lt) as Hab'
    by (destruct (lex_compare (fields a) (fields b)); congruence).
  apply Hab'.
  (* a < c <= b *)
  apply (lex_compare_lt_trans _ (fields c)); [assumption|].
  rewrite (lex_compare_antisym (fields b)).
  destruct (lex_compare (fields b) (fields c)); cbn; congruence.
Qed.

Lemma insert_desc_perm (trade : Trade) (sorted : list Trade) :
  Permutation (insert_desc trade sorted) (trade :: sorted).
Proof.
  induction sorted as [|x rest IH]; cbn; [reflexivity|].
  destruct (dt_ltb _ _); [reflexivity|].
  rewrite IH. apply perm_swap.
Qed.

Lemma insert_desc_sorted (trade : Trade) (sorted : list Trade) :
  newest_first sorted -> newest_first (insert_desc trade sorted).
Proof.
  unfold newest_first. induction 1 as [|x rest Hs IH Hx]; cbn.
  - constructor; constructor.
  - unfold dt_ltb. destruct (geb (tr_timestamp x) (tr_timestamp trade)) eqn:Hg; cbn.
    + constructor; [assumption|].
      rewrite (insert_desc_perm trade rest). constructor; assumption.
    + apply geb_total in Hg. constructor; [constructor; assumption|].
      constructor; [assumption|].
      eapply List.Forall_impl; [|exact Hx]. cbn. intros y Hy. eapply geb_trans; eassumption.
Qed.

Lemma sort_desc_fold (trades : list Trade) :
  forall acc, newest_first acc ->
    newest_first (fold_left (fun sorted trade => insert_desc trade sorted) trades acc)
    /\ Permutation (fold_left (fun sorted trade => insert_desc trade sorted) trades acc)
                   (acc ++ trades).
Proof.
  induction trades as [|t l IH]; intros acc Hacc; cbn.
  - rewrite app_nil_r. auto.
  - destruct (IH _ (insert_desc_sorted t acc Hacc)) as [H1 H2]. split; [assumption|].
    rewrite H2, (insert_desc_perm t acc). apply Permutation_middle.
Qed.

Lemma sort_desc_sorted (trades : list Trade) : newest_first (sort_desc trades).
Proof. apply (sort_desc_fold trades []). constructor. Qed.

Lemma sort_desc_perm (trades : list Trade) : Permutation (sort_desc trades) trades.
Proof. apply (sort_desc_fold trades []). constructor. Qed.

Lemma in_take {A} (n : nat) :
  forall (l : list A) (x : A), In x (take n l) -> In x l.
Proof.
  induction n as [|n IH]; intros [|y l] x; cbn; try tauto.
  intros [->|Hin]; [auto|right; apply IH; assumption].
Qed.

Lemma take_newest_first (n : nat) :
  forall trades, newest_first trades -> newest_first (take n trades).
Proof.
  unfold newest_first. induction n as [|n IH]; intros trades Hs; [constructor|].
  destruct Hs as [|x rest Hs Hx]; cbn; [constructor|].
  constructor; [apply IH; assumption|].
  apply List.Forall_forall. intros y Hy.
  rewrite List.Forall_forall in Hx. apply Hx. eapply in_take; eassumption.
Qed.

Lemma slice_to_sub {A} (l : list A) (limit : Z) (x : A) :
  In x (slice_to l limit) -> In x l.
Proof. unfold slice_to. destruct (0 <=? limit); apply in_take. Qed.

Lemma parse_until_source (fromtimestamp : float -> result datetime)
    (tds : list trade_data) (trade : Trade) :
  In trade (parse_until fromtimestamp tds) ->
  exists td, In td tds /\ trade_of fromtimestamp td = Ok trade.
Proof.
  induction tds as [|td rest IH]; cbn; [intros []|].
  destruct (trade_of fromtimestamp td) as [t0|] eqn:Ht; [|intros []].
  intros [<-|Hin]; [exists td; auto|].
  destruct (IH Hin) as (td' & ? & ?). exists td'. auto.
Qed.

(** X15. [get_recent_trades] never raises; the trades it returns are
    ordered newest first, are at most [limit] many for a limit that is not
    negative, and each one was parsed from a raw trade that the client
    returned for one of the adapter's symbols. *)
Theorem recent_trades_newest_first (fromtimestamp : float -> result datetime)
    (self : settings) (self_symbols : list string) (limit : Z)
    (fetch_my_trades : string -> Z -> result (list trade_data)) :
  exists trades,
    get_recent_trades fromtimestamp self self_symbols limit fetch_my_trades = Ok trades
    /\ newest_first trades
    /\ (0 <= limit -> Z.of_nat (length trades) <= limit)
    /\ forall trade, In trade trades ->
         exists symbol trades_data td,
           In symbol self_symbols
           /\ fetch_my_trades symbol limit = Ok trades_data
           /\ In td trades_data
           /\ trade_of fromtimestamp td = Ok trade.
Proof.
  unfold get_recent_trades.
  destruct (rate_limit_check self) as [[]|e]; cbn [mbind result_bind try_except].
  2:{ exists []. split; [reflexivity|]. split; [constructor|].
      split; [cbn; lia|intros ? []]. }
  eexists. split; [reflexivity|]. split; [|split].
  - unfold slice_to. destruct (0 <=? limit); apply take_newest_first, sort_desc_sorted.
  - intros Hl. unfold slice_to. destruct (Z.leb_spec 0 limit); [|lia].
    rewrite length_take. lia.
  - intros trade Hin. apply slice_to_sub in Hin.
    apply (Permutation_in _ (sort_desc_perm _)) in Hin.
    apply in_concat in Hin as (l & Hl & Hin).
    apply in_map_iff in Hl as (symbol & <- & Hs).
    unfold symbol_trades in Hin.
    destruct (fetch_my_trades symbol limit) as [tds|] eqn:Hf; [|destruct Hin].
    apply parse_until_source in Hin as (td & ? & ?).
    exists symbol, tds, td. auto.
Qed.

Lemma get_market_data_returns (self : settings) (self_symbols : list string)
    (symbols : option (list string))
    (fetch : list string -> result (list (string * ticker_data))) (now : datetime) :
  exists l, get_market_data self self_symbols symbols fetch now = Ok l.
Proof.
  unfold get_market_data, try_except.
  match goal with |- context [match ?r with _ => _ end] => destruct r end; eauto.
Qed.

Lemma get_recent_trades_returns (fromtimestamp : float -> result datetime)
    (self : settings) (self_symbols : list string) (limit : Z)
    (fetch : string -> Z -> result (list trade_data)) :
  exists l, get_recent_trades fromtimestamp self self_symbols limit fetch = Ok l.
Proof.
  unfold get_recent_trades, try_except.
  match goal with |- context [match ?r with _ => _ end] => destruct r end; eauto.
Qed.

Lemma rate_limit_zero (self : settings) :
  rate_limit self = 0 -> rate_limit_check self = Raise ZeroDivisionError.
Proof. unfold rate_limit_check. intros ->. reflexivity. Qed.

Lemma silent_balance (self : settings) (fetch : result balance_data) (now : datetime) :
  rate_limit self = 0 \/ is_ok fetch = false ->
  get_account_balance self fetch now = Ok [].
Proof.
  unfold get_account_balance. intros [H0|Hf]; [rewrite (rate_limit_zero _ H0); reflexivity|].
  destruct (rate_limit_check self) as [[]|]; [|reflexivity].
  destruct fetch; [discriminate|reflexivity].
Qed.

Lemma silent_market (self : settings) (self_symbols : list string)
    (symbols : option (list string))
    (fetch : list string -> result (list (string * ticker_data))) (now : datetime) :
  rate_limit self = 0 \/ (forall l, is_ok (fetch l) = false) ->
  get_market_data self self_symbols symbols fetch now = Ok [].
Proof.
  unfold get_market_data. intros [H0|Hf]; [rewrite (rate_limit_zero _ H0); reflexivity|].
  destruct (rate_limit_check self) as [[]|]; [|reflexivity]. cbn.
  specialize (Hf (target_of symbols self_symbols)).
  destruct (fetch _); [discriminate|reflexivity].
Qed.

Lemma silent_symbols (fromtimestamp : float -> result datetime)
    (fetch : string -> Z -> result (list trade_data)) (limit : Z)
    (self_symbols : list string) :
  (forall symbol, is_ok (fetch symbol limit) = false) ->
  List.concat (map (symbol_trades fromtimestamp fetch limit) self_symbols) = [].
Proof.
  intros Hf. induction self_symbols as [|s l IH]; [reflexivity|].
  cbn. rewrite IH. unfold symbol_trades. specialize (Hf s).
  destruct (fetch s limit); [discriminate|reflexivity].
Qed.

Lemma silent_trades (fromtimestamp : float -> result datetime)
    (self : settings) (self_symbols : list string) (limit : Z)
    (fetch : string -> Z -> result (list trade_data)) :
  rate_limit self = 0 \/ (forall symbol l, is_ok (fetch symbol l) = false) ->
  get_recent_trades fromtimestamp self self_symbols limit fetch = Ok [].
Proof.
  unfold get_recent_trades. intros [H0|Hf]; [rewrite (rate_limit_zero _ H0); reflexivity|].
  destruct (rate_limit_check self) as [[]|]; [|reflexivity]. cbn.
  rewrite silent_symbols by (intros s; apply Hf).
  unfold slice_to, sort_desc. cbn. destruct (0 <=? limit); [|reflexivity].
  destruct (Z.to_nat limit); reflexivity.
Qed.

(** X16. The portfolio valuation of a Binance adapter always returns: both
    adapter methods it awaits catch their own failures, so the handler
    that re-raises is not reached. *)
Theorem binance_portfolio_returns (self : settings) (self_symbols : list string)
    (c : client) (now : datetime) :
  exists balances market_data,
    get_account_balance self (fetch_balance c) (clock c) = Ok balances
    /\ get_market_data self self_symbols None (fetch_tickers c) (clock c) = Ok market_data
    /\ get_portfolio_value
         (get_account_balance self (fetch_balance c) (clock c))
         (get_market_data self self_symbols None (fetch_tickers c) (clock c)) now
       = Ok (portfolio_valuation balances market_data now).
Proof.
  destruct (get_account_balance_returns self (fetch_balance c) (clock c)) as [b Hb].
  destruct (get_market_data_returns self self_symbols None (fetch_tickers c) (clock c))
    as [m Hm].
  exists b, m. rewrite Hb, Hm. auto.
Qed.

Section Round.

Variable fromtimestamp : float -> result datetime.

Lemma silent_exchange (exchange_name : string) (self : settings)
    (self_symbols : list string) (c1 c2 c3 c4 c5 : client) (now : datetime) :
  silent self c1 -> silent self c2 -> silent self c3 -> silent self c4 ->
  silent self c5 ->
  let ex := binance_exchange fromtimestamp self self_symbols c1 c2 c3 c4 c5 in
  _collect_exchange_data exchange_name ex now = (false, [])
  /\ strategy_pnl_of now (exchange_name, ex) = [].
Proof.
  intros H1 H2 H3 H4 H5 ex.
  assert (forall c, silent self c ->
            get_account_balance self (fetch_balance c) (clock c) = Ok []) as Hb.
  { intros c [?|(? & _)]; apply silent_balance; auto. }
  assert (forall c, silent self c ->
            get_market_data self self_symbols None (fetch_tickers c) (clock c) = Ok [])
    as Hm.
  { intros c [?|(_ & ? & _)]; apply silent_market; auto. }
  assert (get_recent_trades fromtimestamp self self_symbols 50 (fetch_my_trades c3) = Ok [])
    as Ht.
  { destruct H3 as [?|(_ & _ & ?)]; apply silent_trades; auto. }
  split.
  - unfold _collect_exchange_data. destruct (is_enabled (ex_settings ex)); [|reflexivity].
    cbn [negb]. unfold sub_collections, _collect_balance_data, _collect_market_data,
      _collect_trade_data, _collect_portfolio_data.
    subst ex. cbn [binance_exchange balance_call market_call trades_call
                   portfolio_balance_call portfolio_market_call].
    rewrite (Hb _ H1), (Hm _ H2), Ht, (Hb _ H4), (Hm _ H4). reflexivity.
  - unfold strategy_pnl_of. subst ex. cbn [binance_exchange pnl_balance_call pnl_market_call].
    rewrite (Hb _ H5), (Hm _ H5). reflexivity.
Qed.

(** X17. A round over a Binance adapter whose client answers no call, or
    whose rate limit of 0 makes every call fail before it reaches the
    client, writes nothing, the strategy PnL point included, and counts
    one failure. *)
Theorem silent_binance_round (collector : DataCollector.t) (exchange_name : string)
    (self : settings) (self_symbols : list string) (c1 c2 c3 c4 c5 : client)
    (now : datetime)
    (H1 : silent self c1) (H2 : silent self c2) (H3 : silent self c3)
    (H4 : silent self c4) (H5 : silent self c5) :
  let ex := binance_exchange fromtimestamp self self_symbols c1 c2 c3 c4 c5 in
  let round := _collect_data_round collector [(exchange_name, ex)] now in
  round.2 = []
  /\ collections_failed (stats round.1) = collections_failed (stats collector) + 1
  /\ collections_completed (stats round.1) = collections_completed (stats collector).
Proof.
  cbv zeta.
  destruct (silent_exchange exchange_name self self_symbols c1 c2 c3 c4 c5 now
              H1 H2 H3 H4 H5) as [Hf Hp].
  cbv zeta in Hf, Hp. unfold _collect_data_round, _collect_strategy_pnl.
  cbn [map fst snd List.concat]. rewrite Hf, Hp.
  cbn [fst snd app stats with_stats with_counters collections_failed
       collections_completed count_true List.filter length].
  change (count_true [false]) with 0.
  split; [reflexivity|]. split; lia.
Qed.

End Round.

Lemma silent_binance_round_witness :
  silent binance_settings dead_client
  /\ (_collect_data_round idle_collector
        [("binance"%string,
          binance_exchange at_epoch binance_settings ["BTC/USDT"%string]
            dead_client dead_client dead_client dead_client dead_client)]
        (noon 2024 1 1)).2 = [].
Proof.
  assert (silent binance_settings dead_client) as Hs.
  { right. repeat split; reflexivity. }
  split; [exact Hs|].
  exact (proj1 (silent_binance_round at_epoch idle_collector "binance" binance_settings
                  ["BTC/USDT"%string] dead_client dead_client dead_client dead_client
                  dead_client (noon 2024 1 1) Hs Hs Hs Hs Hs)).
Defined.

(** ** Market symbols with a separator *)

Lemma byte_slash (b : ascii) : Ascii.eqb b "/" = (N_of_ascii b =? 47)%N.
Proof.
  destruct (Ascii.eqb_spec b "/") as [->|Hne]; [reflexivity|].
  symmetry. apply N.eqb_neq. intros H. apply Hne.
  rewrite <- (ascii_N_embedding b), H. reflexivity.
Qed.

Lemma low_byte_slash (n : N) :
  (n < 256)%N -> Ascii.eqb (ascii_of_N n) "/" = (n =? 47)%N.
Proof. intros H. rewrite byte_slash, N_ascii_embedding by exact H. reflexivity. Qed.

Lemma high_byte_slash (n : N) :
  (128 <= n < 256)%N -> Ascii.eqb (ascii_of_N n) "/" = false.
Proof.
  intros H. rewrite low_byte_slash by lia. apply N.eqb_neq. lia.
Qed.

Lemma continuation_slash (b : ascii) (c : N) :
  continuation b = Some c -> Ascii.eqb b "/" = false.
Proof.
  unfold continuation. rewrite byte_slash.
  destruct (N.leb_spec 128 (N_of_ascii b)); cbn [andb]; [|discriminate].
  intros _. apply N.eqb_neq. lia.
Qed.

Lemma encode_code_slash (cp : N) (s : string) :
  has_slash (fold_right String s (encode_code cp)) = (cp =? 47)%N || has_slash s.
Proof.
  unfold encode_code.
  assert (forall x, (x mod 64 < 64)%N) as H64 by (intros; apply N.mod_lt; discriminate).
  assert (forall x, (x mod 8 < 8)%N) as H8 by (intros; apply N.mod_lt; discriminate).
  assert (forall base x bound : N,
             (x < bound)%N -> (128 <= base)%N -> (base + bound <= 256)%N ->
             Ascii.eqb (ascii_of_N (base + x)) "/" = false) as Hhigh.
  { intros base x bound Hx Hb Hs. apply high_byte_slash. lia. }
  destruct (N.ltb_spec cp 128) as [H1|H1].
  { cbn [fold_right has_slash]. rewrite low_byte_slash by lia. reflexivity. }
  replace (cp =? 47)%N with false by (symmetry; apply N.eqb_neq; lia).
  destruct (N.ltb_spec cp 2048) as [H2|H2].
  { assert (cp / 64 < 32)%N as Hq by (apply N.Div0.div_lt_upper_bound; exact H2).
    cbn [fold_right has_slash].
    rewrite (Hhigh 192%N _ 32%N Hq), (Hhigh 128%N _ 64%N (H64 cp)) by discriminate.
    reflexivity. }
  destruct (N.ltb_spec cp 65536) as [H3|H3].
  { assert (cp / 4096 < 16)%N as Hq by (apply N.Div0.div_lt_upper_bound; exact H3).
    cbn [fold_right has_slash].
    rewrite (Hhigh 224%N _ 16%N Hq), (Hhigh 128%N _ 64%N (H64 (cp / 64)%N)),
      (Hhigh 128%N _ 64%N (H64 cp)) by discriminate.
    reflexivity. }
  cbn [fold_right has_slash].
  rewrite (Hhigh 240%N _ 8%N (H8 (cp / 262144)%N)), (Hhigh 128%N _ 64%N (H64 (cp / 4096)%N)),
    (Hhigh 128%N _ 64%N (H64 (cp / 64)%N)), (Hhigh 128%N _ 64%N (H64 cp)) by discriminate.
  reflexivity.
Qed.

Lemma encode_has_slash (l : list uchar) :
  has_slash (encode l) = existsb slash_uchar l.
Proof.
  induction l as [|[cp|b] l IH]; cbn [encode existsb slash_uchar has_slash];
    [reflexivity| |].
  - rewrite encode_code_slash, IH. reflexivity.
  - rewrite IH. reflexivity.
Qed.

Lemma decode_has_slash (n : nat) :
  forall s, (String.length s <= n)%nat -> existsb slash_uchar (decode s) = has_slash s.
Proof.
  induction n as [|n IH]; intros [|b0 s1] Hlen; try reflexivity.
  { cbn in Hlen. lia. }
  cbn [String.length] in Hlen.
  assert (forall s, (String.length s <= String.length s1)%nat ->
                    existsb slash_uchar (decode s) = has_slash s) as IH'
    by (intros s Hs; apply IH; lia).
  assert (existsb slash_uchar (Stray b0 :: decode s1) = has_slash (String b0 s1)) as Hstray.
  { cbn [existsb slash_uchar has_slash]. rewrite IH' by lia. reflexivity. }
  cbn [decode]. cbv zeta.
  destruct (N.ltb_spec (N_of_ascii b0) 128) as [H0|H0].
  { cbn [existsb slash_uchar has_slash]. rewrite IH' by lia. rewrite byte_slash. reflexivity. }
  assert (Ascii.eqb b0 "/" = false) as Hb0
    by (rewrite byte_slash; apply N.eqb_neq; lia).
  destruct (N_of_ascii b0 <? 192)%N; [exact Hstray|].
  destruct (N_of_ascii b0 <? 224)%N.
  { destruct s1 as [|b1 s2]; [exact Hstray|].
    destruct (continuation b1) as [c1|] eqn:Hc1; [|exact Hstray].
    destruct (N.leb_spec 128 ((N_of_ascii b0 - 192) * 64 + c1)) as [Hcp|Hcp];
      [|exact Hstray].
    cbn [existsb slash_uchar has_slash].
    rewrite IH' by (cbn; lia). rewrite Hb0, (continuation_slash _ _ Hc1).
    replace (_ =? 47)%N with false by (symmetry; apply N.eqb_neq; lia). reflexivity. }
  destruct (N_of_ascii b0 <? 240)%N.
  { destruct s1 as [|b1 [|b2 s3]]; try exact Hstray.
    destruct (continuation b1) as [c1|] eqn:Hc1; [|exact Hstray].
    destruct (continuation b2) as [c2|] eqn:Hc2; [|exact Hstray].
    destruct (N.leb_spec 2048 (((N_of_ascii b0 - 224) * 64 + c1) * 64 + c2))
      as [Hcp|Hcp]; cbn [andb]; [|exact Hstray].
    destruct (negb _); [|exact Hstray].
    cbn [existsb slash_uchar has_slash].
    rewrite IH' by (cbn; lia).
    rewrite Hb0, (continuation_slash _ _ Hc1), (continuation_slash _ _ Hc2).
    replace (_ =? 47)%N with false by (symmetry; apply N.eqb_neq; lia). reflexivity. }
  destruct (N_of_ascii b0 <? 248)%N; [|exact Hstray].
  destruct s1 as [|b1 [|b2 [|b3 s4]]]; try exact Hstray.
  destruct (continuation b1) as [c1|] eqn:Hc1; [|exact Hstray].
  destruct (continuation b2) as [c2|] eqn:Hc2; [|exact Hstray].
  destruct (continuation b3) as [c3|] eqn:Hc3; [|exact Hstray].
  destruct (N.leb_spec 65536
              ((((N_of_ascii b0 - 240) * 64 + c1) * 64 + c2) * 64 + c3))
    as [Hcp|Hcp]; cbn [andb]; [|exact Hstray].
  destruct (_ <? 1114112)%N; [|exact Hstray].
  cbn [existsb slash_uchar has_slash].
  rewrite IH' by (cbn; lia).
  rewrite Hb0, (continuation_slash _ _ Hc1), (continuation_slash _ _ Hc2),
    (continuation_slash _ _ Hc3).
  replace (_ =? 47)%N with false by (symmetry; apply N.eqb_neq; lia). reflexivity.
Qed.

Lemma table_lookup_in (cp : N) (table : list (N * list N)) (v : list N) :
  table_lookup cp table = Some v -> In (cp, v) table.
Proof.
  induction table as [|[k w] rest IH]; cbn [table_lookup]; [discriminate|].
  destruct (N.eqb_spec k cp) as [->|_].
  - intros [= ->]. left. reflexivity.
  - intros H. right. exact (IH H).
Qed.

Lemma upper_table_no_slash :
  forallb (fun entry => forallb (fun t => negb (t =? 47)%N) entry.2) upper_table = true.
Proof. vm_compute. reflexivity. Qed.

Lemma codes_no_slash (v : list N) :
  forallb (fun t => negb (t =? 47)%N) v = true ->
  existsb slash_uchar (map Code v) = false.
Proof.
  induction v as [|t v IH]; [reflexivity|]. cbn [forallb map existsb slash_uchar].
  intros [Ht Hv]%andb_true_iff. rewrite (IH Hv), orb_false_r.
  destruct (t =? 47)%N; [discriminate|reflexivity].
Qed.

Lemma upper_uchar_slash (u : uchar) :
  existsb slash_uchar (upper_uchar u) = slash_uchar u.
Proof.
  destruct u as [cp|b]; cbn [upper_uchar existsb slash_uchar]; [|apply orb_false_r].
  unfold upper_code. destruct (N.ltb_spec cp 128) as [H|H].
  - destruct (N.leb_spec 97 cp) as [Ha|Ha]; cbn [andb map existsb slash_uchar].
    + destruct (N.leb_spec cp 122); cbn [map existsb slash_uchar]; rewrite orb_false_r;
        [|reflexivity].
      transitivity false; [|symmetry]; apply N.eqb_neq; lia.
    + apply orb_false_r.
  - destruct (table_lookup cp upper_table) as [v|] eqn:Hl.
    + change (default [cp] (Some v)) with v.
      apply table_lookup_in in Hl.
      pose proof upper_table_no_slash as Ht. rewrite forallb_forall in Ht.
      specialize (Ht _ Hl). cbn [snd] in Ht.
      rewrite (codes_no_slash _ Ht). symmetry. apply N.eqb_neq. lia.
    + change (default [cp] None) with [cp].
      cbn [map existsb slash_uchar]. apply orb_false_r.
Qed.

Lemma existsb_flat_map {A B} (f : B -> bool) (g : A -> list B) (l : list A) :
  existsb f (flat_map g l) = existsb (fun x => existsb f (g x)) l.
Proof.
  induction l as [|x l IH]; [reflexivity|].
  cbn [flat_map existsb]. rewrite existsb_app, IH. reflexivity.
Qed.

Lemma upper_has_slash (s : string) : has_slash (upper s) = has_slash s.
Proof.
  unfold upper. rewrite encode_has_slash, existsb_flat_map.
  rewrite <- (decode_has_slash _ s (le_n _)).
  induction (decode s) as [|u l IH]; [reflexivity|].
  cbn [existsb]. rewrite upper_uchar_slash, IH. reflexivity.
Qed.

Lemma replace_usdt_has_slash (n : nat) :
  forall s, (String.length s <= n)%nat ->
    has_slash (Py.replace s "USDT" "") = has_slash s.
Proof.
  unfold Py.replace. induction n as [|n IH]; intros [|c s'] Hlen; try reflexivity.
  { cbn in Hlen. lia. }
  cbn [replace_from]. destruct (String.prefix "USDT" (String c s')) eqn:Hp.
  - cbn [String.prefix] in Hp.
    destruct (ascii_dec "U"%char c) as [E|]; [subst c|discriminate].
    destruct s' as [|c1 s1]; [discriminate|]. cbn [String.prefix] in Hp.
    destruct (ascii_dec "S"%char c1) as [E|]; [subst c1|discriminate].
    destruct s1 as [|c2 s2]; [discriminate|]. cbn [String.prefix] in Hp.
    destruct (ascii_dec "D"%char c2) as [E|]; [subst c2|discriminate].
    destruct s2 as [|c3 s3]; [discriminate|]. cbn [String.prefix] in Hp.
    destruct (ascii_dec "T"%char c3) as [E|]; [subst c3|discriminate].
    change (has_slash (replace_from "USDT" "" s3 0) = has_slash s3).
    apply IH. cbn in Hlen. lia.
  - cbn [has_slash]. f_equal. apply IH. cbn in Hlen. lia.
Qed.

Lemma price_table_key (market_data : list MarketData) :
  forall (prices : gmap string float) (asset : string) (p : float),
    fold_left add_price market_data prices !! asset = Some p ->
    prices !! asset = Some p
    \/ exists d, In d market_data
                 /\ endswith (upper (md_symbol d)) "USDT" = true
                 /\ asset = Py.replace (upper (md_symbol d)) "USDT" ""
                 /\ p = md_price d.
Proof.
  induction market_data as [|d l IH]; intros prices asset p Hl; [left; exact Hl|].
  cbn [fold_left] in Hl. apply IH in Hl as [Hl|(d' & ? & ?)].
  - unfold add_price in Hl. destruct (endswith (upper (md_symbol d)) "USDT") eqn:He.
    + rewrite lookup_insert in Hl. case_decide as Ha.
      * injection Hl as <-. right. exists d. split; [left; reflexivity|]. auto.
      * left. exact Hl.
    + left. exact Hl.
  - right. exists d'. split; [right; assumption|assumption].
Qed.

Lemma slash_symbols_no_price (market_data : list MarketData) (asset : string) :
  (forall d, In d market_data -> has_slash (md_symbol d) = true) ->
  has_slash asset = false ->
  price_table market_data !! asset = None.
Proof.
  intros Hm Ha. destruct (price_table market_data !! asset) as [p|] eqn:Hp; [|reflexivity].
  apply price_table_key in Hp as [Hp|(d & Hd & _ & -> & _)].
  - rewrite lookup_empty in Hp. discriminate.
  - rewrite (replace_usdt_has_slash _ _ (le_n _)), upper_has_slash, (Hm d Hd) in Ha.
    discriminate.
Qed.

Lemma add_balance_value_unpriced (prices : gmap string float)
    (st : float * gmap string AssetValue) (b : Balance) :
  prices !! upper (bal_asset b) = None ->
  add_balance_value prices st b = add_balance_value ∅ st b.
Proof.
  intros Hp. unfold add_balance_value. destruct st as [total assets].
  rewrite Hp, lookup_empty. reflexivity.
Qed.

(** X18. Market data whose symbols all contain a slash (the client's
    unified form, as in [BTC/USDT]) price no asset: the valuation of
    balances whose asset names contain none is the valuation without any
    market data, where only USDT has a value. *)
Theorem slash_symbols_price_nothing (balances : list Balance)
    (market_data : list MarketData) (now : datetime)
    (Hsymbols : forall d, In d market_data -> has_slash (md_symbol d) = true)
    (Hassets : forall b, In b balances -> has_slash (bal_asset b) = false) :
  portfolio_valuation balances market_data now = portfolio_valuation balances [] now.
Proof.
  unfold portfolio_valuation.
  assert (forall st,
            fold_left (add_balance_value (price_table market_data)) balances st
            = fold_left (add_balance_value (price_table [])) balances st) as ->;
    [|reflexivity].
  induction balances as [|b l IH]; intros st; [reflexivity|].
  cbn [fold_left]. rewrite IH by (intros; apply Hassets; right; assumption).
  f_equal. apply add_balance_value_unpriced, slash_symbols_no_price; [assumption|].
  rewrite upper_has_slash. apply Hassets. left. reflexivity.
Qed.

Lemma slash_symbols_price_nothing_witness :
  has_slash "BTC/USDT" = true
  /\ has_slash (bal_asset btc_balance) = false
  /\ portfolio_valuation [btc_balance] [ticker "BTC/USDT" 50000 (noon 2024 1 1)]
       (noon 2024 1 1)
     = portfolio_valuation [btc_balance] [] (noon 2024 1 1)
  /\ pv_total_value_usdt (portfolio_valuation [btc_balance] [] (noon 2024 1 1)) = 0%float.
Proof.
  split; [reflexivity|]. split; [reflexivity|]. split; [|reflexivity].
  apply slash_symbols_price_nothing.
  - intros d [<-|[]]. reflexivity.
  - intros b [<-|[]]. reflexivity.
Defined.

Lemma valuation_total_not_negative (prices : gmap string float)
    (balances : list Balance) :
  (forall asset p, prices !! asset = Some p -> (p <? 0)%float = false) ->
  forall st, not_negative st.1 ->
    not_negative (fold_left (add_balance_value prices) balances st).1.
Proof.
  intros Hp. induction balances as [|b l IH]; intros st Hst; [exact Hst|].
  cbn [fold_left]. apply IH. unfold add_balance_value. destruct st as [total assets].
  cbn [fst] in *. destruct (0 <? bal_total b)%float eqn:Hpos; [|exact Hst].
  cbn [fst]. apply add_not_below_not_negative; [exact Hst|].
  destruct (String.eqb _ _).
  - rewrite FloatAxioms.ltb_spec, Prim2SF_zero.
    destruct (gt_zero_sf _ Hpos) as [(m & e & ->)| ->]; reflexivity.
  - destruct (prices !! upper (bal_asset b)) as [p|] eqn:Hl; [|reflexivity].
    apply mul_positive_not_below; [exact Hpos|]. exact (Hp _ _ Hl).
Qed.

(** X27. With market prices that are not below zero, the total of the
    valuation of [get_portfolio_value] is never below zero, whatever the
    balances hold. *)
Theorem portfolio_total_never_below_zero (balances : list Balance)
    (market_data : list MarketData) (now : datetime)
    (Hprices : forall d, In d market_data -> (md_price d <? 0)%float = false) :
  (pv_total_value_usdt (portfolio_valuation balances market_data now) <? 0)%float = false.
Proof.
  unfold portfolio_valuation.
  assert (forall asset p, price_table market_data !! asset = Some p ->
                          (p <? 0)%float = false) as Hp.
  { intros asset p Hl. apply price_table_key in Hl as [Hl|(d & Hd & _ & _ & ->)].
    - rewrite lookup_empty in Hl. discriminate.
    - exact (Hprices d Hd). }
  pose proof (valuation_total_not_negative (price_table market_data) balances Hp) as H.
  specialize (H (0%float, ∅)).
  destruct (fold_left _ _ _) as [total assets]. cbn [fst pv_total_value_usdt] in *.
  apply not_negative_not_below. apply H. reflexivity.
Qed.

Lemma portfolio_total_never_below_zero_witness :
  (md_price (ticker "BTCUSDT" 50000 (noon 2024 1 1)) <? 0)%float = false
  /\ (pv_total_value_usdt
        (portfolio_valuation [btc_balance] [ticker "BTCUSDT" 50000 (noon 2024 1 1)]
           (noon 2024 1 1)) <? 0)%float = false.
Proof.
  split; [reflexivity|].
  apply portfolio_total_never_below_zero. intros d [<-|[]]. reflexivity.
Defined.

(** ** The exchanges section of the configuration *)

Import Config ConfigExchanges.

Lemma get_lookup_path (self : Config.t) (key_path : string) (d : yaml) :
  Config.get self key_path d = default d (lookup_path self (split_dot key_path)).
Proof. unfold Config.get, lookup_path. destruct (fold_left _ _ _); reflexivity. Qed.

Lemma split_dot_from_app (a b cur : string) :
  split_dot_from (a ++ String "." b) cur = split_dot_from a cur ++ split_dot_from b "".
Proof.
  revert cur. induction a as [|c a IH]; intros cur.
  - reflexivity.
  - change (String c a ++ String "." b)%string with (String c (a ++ String "." b)).
    cbn [split_dot_from]. destruct (Ascii.eqb c "."); rewrite IH; reflexivity.
Qed.

Lemma string_app_cons (c : ascii) (s t : string) :
  (String c s ++ t)%string = String c (s ++ t).
Proof. reflexivity. Qed.

Lemma string_app_nil_r (s : string) : (s ++ "")%string = s.
Proof.
  induction s as [|c s IH]; [reflexivity|]. rewrite string_app_cons, IH. reflexivity.
Qed.

Lemma string_app_assoc (a b c : string) : ((a ++ b) ++ c)%string = (a ++ (b ++ c))%string.
Proof.
  induction a as [|x a IH]; [reflexivity|]. rewrite !string_app_cons, IH. reflexivity.
Qed.

Lemma rev_app_append (s acc : string) :
  String.rev_app s acc = (String.rev s ++ acc)%string.
Proof.
  unfold String.rev. revert acc. induction s as [|c s IH]; intros acc; simpl.
  - reflexivity.
  - rewrite (IH (String c acc)), (IH (String c "")), string_app_assoc. reflexivity.
Qed.

Lemma split_dot_from_no_dot (k cur : string) :
  has_dot k = false -> split_dot_from k cur = [(String.rev cur ++ k)%string].
Proof.
  revert cur. induction k as [|c k IH]; intros cur; simpl.
  - intros _. rewrite string_app_nil_r. reflexivity.
  - destruct (Ascii.eqb c "."); simpl; [discriminate|]. intros H.
    rewrite (IH _ H). unfold String.rev at 1. simpl.
    rewrite rev_app_append, string_app_assoc. reflexivity.
Qed.

Lemma split_dot_extend (path key : string) :
  has_dot key = false ->
  split_dot (path ++ String "." key) = split_dot path ++ [key].
Proof.
  intros H. unfold split_dot. rewrite split_dot_from_app, (split_dot_from_no_dot _ _ H).
  reflexivity.
Qed.

Lemma get_extend (self : Config.t) (path key : string) (d : yaml) :
  has_dot key = false ->
  Config.get self (path ++ String "." key) d
  = match lookup_path self (split_dot path) with
    | Some (YMap items) => default d (assoc key items)
    | _ => d
    end.
Proof.
  intros H. rewrite get_lookup_path, (split_dot_extend _ _ H).
  unfold lookup_path. rewrite fold_left_app. cbn [fold_left].
  destruct (fold_left _ _ _) as [[]|]; reflexivity.
Qed.

(** X19. [get] composes along a dotted path: for a last key without a dot,
    the value at [path.key] is the entry [key] of the mapping found at
    [path], and the default when there is no such entry or what is found
    at [path] is not a mapping. *)
Theorem get_composes (self : Config.t) (path key : string) (d : yaml) :
  has_dot key = false ->
  (forall items,
     Config.get self path YNull = YMap items ->
     Config.get self (path ++ String "." key) d = default d (assoc key items))
  /\ ((forall items, Config.get self path YNull <> YMap items) ->
      Config.get self (path ++ String "." key) d = d).
Proof.
  intros H. rewrite (get_extend _ _ _ _ H), (get_lookup_path self path).
  destruct (lookup_path self (split_dot path)) as [v|]; cbn.
  - split.
    + intros items ->. reflexivity.
    + intros Hn. destruct v; try reflexivity. exfalso. eapply Hn. reflexivity.
  - split; [discriminate|reflexivity].
Qed.

Lemma get_composes_witness :
  has_dot "threshold" = false
  /\ Config.get config_custom "arbitrage.threshold" (YFloat 1) = YFloat 0.1
  /\ Config.get config_custom "arbitrage.threshold.unit" (YStr "percent") = YStr "percent".
Proof.
  split; [reflexivity|].
  assert (has_dot "threshold" = false) as H1 by reflexivity.
  assert (has_dot "unit" = false) as H2 by reflexivity.
  destruct (get_composes config_custom "arbitrage" "threshold" (YFloat 1) H1) as [Ha _].
  destruct (get_composes config_custom "arbitrage.threshold" "unit" (YStr "percent") H2)
    as [_ Hb].
  split.
  - exact (Ha _ eq_refl).
  - refine (Hb _). intros items. discriminate.
Defined.

(** The first piece of a split has no dot. *)
Lemma has_dot_app (a b : string) : has_dot (a ++ b) = has_dot a || has_dot b.
Proof.
  induction a as [|c a IH]; [reflexivity|].
  rewrite string_app_cons. simpl. rewrite IH, orb_assoc. reflexivity.
Qed.

Lemma has_dot_rev (s : string) : has_dot (String.rev s) = has_dot s.
Proof.
  induction s as [|c s IH]; [reflexivity|].
  unfold String.rev. simpl. rewrite rev_app_append, has_dot_app, IH. simpl.
  rewrite orb_false_r, orb_comm. reflexivity.
Qed.

Lemma split_dot_from_head (s cur : string) :
  has_dot cur = false ->
  exists first rest, split_dot_from s cur = first :: rest /\ has_dot first = false.
Proof.
  revert cur. induction s as [|c s IH]; intros cur Hc; cbn.
  - eexists _, _. split; [reflexivity|]. rewrite has_dot_rev. exact Hc.
  - destruct (Ascii.eqb c ".") eqn:E.
    + eexists _, _. split; [reflexivity|]. rewrite has_dot_rev. exact Hc.
    + apply IH. cbn. rewrite E, Hc. reflexivity.
Qed.

(** X20. A key of the top-level mapping that contains a dot is out of the
    reach of [get]: no key path reads it, so the configuration answers
    every [get] as it does without that key. *)
Theorem dotted_key_is_never_read
    (items : list (string * yaml)) (key key_path : string) (value d : yaml) :
  has_dot key = true ->
  Config.get (YMap ((key, value) :: items)) key_path d
  = Config.get (YMap items) key_path d.
Proof.
  intros Hk. unfold Config.get.
  destruct (split_dot_from_head key_path "" eq_refl) as (first & rest & Hs & Hf).
  unfold split_dot. rewrite Hs. cbn [fold_left mbind option_bind subscript assoc].
  destruct (String.eqb_spec key first) as [->|Hne]; [congruence|]. reflexivity.
Qed.

Lemma dotted_key_is_never_read_witness :
  has_dot "binance.us" = true
  /\ Config.get (YMap [("binance.us"%string, YBool true)]) "binance.us" YNull = YNull.
Proof.
  split; [reflexivity|].
  rewrite (dotted_key_is_never_read [] "binance.us" "binance.us" (YBool true) YNull eq_refl).
  reflexivity.
Defined.

Lemma add_if_enabled_raise (e : exn) (items : list (string * yaml)) :
  fold_left add_if_enabled items (Raise e) = Raise e.
Proof. induction items as [|i items IH]; [reflexivity|]. exact IH. Qed.

Lemma enabled_fold (items : list (string * yaml)) :
  forall acc,
    fold_left add_if_enabled items (Ok acc)
    = if forallb (fun item => is_mapping item.2) items
      then Ok (acc ++ map fst (List.filter listed items))
      else Raise Exception.
Proof.
  induction items as [|[name v] items IH]; intros acc.
  - cbn. rewrite app_nil_r. reflexivity.
  - cbn [fold_left forallb List.filter]. unfold add_if_enabled at 2, listed at 1.
    cbn [mbind result_bind fst snd]. destruct v; cbn [dict_get is_mapping andb];
      try (cbn [mbind result_bind]; apply add_if_enabled_raise).
    cbn [mbind result_bind]. rewrite IH.
    destruct (truthy (default (YBool false) (assoc "enabled" items0)));
      destruct (forallb _ items); try reflexivity.
    cbn [map fst]. rewrite <- app_assoc. reflexivity.
Qed.

(** X21. [get_enabled_exchanges] returns exactly when every entry of the
    exchanges mapping is itself a mapping (any other entry makes it
    raise), and then lists, in the order of the configuration, the names
    of the entries whose [enabled] value is truthy. *)
Theorem enabled_exchanges_outcome (self : Config.t) (items : list (string * yaml))
    (Hexchanges : get_exchanges_config self = YMap items) :
  is_ok (get_enabled_exchanges self) = forallb (fun item => is_mapping item.2) items
  /\ forall names,
       get_enabled_exchanges self = Ok names ->
       names = map fst (List.filter listed items).
Proof.
  unfold get_enabled_exchanges. rewrite Hexchanges, enabled_fold. cbn [app].
  destruct (forallb _ items); split; try reflexivity; congruence.
Qed.

Lemma enabled_exchanges_outcome_witness :
  get_exchanges_config exchanges_config = YMap exchange_items
  /\ exists names,
       get_enabled_exchanges exchanges_config = Ok names
       /\ names = ["binance"%string].
Proof.
  split; [reflexivity|]. eexists. split; [reflexivity|].
  exact (proj2 (enabled_exchanges_outcome exchanges_config exchange_items eq_refl)
           _ eq_refl).
Defined.

Lemma assoc_in (key : string) (items : list (string * yaml)) (v : yaml) :
  NoDup (map fst items) -> In (key, v) items -> assoc key items = Some v.
Proof.
  induction items as [|[k w] items IH]; [intros _ []|].
  cbn [map fst]. intros Hnd%NoDup_cons [[= -> ->]|Hin]; cbn [assoc].
  - rewrite String.eqb_refl. reflexivity.
  - destruct Hnd as [Hk Hnd]. destruct (String.eqb_spec k key) as [->|Hne].
    + exfalso. apply Hk. apply list_elem_of_In. apply in_map_iff. exists (key, v). auto.
    + apply IH; assumption.
Qed.

Lemma assoc_some_in (key : string) (items : list (string * yaml)) (v : yaml) :
  assoc key items = Some v -> In (key, v) items.
Proof.
  induction items as [|[k w] items IH]; cbn [assoc]; [discriminate|].
  destruct (String.eqb_spec k key) as [->|Hne].
  - intros [= ->]. left. reflexivity.
  - intros H. right. apply IH. exact H.
Qed.

Lemma exchange_config_lookup (self : Config.t) (items : list (string * yaml))
    (name : string) :
  get_exchanges_config self = YMap items ->
  has_dot name = false ->
  get_exchange_config self name = default YNull (assoc name items).
Proof.
  unfold get_exchanges_config, get_exchange_config. intros H Hn.
  change ("exchanges." ++ name)%string with ("exchanges" ++ String "." name)%string.
  rewrite (get_extend _ _ _ _ Hn). rewrite get_lookup_path in H.
  destruct (lookup_path self (split_dot "exchanges")) as [v|]; cbn in H.
  - subst v. reflexivity.
  - injection H as <-. reflexivity.
Qed.

(** X22. The two readers of the enabled flag agree: for a name without a
    dot, [get_enabled_exchanges] lists the name exactly when
    [is_exchange_enabled] returns a truthy value for it. *)
Theorem enabled_readers_agree (self : Config.t) (items : list (string * yaml))
    (names : list string) (name : string) :
  get_exchanges_config self = YMap items ->
  NoDup (map fst items) ->
  get_enabled_exchanges self = Ok names ->
  has_dot name = false ->
  In name names
  <-> exists flag, is_exchange_enabled self name = Ok flag /\ truthy flag = true.
Proof.
  intros Hc Hnd He Hn. unfold get_enabled_exchanges in He.
  rewrite Hc, enabled_fold in He. cbn [app] in He.
  destruct (forallb _ items) eqn:Hall; [|discriminate]. injection He as <-.
  unfold is_exchange_enabled. rewrite (exchange_config_lookup _ _ _ Hc Hn).
  rewrite forallb_forall in Hall. split.
  - intros ([k v] & Hk & Hin)%in_map_iff. cbn in Hk. subst k.
    apply filter_In in Hin as [Hin Hl].
    rewrite (assoc_in _ _ _ Hnd Hin). cbn [default].
    specialize (Hall _ Hin). cbn in Hall. destruct v; try discriminate.
    unfold listed in Hl. cbn in Hl.
    destruct items0 as [|i its]; [discriminate Hl|].
    cbn. eexists. split; [reflexivity|exact Hl].
  - intros (flag & Hf & Ht). destruct (assoc name items) as [v|] eqn:Ha; cbn in Hf.
    + apply assoc_some_in in Ha. specialize (Hall _ Ha). cbn in Hall.
      destruct v; try discriminate. apply in_map_iff. exists (name, YMap items0).
      split; [reflexivity|]. apply filter_In. split; [exact Ha|].
      unfold listed. cbn. destruct items0 as [|i its]; cbn in Hf.
      * injection Hf as <-. discriminate.
      * injection Hf as <-. exact Ht.
    + injection Hf as <-. discriminate.
Qed.

Lemma enabled_readers_agree_witness :
  get_exchanges_config exchanges_config = YMap exchange_items
  /\ get_enabled_exchanges exchanges_config = Ok ["binance"%string]
  /\ has_dot "binance" = false
  /\ exists flag,
       is_exchange_enabled exchanges_config "binance" = Ok flag /\ truthy flag = true.
Proof.
  assert (NoDup (map fst exchange_items)) as Hnd.
  { apply NoDup_ListNoDup. repeat constructor; cbn; intuition discriminate. }
  split; [reflexivity|]. split; [reflexivity|]. split; [reflexivity|].
  apply (proj1 (enabled_readers_agree exchanges_config exchange_items ["binance"%string]
                  "binance" eq_refl Hnd eq_refl eq_refl)).
  left. reflexivity.
Defined.

(** ** Start-up *)

Import Startup.

Lemma settings_of_enabled (self : attributes) (s : settings) :
  settings_of self = Some s -> is_enabled s = attributes_enabled self.
Proof.
  unfold settings_of, is_enabled, attributes_enabled.
  destruct (at_enabled self), (at_api_key self), (at_api_secret self),
    (at_rate_limit self); try discriminate.
  intros [= <-]. reflexivity.
Qed.

Lemma base_init_mapping (config : yaml) (self : attributes) :
  base_init config = Ok self ->
  exists items,
    config = YMap items
    /\ at_enabled self = default (YBool false) (assoc "enabled" items)
    /\ at_api_key self = default (YStr "") (assoc "api_key" items)
    /\ at_api_secret self = default (YStr "") (assoc "api_secret" items)
    /\ at_rate_limit self = default (YInt 100) (assoc "rate_limit" items).
Proof.
  destruct config; try discriminate. unfold base_init. cbn. intros [= <-].
  eexists. split; [reflexivity|]. cbn. auto.
Qed.

Lemma assign_in (name : string) (ex : adapter) (exchanges : list (string * adapter))
    (item : string * adapter) :
  In item (assign name ex exchanges) ->
  item = (name, ex) \/ In item exchanges.
Proof.
  induction exchanges as [|[k v] rest IH]; cbn.
  - intros [<-|[]]. auto.
  - destruct (String.eqb_spec k name) as [->|Hk]; cbn.
    + intros [<-|?]; auto.
    + intros [<-|?]; [auto|]. destruct IH; auto.
Qed.

Lemma assign_keeps (name : string) (ex : adapter) (exchanges : list (string * adapter))
    (item : string * adapter) :
  In item exchanges -> item.1 <> name -> In item (assign name ex exchanges).
Proof.
  induction exchanges as [|[k v] rest IH]; cbn; [tauto|].
  intros [<-|Hin] Hne; cbn [fst] in *.
  - destruct (String.eqb_spec k name); [contradiction|]. left. reflexivity.
  - destruct (String.eqb_spec k name); right; auto.
Qed.

Lemma assign_has (name : string) (ex : adapter) (exchanges : list (string * adapter)) :
  In (name, ex) (assign name ex exchanges).
Proof.
  induction exchanges as [|[k v] rest IH]; cbn; [auto|].
  destruct (String.eqb_spec k name) as [->|]; [left; reflexivity|right; exact IH].
Qed.

Lemma NoDup_filter_keys (f : string * yaml -> bool) (items : list (string * yaml)) :
  NoDup (map fst items) -> NoDup (map fst (List.filter f items)).
Proof.
  induction items as [|[k v] items IH]; cbn; [auto|].
  intros [Hk Hnd]%NoDup_cons. destruct (f (k, v)); cbn; [|auto].
  apply NoDup_cons. split; [|auto]. intros Hin. apply Hk.
  apply list_elem_of_In in Hin. apply list_elem_of_In.
  apply in_map_iff in Hin as ([k' v'] & Heq & Hin). apply filter_In in Hin as [Hin _].
  apply in_map_iff. exists (k', v'). auto.
Qed.

Section InitializeFacts.

Variable binance_client : string -> result (result (list (string * yaml))).
Variable htx_new : string -> yaml -> bool.
Variable htx_initialize : string -> yaml -> result bool.

Lemma register_raise (config : Config.t) (e : exn) (names : list string) :
  fold_left (register binance_client htx_new htx_initialize config) names (Raise e) = Raise e.
Proof. induction names as [|n l IH]; [reflexivity|exact IH]. Qed.

Lemma register_fold (config : Config.t) (all : list string) (names : list string) :
  forall acc exchanges,
    (forall n, In n names -> In n all) ->
    Forall (registered_ok binance_client htx_new htx_initialize config all) acc ->
    fold_left (register binance_client htx_new htx_initialize config) names (Ok acc) = Ok exchanges ->
    Forall (registered_ok binance_client htx_new htx_initialize config all) exchanges.
Proof.
  induction names as [|n l IH]; intros acc exchanges Hsub Hacc Hf.
  - injection Hf as <-. exact Hacc.
  - cbn [fold_left] in Hf. unfold register at 2 in Hf. cbn [mbind result_bind] in Hf.
    assert (forall n0, In n0 l -> In n0 all) as Hsub' by (intros; apply Hsub; right; auto).
    destruct (truthy (get_exchange_config config n)) eqn:Ht; cbn [negb] in Hf;
      [|exact (IH _ _ Hsub' Hacc Hf)].
    destruct (_create_exchange htx_new n (get_exchange_config config n)) as [ex|] eqn:Hc;
      [|exact (IH _ _ Hsub' Hacc Hf)].
    destruct (exchange_initialize binance_client htx_initialize n ex) as [[]|] eqn:Hi; cbn [mbind result_bind] in Hf.
    + refine (IH _ _ Hsub' _ Hf). apply List.Forall_forall. intros item Hin.
      apply assign_in in Hin as [->|Hin].
      * repeat split; cbn [fst snd]; auto. apply Hsub. left. reflexivity.
      * rewrite List.Forall_forall in Hacc. auto.
    + exact (IH _ _ Hsub' Hacc Hf).
    + rewrite register_raise in Hf. discriminate.
Qed.

(** X23. When [initialize] returns, at least one exchange is registered,
    and every registered exchange is listed as enabled in the
    configuration, has its configuration under its name, is a Binance or
    an HTX adapter by its lower-cased name, and has answered [True] to its
    own [initialize()]. *)
Theorem initialize_registers (config : Config.t) (exchanges : list (string * adapter))
    (Hinit : initialize binance_client htx_new htx_initialize config = Ok exchanges) :
  exchanges <> []
  /\ exists names,
       get_enabled_exchanges config = Ok names
       /\ forall name ex, In (name, ex) exchanges ->
            In name names
            /\ truthy (get_exchange_config config name) = true
            /\ (lower name = "binance"%string \/ lower name = "htx"%string)
            /\ _create_exchange htx_new name (get_exchange_config config name) = Some ex
            /\ exchange_initialize binance_client htx_initialize name ex = Ok true.
Proof.
  unfold initialize in Hinit.
  destruct (get_enabled_exchanges config) as [names|] eqn:Hn; [|discriminate].
  cbn [mbind result_bind] in Hinit.
  destruct (fold_left (register binance_client htx_new htx_initialize config) names (Ok [])) as [l|] eqn:Hf; [|discriminate].
  cbn [mbind result_bind] in Hinit.
  destruct l as [|i l]; [discriminate|]. injection Hinit as <-.
  split; [discriminate|]. exists names. split; [reflexivity|].
  intros name ex Hin.
  pose proof (register_fold config names names [] _ (fun _ H => H) (List.Forall_nil _) Hf) as Hall.
  rewrite List.Forall_forall in Hall. destruct (Hall _ Hin) as (H1 & H2 & H3 & H4).
  cbn [fst snd] in *. repeat split; try assumption.
  unfold _create_exchange in H3.
  destruct (String.eqb_spec (lower name) "binance"); [auto|].
  destruct (String.eqb_spec (lower name) "htx"); [auto|discriminate].
Qed.

Lemma register_step (config : Config.t) (acc : list (string * adapter)) (n : string) :
  (forall name cfg, is_ok (htx_initialize name cfg) = true) ->
  exists l,
    register binance_client htx_new htx_initialize config (Ok acc) n = Ok l
    /\ (forall item, In item acc -> item.1 <> n -> In item l)
    /\ (forall ex,
          truthy (get_exchange_config config n) = true ->
          _create_exchange htx_new n (get_exchange_config config n) = Some ex ->
          exchange_initialize binance_client htx_initialize n ex = Ok true ->
          In (n, ex) l).
Proof.
  intros Hhtx. unfold register. cbn [mbind result_bind].
  destruct (truthy (get_exchange_config config n)); cbn [negb].
  2:{ exists acc. split; [reflexivity|]. split; [auto|discriminate]. }
  destruct (_create_exchange htx_new n (get_exchange_config config n)) as [ex|].
  2:{ exists acc. split; [reflexivity|]. split; [auto|discriminate]. }
  destruct (exchange_initialize binance_client htx_initialize n ex) as [[]|e] eqn:Hi;
    cbn [mbind result_bind].
  - eexists. split; [reflexivity|]. split.
    + intros item Hin Hne. apply assign_keeps; assumption.
    + intros ex' _ [= <-] _. apply assign_has.
  - exists acc. split; [reflexivity|]. split; [auto|]. intros ex' _ [= <-]. rewrite Hi. discriminate.
  - destruct ex as [self|cfg]; cbn in Hi; [discriminate|].
    specialize (Hhtx n cfg). rewrite Hi in Hhtx. discriminate.
Qed.

Lemma register_all (config : Config.t) (names : list string) :
  (forall name cfg, is_ok (htx_initialize name cfg) = true) ->
  NoDup names ->
  forall acc, exists l,
    fold_left (register binance_client htx_new htx_initialize config) names (Ok acc) = Ok l
    /\ (forall item, In item acc -> ~ In item.1 names -> In item l)
    /\ (forall n ex,
          In n names ->
          truthy (get_exchange_config config n) = true ->
          _create_exchange htx_new n (get_exchange_config config n) = Some ex ->
          exchange_initialize binance_client htx_initialize n ex = Ok true ->
          In (n, ex) l).
Proof.
  intros Hhtx. induction 1 as [|n names Hn Hnd IH]; intros acc.
  - exists acc. split; [reflexivity|]. split; [auto|intros ? ? []].
  - cbn [fold_left]. destruct (register_step config acc n Hhtx) as (l1 & -> & Hk & Hr).
    destruct (IH l1) as (l & -> & Hk' & Hr'). exists l. split; [reflexivity|]. split.
    + intros item Hin Hni. apply Hk'.
      * apply Hk; [assumption|]. intros Heq. apply Hni. left. symmetry. exact Heq.
      * intros ?. apply Hni. right. assumption.
    + intros n0 ex [<-|Hin] Ht Hc Hi.
      * apply Hk'; [apply Hr; assumption|]. cbn [fst]. rewrite <- list_elem_of_In. exact Hn.
      * apply Hr'; assumption.
Qed.

(** X24. Registration does not look at the credentials: a Binance entry of
    the configuration that is flagged enabled and whose client answers
    the connection test is registered by [initialize], also without an
    [api_key]; [is_enabled()] is then false on the registered adapter,
    and every round takes the early exit for it. *)
Theorem registered_without_credentials (config : Config.t)
    (items entries : list (string * yaml)) (name : string) (self : attributes)
    (Hexchanges : get_exchanges_config config = YMap items)
    (Hmappings : forallb (fun item => is_mapping item.2) items = true)
    (Hkeys : NoDup (map fst items))
    (Hentry : In (name, YMap entries) items)
    (Hname : has_dot name = false)
    (Hflag : truthy (default (YBool false) (assoc "enabled" entries)) = true)
    (Hclass : lower name = "binance"%string)
    (Hself : base_init (YMap entries) = Ok self)
    (Hconnects : binance_initialize self (binance_client name) = true)
    (Hhtx : forall n cfg, is_ok (htx_initialize n cfg) = true) :
  exists exchanges,
    initialize binance_client htx_new htx_initialize config = Ok exchanges
    /\ In (name, Binance self) exchanges
    /\ (assoc "api_key" entries = None ->
        attributes_enabled self = false
        /\ forall s ex now,
             settings_of self = Some s -> ex_settings ex = s ->
             _collect_exchange_data name ex now = (false, [])).
Proof.
  unfold initialize, get_enabled_exchanges. rewrite Hexchanges, enabled_fold, Hmappings.
  cbn [app mbind result_bind].
  destruct (register_all config (map fst (List.filter listed items)) Hhtx
              (NoDup_filter_keys _ _ Hkeys) []) as (l & -> & _ & Hr).
  cbn [mbind result_bind].
  assert (get_exchange_config config name = YMap entries) as Hcfg.
  { rewrite (exchange_config_lookup _ _ _ Hexchanges Hname), (assoc_in _ _ _ Hkeys Hentry).
    reflexivity. }
  assert (In (name, Binance self) l) as Hin.
  { apply Hr.
    - apply in_map_iff. exists (name, YMap entries). split; [reflexivity|].
      apply filter_In. split; [assumption|]. exact Hflag.
    - rewrite Hcfg. destruct entries; [discriminate Hflag|reflexivity].
    - unfold _create_exchange. rewrite Hclass, Hcfg, Hself. reflexivity.
    - cbn. rewrite Hconnects. reflexivity. }
  destruct l as [|i l]; [destruct Hin|]. eexists. split; [reflexivity|].
  split; [exact Hin|]. intros Hkey.
  assert (attributes_enabled self = false) as Hoff.
  { apply base_init_mapping in Hself as (its & [= <-] & _ & Hk & _).
    unfold attributes_enabled. rewrite Hk, Hkey. cbn [default truthy truthy_str].
    destruct (truthy (at_enabled self)), (truthy (at_api_secret self)); reflexivity. }
  split; [exact Hoff|]. intros s ex now Hs Hex.
  unfold _collect_exchange_data. rewrite Hex, (settings_of_enabled _ _ Hs), Hoff. reflexivity.
Qed.

End InitializeFacts.

Lemma initialize_registers_witness :
  exists exchanges,
    initialize answering_client no_htx_new no_htx_initialize exchanges_config
    = Ok exchanges
    /\ exchanges = [("binance"%string, Binance keyless_attributes)]
    /\ exchanges <> [].
Proof.
  eexists. split; [reflexivity|]. split; [reflexivity|].
  exact (proj1 (initialize_registers answering_client no_htx_new no_htx_initialize
                  exchanges_config _ eq_refl)).
Defined.

Lemma registered_without_credentials_witness :
  assoc "api_key" binance_entry = None
  /\ exists exchanges,
       initialize answering_client no_htx_new no_htx_initialize exchanges_config
       = Ok exchanges
       /\ In ("binance"%string, Binance keyless_attributes) exchanges
       /\ attributes_enabled keyless_attributes = false.
Proof.
  assert (NoDup (map fst exchange_items)) as Hnd.
  { apply NoDup_ListNoDup. repeat constructor; cbn; intuition discriminate. }
  split; [reflexivity|].
  destruct (registered_without_credentials answering_client no_htx_new no_htx_initialize
              exchanges_config exchange_items binance_entry "binance" keyless_attributes
              eq_refl eq_refl Hnd (or_introl eq_refl) eq_refl eq_refl eq_refl eq_refl
              eq_refl (fun _ _ => eq_refl))
    as (exchanges & Hi & Hin & Hoff).
  exists exchanges. split; [exact Hi|]. split; [exact Hin|].
  exact (proj1 (Hoff eq_refl)).
Defined.

Section Registered.

Variable binance_client : string -> result (result (list (string * yaml))).
Variable htx_new : string -> yaml -> bool.
Variable htx_initialize : string -> yaml -> result bool.

(** X28. A Binance adapter that [initialize] has registered has a rate
    limit that divides 60000 and a client that answered the connection
    test; with an integer rate limit, that limit is not zero, so its
    [rate_limit_check] returns, except for an [int] too large to convert
    to a [float], where it raises [OverflowError]. *)
Theorem registered_binance_connected (config : Config.t)
    (exchanges : list (string * adapter)) (name : string) (self : attributes)
    (Hinit : initialize binance_client htx_new htx_initialize config = Ok exchanges)
    (Hin : In (name, Binance self) exchanges) :
  divides (at_rate_limit self) = true
  /\ (exists fetch_ticker,
        binance_client name = Ok fetch_ticker
        /\ BinanceMarket.test_connection fetch_ticker = true)
  /\ forall s,
       settings_of self = Some s ->
       rate_limit s <> 0
       /\ rate_limit_check s
          = if float_int_limit <=? Z.abs (rate_limit s)
            then Raise OverflowError else Ok tt.
Proof.
  unfold initialize in Hinit.
  destruct (get_enabled_exchanges config) as [names|]; [|discriminate].
  cbn [mbind result_bind] in Hinit.
  destruct (fold_left _ names (Ok [])) as [l|] eqn:Hf; [|discriminate].
  cbn [mbind result_bind] in Hinit. destruct l as [|i l]; [discriminate|].
  injection Hinit as <-.
  pose proof (register_fold binance_client htx_new htx_initialize config names names []
                _ (fun _ H => H) (List.Forall_nil _) Hf) as Hall.
  rewrite List.Forall_forall in Hall. destruct (Hall _ Hin) as (_ & _ & _ & Hi).
  cbn [fst snd exchange_initialize] in Hi. injection Hi as Hi.
  unfold binance_initialize in Hi.
  destruct (divides (at_rate_limit self)) eqn:Hd; [|discriminate].
  split; [reflexivity|]. split.
  - destruct (binance_client name) as [fetch_ticker|]; [|discriminate]. eauto.
  - intros s Hs. unfold settings_of in Hs.
    destruct (at_enabled self), (at_api_key self), (at_api_secret self),
      (at_rate_limit self); try discriminate.
    injection Hs as <-. unfold rate_limit_check. cbn [rate_limit divides] in *.
    destruct (Z.eqb_spec n 0); [discriminate|]. split; [assumption|reflexivity].
Qed.

End Registered.

Lemma registered_binance_connected_witness :
  exists exchanges,
    initialize answering_client no_htx_new no_htx_initialize exchanges_config
    = Ok exchanges
    /\ In ("binance"%string, Binance keyless_attributes) exchanges
    /\ divides (at_rate_limit keyless_attributes) = true.
Proof.
  eexists. split; [reflexivity|].
  assert (In ("binance"%string, Binance keyless_attributes)
             [("binance"%string, Binance keyless_attributes)]) as Hin
    by (left; reflexivity).
  split; [exact Hin|].
  exact (proj1 (registered_binance_connected answering_client no_htx_new
                  no_htx_initialize exchanges_config _ "binance" keyless_attributes
                  eq_refl Hin)).
Defined.
